(** * The event bus of event.c / event.h: queue, registry and dispatch

    A shallow embedding of the event system (event.h, event.c) and the
    properties of its specification.  The C globals [g_queue],
    [g_subscribers], [g_observers] and [g_initialized] become the fields
    of one record that every function takes and returns; a callback is a
    function pointer (an address), and what the pointed-to function does
    is looked up in a table [code] that is a parameter of the dispatch
    functions.  [debug_print] only prints and is left out; the value of
    [get_time_ms ()], the clock, is a parameter of [EVENT_Publish]. *)

From Stdlib Require Import ZArith Lia List Bool.
From stdpp Require Import base list.
Import ListNotations.

Open Scope Z_scope.

(** ** Configuration macros (event.h) *)

Definition EVENT_MAX_COUNT : Z := 32.
Definition EVENT_SUBSCRIBER_MAX : nat := 8.
Definition EVENT_OBSERVER_MAX : nat := 4.
Definition EVENT_QUEUE_SIZE : Z := 64.
Definition EVENT_DATA_SIZE_MAX : Z := 32.

(** Conversion to [uint16_t]. *)
Definition u16 (x : Z) : Z := x mod 2 ^ 16.

(** ** Types (event.h, event.c) *)

(** [Event_t].  [data] always holds [EVENT_DATA_SIZE_MAX] bytes. *)
Record Event_t := mkEvent {
  type : Z;
  priority : Z;
  timestamp : Z;
  data_size : Z;
  data : list Z
}.

(** What [memset (&event, 0, sizeof (event))] leaves. *)
Definition Event_zero : Event_t :=
  mkEvent 0 0 0 0 (repeat 0 (Z.to_nat EVENT_DATA_SIZE_MAX)).

#[global] Instance Event_inhabited : Inhabited Event_t := populate Event_zero.

(** [EventQueue_t]; the fields are [queue], [head], [tail] and [count] in
    the source. *)
Record EventQueue_t := mkQueue {
  q_queue : list Event_t;
  q_head : Z;
  q_tail : Z;
  q_count : Z
}.

(** [Subscriber_t] and [Observer_t]: the fields are [callback], [arg] and
    [used] in both.  A callback is the address of a function, [0] being
    [NULL]; [arg] is a [void*], an address as well. *)
Record Subscriber_t := mkSub {
  s_callback : Z;
  s_arg : Z;
  s_used : bool
}.

Record Observer_t := mkObs {
  o_callback : Z;
  o_arg : Z;
  o_used : bool
}.

#[global] Instance Subscriber_inhabited : Inhabited Subscriber_t :=
  populate (mkSub 0 0 false).
#[global] Instance Observer_inhabited : Inhabited Observer_t :=
  populate (mkObs 0 0 false).

(** The slot of the registry a handler was called from. *)
Inductive Slot :=
| SubSlot (t : Z) (i : nat)
| ObsSlot (i : nat).

(** One call of a handler, as [dispatch_event] makes it: the slot, the
    two values read from it, the [Event_t*] passed (the index of the slot
    of [g_queue.queue] it points to) and what that record held when the
    call was made. *)
Record Invocation := mkInv {
  inv_slot : Slot;
  inv_callback : Z;
  inv_arg : Z;
  inv_event : nat;
  inv_record : Event_t
}.

(** One turn of the loop of [EVENT_Process]: the pointer [queue_pop]
    returned, the record it pointed to at that time, and the calls
    [dispatch_event] made for it. *)
Record Dispatched := mkDispatched {
  d_event : nat;
  d_record : Event_t;
  d_calls : list Invocation
}.

Section Bus.

(** The memory of the program outside event.c, which handlers may read
    and write and the functions of event.c never touch. *)
Context {U : Type}.

(** The file-scope variables of event.c. *)
Record Bus := mkBus {
  g_queue : EventQueue_t;
  g_subscribers : list (list Subscriber_t);
  g_observers : list Observer_t;
  g_initialized : bool;
  g_rest : U
}.

(** What the function at each address does when [dispatch_event] calls it
    with an [Event_t*] and an [arg]. *)
Definition Handlers : Type := Z -> nat -> Z -> Bus -> Bus.

(** *** Queue *)

Definition queue_zero : EventQueue_t :=
  mkQueue (repeat Event_zero (Z.to_nat EVENT_QUEUE_SIZE)) 0 0 0.

Definition queue_init (s : Bus) : Z * Bus :=
  (0, mkBus queue_zero (g_subscribers s) (g_observers s)
        (g_initialized s) (g_rest s)).

Definition with_queue (s : Bus) (q : EventQueue_t) : Bus :=
  mkBus q (g_subscribers s) (g_observers s) (g_initialized s) (g_rest s).

Definition queue_push (e : Event_t) (s : Bus) : Z * Bus :=
  let q := g_queue s in
  if q_count q >=? EVENT_QUEUE_SIZE then (-1, s)
  else
    (0, with_queue s
          (mkQueue (<[Z.to_nat (q_tail q) := e]> (q_queue q))
                   (q_head q)
                   (u16 ((q_tail q + 1) mod EVENT_QUEUE_SIZE))
                   (u16 (q_count q + 1)))).

(** The result is the address of a slot of the queue, not a copy of the
    record. *)
Definition queue_pop (s : Bus) : option nat * Bus :=
  let q := g_queue s in
  if q_count q =? 0 then (None, s)
  else
    (Some (Z.to_nat (q_head q)),
     with_queue s
       (mkQueue (q_queue q)
                (u16 ((q_head q + 1) mod EVENT_QUEUE_SIZE))
                (q_tail q)
                (u16 (q_count q - 1)))).

Definition queue_is_empty (s : Bus) : bool := q_count (g_queue s) =? 0.

Definition queue_get_count (s : Bus) : Z := q_count (g_queue s).

(** *** Registry access *)

(** [g_subscribers[t][i]] and [g_observers[i]]. *)
Definition sub_at (s : Bus) (t : Z) (i : nat) : Subscriber_t :=
  (g_subscribers s !!! Z.to_nat t) !!! i.

Definition obs_at (s : Bus) (i : nat) : Observer_t := g_observers s !!! i.

Definition set_sub (s : Bus) (t : Z) (i : nat) (x : Subscriber_t) : Bus :=
  mkBus (g_queue s)
        (<[Z.to_nat t := <[i := x]> (g_subscribers s !!! Z.to_nat t)]>
           (g_subscribers s))
        (g_observers s) (g_initialized s) (g_rest s).

Definition set_obs (s : Bus) (i : nat) (x : Observer_t) : Bus :=
  mkBus (g_queue s) (g_subscribers s) (<[i := x]> (g_observers s))
        (g_initialized s) (g_rest s).

(** [*event] *)
Definition deref (s : Bus) (event : nat) : Event_t :=
  q_queue (g_queue s) !!! event.

(** *** Public functions *)

Definition subs_zero : list (list Subscriber_t) :=
  repeat (repeat (mkSub 0 0 false) EVENT_SUBSCRIBER_MAX)
         (Z.to_nat EVENT_MAX_COUNT).

Definition obs_zero : list Observer_t :=
  repeat (mkObs 0 0 false) EVENT_OBSERVER_MAX.

Definition EVENT_Init (s : Bus) : Z * Bus :=
  let s1 := snd (queue_init s) in
  (0, mkBus (g_queue s1) subs_zero obs_zero true (g_rest s1)).

(** The loop [for (int i = 0; i < EVENT_SUBSCRIBER_MAX; i++)] of
    [EVENT_Subscribe], with [n] turns left. *)
Fixpoint subscribe_loop (n i : nat) (type callback arg : Z) (s : Bus)
  : Z * Bus :=
  match n with
  | O => (-1, s)
  | S n' =>
      if negb (s_used (sub_at s type i))
      then (0, set_sub s type i (mkSub callback arg true))
      else subscribe_loop n' (S i) type callback arg s
  end.

Definition EVENT_Subscribe (type callback arg : Z) (s : Bus) : Z * Bus :=
  if negb (g_initialized s) || (type >=? EVENT_MAX_COUNT) || (callback =? 0)
  then (-1, s)
  else subscribe_loop EVENT_SUBSCRIBER_MAX 0 type callback arg s.

Fixpoint unsubscribe_loop (n i : nat) (type callback arg : Z) (s : Bus)
  : Z * Bus :=
  match n with
  | O => (-1, s)
  | S n' =>
      let x := sub_at s type i in
      if s_used x && (s_callback x =? callback) && (s_arg x =? arg)
      then (0, set_sub s type i (mkSub (s_callback x) (s_arg x) false))
      else unsubscribe_loop n' (S i) type callback arg s
  end.

Definition EVENT_Unsubscribe (type callback arg : Z) (s : Bus) : Z * Bus :=
  if negb (g_initialized s) || (type >=? EVENT_MAX_COUNT) || (callback =? 0)
  then (-1, s)
  else unsubscribe_loop EVENT_SUBSCRIBER_MAX 0 type callback arg s.

(** [memcpy (dst, src, n)] on byte arrays.  Reading [src] past its end is
    undefined in C; here it reads zero. *)
Definition memcpy (dst src : list Z) (n : Z) : list Z :=
  map (fun i => nth i src 0) (seq 0 (Z.to_nat n)) ++ drop (Z.to_nat n) dst.

(** The record [EVENT_Publish] builds on its stack: [now] is what
    [get_time_ms ()] returned, [data] is [None] for a [NULL] pointer and
    the bytes at the pointer otherwise. *)
Definition make_event (now type priority : Z) (data : option (list Z))
    (data_size : Z) : Event_t :=
  match data with
  | Some bytes =>
      if data_size >? 0
      then mkEvent type priority now data_size
             (memcpy (repeat 0 (Z.to_nat EVENT_DATA_SIZE_MAX)) bytes data_size)
      else mkEvent type priority now 0
             (repeat 0 (Z.to_nat EVENT_DATA_SIZE_MAX))
  | None =>
      mkEvent type priority now 0 (repeat 0 (Z.to_nat EVENT_DATA_SIZE_MAX))
  end.

Definition EVENT_Publish (now type priority : Z) (data : option (list Z))
    (data_size : Z) (s : Bus) : Z * Bus :=
  if negb (g_initialized s) || (type >=? EVENT_MAX_COUNT) then (-1, s)
  else if (match data with Some _ => true | None => false end)
          && (data_size >? EVENT_DATA_SIZE_MAX) then (-1, s)
  else
    let event := make_event now type priority data data_size in
    let (r, s1) := queue_push event s in
    if negb (r =? 0) then (-1, s1) else (0, s1).

(** *** Dispatch *)

(** The first loop of [dispatch_event], at index [i] with [n] turns left.
    [event->type] and the slot are read from the current state at every
    turn. *)
Fixpoint dispatch_subscribers (code : Handlers) (n i : nat) (event : nat)
    (s : Bus) : Bus * list Invocation :=
  match n with
  | O => (s, [])
  | S n' =>
      let t := type (deref s event) in
      let x := sub_at s t i in
      if s_used x then
        let s1 := code (s_callback x) event (s_arg x) s in
        let (s2, calls) := dispatch_subscribers code n' (S i) event s1 in
        (s2, mkInv (SubSlot t i) (s_callback x) (s_arg x) event
                   (deref s event) :: calls)
      else dispatch_subscribers code n' (S i) event s
  end.

(** The second loop of [dispatch_event]. *)
Fixpoint dispatch_observers (code : Handlers) (n i : nat) (event : nat)
    (s : Bus) : Bus * list Invocation :=
  match n with
  | O => (s, [])
  | S n' =>
      let x := obs_at s i in
      if o_used x then
        let s1 := code (o_callback x) event (o_arg x) s in
        let (s2, calls) := dispatch_observers code n' (S i) event s1 in
        (s2, mkInv (ObsSlot i) (o_callback x) (o_arg x) event
                   (deref s event) :: calls)
      else dispatch_observers code n' (S i) event s
  end.

Definition dispatch_event (code : Handlers) (event : nat) (s : Bus)
  : Bus * list Invocation :=
  let (s1, c1) := dispatch_subscribers code EVENT_SUBSCRIBER_MAX 0 event s in
  let (s2, c2) := dispatch_observers code EVENT_OBSERVER_MAX 0 event s1 in
  (s2, c1 ++ c2).

(** The [while] loop of [EVENT_Process].  Handlers may publish, so the
    loop need not end: [fuel] bounds the number of times its condition is
    evaluated, and [None] means the bound was reached.  [count] is the C
    variable (an [int], which [2^31] turns of the loop would overflow);
    the list is the record of what was dispatched, in order. *)
Fixpoint process_loop (code : Handlers) (fuel : nat) (count : Z) (s : Bus)
  : option (Z * Bus * list Dispatched) :=
  match fuel with
  | O => None
  | S fuel' =>
      if queue_is_empty s then Some (count, s, [])
      else
        match queue_pop s with
        | (None, s1) => Some (count, s1, [])
        | (Some e, s1) =>
            let r := deref s1 e in
            let (s2, calls) := dispatch_event code e s1 in
            match process_loop code fuel' (count + 1) s2 with
            | Some (n, s3, ds) => Some (n, s3, mkDispatched e r calls :: ds)
            | None => None
            end
        end
  end.

Definition EVENT_Process (code : Handlers) (fuel : nat) (s : Bus)
  : option (Z * Bus * list Dispatched) :=
  if negb (g_initialized s) then Some (0, s, [])
  else process_loop code fuel 0 s.

Definition EVENT_ClearQueue (s : Bus) : Z * Bus :=
  (0, snd (queue_init s)).

Definition EVENT_GetCount (s : Bus) : Z := queue_get_count s.

Fixpoint register_loop (n i : nat) (callback arg : Z) (s : Bus) : Z * Bus :=
  match n with
  | O => (-1, s)
  | S n' =>
      if negb (o_used (obs_at s i))
      then (0, set_obs s i (mkObs callback arg true))
      else register_loop n' (S i) callback arg s
  end.

Definition EVENT_RegisterObserver (callback arg : Z) (s : Bus) : Z * Bus :=
  if negb (g_initialized s) || (callback =? 0) then (-1, s)
  else register_loop EVENT_OBSERVER_MAX 0 callback arg s.

Fixpoint unregister_loop (n i : nat) (callback : Z) (s : Bus) : Z * Bus :=
  match n with
  | O => (-1, s)
  | S n' =>
      let x := obs_at s i in
      if o_used x && (o_callback x =? callback)
      then (0, set_obs s i (mkObs (o_callback x) (o_arg x) false))
      else unregister_loop n' (S i) callback s
  end.

Definition EVENT_UnregisterObserver (callback : Z) (s : Bus) : Z * Bus :=
  if negb (g_initialized s) || (callback =? 0) then (-1, s)
  else unregister_loop EVENT_OBSERVER_MAX 0 callback s.

(** *** The public interface as one type of calls *)

Inductive Op :=
| OpInit
| OpSubscribe (type callback arg : Z)
| OpUnsubscribe (type callback arg : Z)
| OpPublish (now type priority : Z) (data : option (list Z)) (data_size : Z)
| OpProcess
| OpClearQueue
| OpGetCount
| OpRegisterObserver (callback arg : Z)
| OpUnregisterObserver (callback : Z).

(** The value returned, the state left and the calls made to handlers;
    [None] only when [EVENT_Process] runs out of [fuel]. *)
Definition exec (code : Handlers) (fuel : nat) (op : Op) (s : Bus)
  : option (Z * Bus * list Dispatched) :=
  let quiet (r : Z * Bus) := Some (fst r, snd r, []) in
  match op with
  | OpInit => quiet (EVENT_Init s)
  | OpSubscribe t cb a => quiet (EVENT_Subscribe t cb a s)
  | OpUnsubscribe t cb a => quiet (EVENT_Unsubscribe t cb a s)
  | OpPublish now t pr d n => quiet (EVENT_Publish now t pr d n s)
  | OpProcess => EVENT_Process code fuel s
  | OpClearQueue => quiet (EVENT_ClearQueue s)
  | OpGetCount => quiet (EVENT_GetCount s, s)
  | OpRegisterObserver cb a => quiet (EVENT_RegisterObserver cb a s)
  | OpUnregisterObserver cb => quiet (EVENT_UnregisterObserver cb s)
  end.

(** A sequence of calls: the values returned, the state left and what was
    dispatched on the way. *)
Fixpoint run (code : Handlers) (fuel : nat) (ops : list Op) (s : Bus)
  : option (list Z * Bus * list Dispatched) :=
  match ops with
  | [] => Some ([], s, [])
  | op :: ops' =>
      match exec code fuel op s with
      | None => None
      | Some (r, s1, ds) =>
          match run code fuel ops' s1 with
          | None => None
          | Some (rs, s2, ds') => Some (r :: rs, s2, ds ++ ds')
          end
      end
  end.

(** The statics before [main] runs: all zero. *)
Definition bus_start (rest : U) : Bus :=
  mkBus queue_zero subs_zero obs_zero false rest.

End Bus.

Arguments Bus : clear implicits.
Arguments Handlers : clear implicits.

(** ** Invariants and assumptions on handlers *)

(** Linear arithmetic with the constants of event.h and [mod]. *)
Ltac zmod :=
  unfold EVENT_QUEUE_SIZE, EVENT_MAX_COUNT, EVENT_DATA_SIZE_MAX in *;
  Z.div_mod_to_equations; lia.

Section Predicates.

Context {U : Type}.
Implicit Types (s : Bus U) (code : Handlers U) (q : EventQueue_t).

(** The invariant of the queue: the bounds on the three indices, and
    [tail] is the slot that follows the [count] live ones, which start at
    [head]. *)
Definition queue_inv (q : EventQueue_t) : Prop :=
  0 <= q_count q <= EVENT_QUEUE_SIZE /\
  0 <= q_head q < EVENT_QUEUE_SIZE /\
  0 <= q_tail q < EVENT_QUEUE_SIZE /\
  q_tail q = (q_head q + q_count q) mod EVENT_QUEUE_SIZE.

(** The slot of the [k]-th live record. *)
Definition live_slot (q : EventQueue_t) (k : nat) : nat :=
  Z.to_nat ((q_head q + Z.of_nat k) mod EVENT_QUEUE_SIZE).

(** The live records, oldest first. *)
Definition live (q : EventQueue_t) : list Event_t :=
  map (fun k => q_queue q !!! live_slot q k) (seq 0 (Z.to_nat (q_count q))).

(** The sizes the C types give the three arrays. *)
Definition wf_bus s : Prop :=
  length (q_queue (g_queue s)) = Z.to_nat EVENT_QUEUE_SIZE /\
  length (g_subscribers s) = Z.to_nat EVENT_MAX_COUNT /\
  Forall (fun row => length row = EVENT_SUBSCRIBER_MAX) (g_subscribers s) /\
  length (g_observers s) = EVENT_OBSERVER_MAX.

(** Handlers that leave the queue alone: they call none of
    [EVENT_Publish], [EVENT_Process], [EVENT_ClearQueue] and [EVENT_Init]
    and do not write through the [Event_t*] they are given. *)
Definition keeps_queue code : Prop :=
  forall cb e a s, g_queue (code cb e a s) = g_queue s.

(** Handlers that leave both tables of the registry alone. *)
Definition keeps_registry code : Prop :=
  forall cb e a s,
    g_subscribers (code cb e a s) = g_subscribers s /\
    g_observers (code cb e a s) = g_observers s.

(** Handlers under which a property of the state survives. *)
Definition preserves (P : Bus U -> Prop) code : Prop :=
  forall cb e a s, P s -> P (code cb e a s).

(** The arguments of one call of [EVENT_Publish], with the clock value it
    samples. *)
Record Publish_args := mkPublish {
  p_now : Z;
  p_type : Z;
  p_priority : Z;
  p_data : option (list Z);
  p_data_size : Z
}.

Definition publish (r : Publish_args) s : Z * Bus U :=
  EVENT_Publish (p_now r) (p_type r) (p_priority r) (p_data r)
                (p_data_size r) s.

Definition event_of (r : Publish_args) : Event_t :=
  make_event (p_now r) (p_type r) (p_priority r) (p_data r) (p_data_size r).

(** A run of calls of [EVENT_Publish] that all return 0, and the state it
    leaves. *)
Fixpoint publish_seq (rs : list Publish_args) s : option (Bus U) :=
  match rs with
  | [] => Some s
  | r :: rs' =>
      let (v, s1) := publish r s in
      if v =? 0 then publish_seq rs' s1 else None
  end.

(** Every call was made with the pointer [e], which pointed to [r]. *)
Definition calls_carry (e : nat) (r : Event_t) (calls : list Invocation) :=
  Forall (fun c => inv_event c = e /\ inv_record c = r) calls.

Definition initialized s : Prop := g_initialized s = true.

(** Arguments that pass the checks of [EVENT_Publish] on the type and on
    the size. *)
Definition valid_publish (r : Publish_args) : Prop :=
  0 <= p_type r < EVENT_MAX_COUNT /\
  (p_data r = None \/ p_data_size r <= EVENT_DATA_SIZE_MAX).

(** *** Who a dispatch calls *)

(** The slots in use, in the order of the scans of [dispatch_event]. *)
Definition active_subs s (t : Z) : list nat :=
  List.filter (fun i => s_used (sub_at s t i)) (seq 0 EVENT_SUBSCRIBER_MAX).

Definition active_obs s : list nat :=
  List.filter (fun i => o_used (obs_at s i)) (seq 0 EVENT_OBSERVER_MAX).

(** A call to a handler: the slot, the callback and the argument. *)
Definition Target : Type := Slot * Z * Z.

Definition sub_target s (t : Z) (i : nat) : Target :=
  (SubSlot t i, s_callback (sub_at s t i), s_arg (sub_at s t i)).

Definition obs_target s (i : nat) : Target :=
  (ObsSlot i, o_callback (obs_at s i), o_arg (obs_at s i)).

Definition targets (calls : list Invocation) : list Target :=
  map (fun c => (inv_slot c, inv_callback c, inv_arg c)) calls.

(** The calls that the registry as it is in [s] asks for, for a record of
    type [t]: the subscribers of [t] in use, by slot, then the observers in
    use, by slot. *)
Definition snapshot s (t : Z) : list Target :=
  map (sub_target s t) (active_subs s t) ++ map (obs_target s) (active_obs s).

(** The state in which the first scan of [dispatch_event] reaches slot
    [j]: its first [j] turns have run, handlers included. *)
Definition at_sub_slot code (e : nat) s (j : nat) : Bus U :=
  fst (dispatch_subscribers code j 0 e s).

(** The same for the second scan, which starts when the first has ended. *)
Definition at_obs_slot code (e : nat) s (j : nat) : Bus U :=
  fst (dispatch_observers code j 0 e
         (fst (dispatch_subscribers code EVENT_SUBSCRIBER_MAX 0 e s))).

(** The calls asked for by each slot as it is when the scan reaches it:
    a subscriber slot of the type the record then has, or an observer
    slot. *)
Definition calls_as_reached code (e : nat) s : list Target :=
  map (fun j => sub_target (at_sub_slot code e s j)
                           (type (deref (at_sub_slot code e s j) e)) j)
      (List.filter
         (fun j => s_used (sub_at (at_sub_slot code e s j)
                                  (type (deref (at_sub_slot code e s j) e)) j))
         (seq 0 EVENT_SUBSCRIBER_MAX))
  ++ map (fun j => obs_target (at_obs_slot code e s j) j)
         (List.filter (fun j => o_used (obs_at (at_obs_slot code e s j) j))
                      (seq 0 EVENT_OBSERVER_MAX)).

(** Handlers that, called for the record at [e], of type [t], change the
    registry only behind the scan: one called from slot [i] of the
    subscribers of [t] leaves the slots after [i] of that row and all the
    observers as they were, one called from slot [i] of the observers
    leaves the observers after [i] as they were, and none changes the type
    of the record.  Rows of other types, and slots at or before [i], are
    free. *)
Definition behind_scan code (e : nat) (t : Z) : Prop :=
  (forall s i,
      type (deref s e) = t ->
      s_used (sub_at s t i) = true ->
      let s1 := code (s_callback (sub_at s t i)) e (s_arg (sub_at s t i)) s in
      type (deref s1 e) = t /\
      (forall j, (i < j < EVENT_SUBSCRIBER_MAX)%nat ->
                 sub_at s1 t j = sub_at s t j) /\
      (forall j, (j < EVENT_OBSERVER_MAX)%nat -> obs_at s1 j = obs_at s j)) /\
  (forall s i,
      o_used (obs_at s i) = true ->
      let s1 := code (o_callback (obs_at s i)) e (o_arg (obs_at s i)) s in
      forall j, (i < j < EVENT_OBSERVER_MAX)%nat -> obs_at s1 j = obs_at s j).

(** The handlers called in the dispatch of the record at [e] from the
    state [s] change, when they run, nothing that the scans have yet to
    read: the one called from slot [j] of the subscribers leaves as they
    are the type of the record, the slots after [j] of the row of that
    type and all the observers; the one called from slot [j] of the
    observers leaves the observers after [j] as they are.  Nothing is
    asked of a handler in a state in which this dispatch does not call
    it. *)
Definition behind_scan_run code (e : nat) s : Prop :=
  let t := type (deref s e) in
  (forall j, (j < EVENT_SUBSCRIBER_MAX)%nat ->
     let sj := at_sub_slot code e s j in
     s_used (sub_at sj t j) = true ->
     let s1 := code (s_callback (sub_at sj t j)) e (s_arg (sub_at sj t j)) sj in
     type (deref s1 e) = t /\
     (forall k, (j < k < EVENT_SUBSCRIBER_MAX)%nat ->
                sub_at s1 t k = sub_at sj t k) /\
     (forall k, (k < EVENT_OBSERVER_MAX)%nat -> obs_at s1 k = obs_at sj k)) /\
  (forall j, (j < EVENT_OBSERVER_MAX)%nat ->
     let sj := at_obs_slot code e s j in
     o_used (obs_at sj j) = true ->
     let s1 := code (o_callback (obs_at sj j)) e (o_arg (obs_at sj j)) sj in
     forall k, (j < k < EVENT_OBSERVER_MAX)%nat -> obs_at s1 k = obs_at sj k).

(** [g_subscribers[t][i]] is in use and holds the pair [(callback, arg)]:
    the test of [EVENT_Unsubscribe]. *)
Definition sub_matches s (t : Z) (i : nat) (callback arg : Z) : bool :=
  s_used (sub_at s t i) && (s_callback (sub_at s t i) =? callback)
  && (s_arg (sub_at s t i) =? arg).

(** In how many slots of type [t] the pair is registered. *)
Definition registrations s (t callback arg : Z) : nat :=
  length (List.filter (fun i => sub_matches s t i callback arg)
                      (seq 0 EVENT_SUBSCRIBER_MAX)).

(** What each function of the interface returns before the first
    [EVENT_Init]. *)
Definition before_init_result (op : Op) : Z :=
  match op with
  | OpProcess | OpClearQueue | OpGetCount => 0
  | _ => -1
  end.

(** *** Runs of registrations *)

(** The slots in use of type [t] are the first [j]. *)
Definition row_prefix s (t : Z) (j : nat) : Prop :=
  forall i, (i < EVENT_SUBSCRIBER_MAX)%nat ->
            s_used (sub_at s t i) = (i <? j)%nat.

(** A run of calls of [EVENT_Subscribe] for one type that all return 0,
    and the state it leaves. *)
Fixpoint subscribe_seq (t : Z) (ps : list (Z * Z)) s : option (Bus U) :=
  match ps with
  | [] => Some s
  | (cb, a) :: ps' =>
      let (v, s1) := EVENT_Subscribe t cb a s in
      if v =? 0 then subscribe_seq t ps' s1 else None
  end.

(** The calls to subscribers that the registry asks for, for a record of
    type [t]. *)
Definition sub_calls s (t : Z) : list Target :=
  map (sub_target s t) (active_subs s t).

(** Handlers that do not add to the queue. *)
Definition never_grows code : Prop :=
  forall cb e a s,
    queue_inv (g_queue s) ->
    q_count (g_queue (code cb e a s)) <= q_count (g_queue s).

(** *** What is stored *)

(** No slot in use holds a [NULL] callback. *)
Definition reg_ok s : Prop :=
  (forall t i, s_used (sub_at s t i) = true -> s_callback (sub_at s t i) <> 0) /\
  (forall i, o_used (obs_at s i) = true -> o_callback (obs_at s i) <> 0).



(** *** What handlers do while they run *)

(** Every call of a handler made in the dispatch of the record at [e]
    from the state [s] takes the bus from a state to one that [R] relates
    to it.  Nothing is asked of a handler in a state in which this
    dispatch does not call it. *)
Definition during_dispatch (R : Bus U -> Bus U -> Prop) code (e : nat) s
    : Prop :=
  (forall j, (j < EVENT_SUBSCRIBER_MAX)%nat ->
     let sj := at_sub_slot code e s j in
     let x := sub_at sj (type (deref sj e)) j in
     s_used x = true -> R sj (code (s_callback x) e (s_arg x) sj)) /\
  (forall j, (j < EVENT_OBSERVER_MAX)%nat ->
     let sj := at_obs_slot code e s j in
     let x := obs_at sj j in
     o_used x = true -> R sj (code (o_callback x) e (o_arg x) sj)).

(** The state in which the loop of [EVENT_Process], started in [s],
    begins its turn [k], or that in which it ended before. *)
Fixpoint at_turn code (k : nat) s : Bus U :=
  match k with
  | O => s
  | S k' =>
      match queue_pop s with
      | (Some e, s1) => at_turn code k' (fst (dispatch_event code e s1))
      | (None, _) => s
      end
  end.

(** The same of every call of a handler made in the turns of the loop of
    [EVENT_Process] started in [s]. *)
Definition during_drain (R : Bus U -> Bus U -> Prop) code s : Prop :=
  forall k e s1,
    queue_pop (at_turn code k s) = (Some e, s1) -> during_dispatch R code e s1.

(** The queue is as it was. *)
Definition same_queue s1 s2 : Prop := g_queue s2 = g_queue s1.

(** Both tables of the registry are as they were. *)
Definition same_registry s1 s2 : Prop :=
  g_subscribers s2 = g_subscribers s1 /\ g_observers s2 = g_observers s1.

(** The bus after the records [evs] were handed to [queue_push], one
    after the other. *)
Definition push_seq (evs : list Event_t) s : Bus U :=
  fold_left (fun x ev => snd (queue_push ev x)) evs s.

(** From [s1] to [s2] the queue was pushed to and nothing else, as by
    calls of [EVENT_Publish], and it is not full in [s2]. *)
Definition appended s1 s2 : Prop :=
  q_count (g_queue s2) < EVENT_QUEUE_SIZE /\
  exists evs, g_queue s2 = g_queue (push_seq evs s1).

(** The state [s] of a dispatch of the record at [e] that began in [s0]:
    the queue is well formed and not full, its head has not moved, the
    records that were live are, followed by new ones, and the slot [e]
    holds what it held. *)
Definition in_flight (e : nat) s0 s : Prop :=
  queue_inv (g_queue s) /\
  length (q_queue (g_queue s)) = Z.to_nat EVENT_QUEUE_SIZE /\
  q_head (g_queue s) = q_head (g_queue s0) /\
  q_count (g_queue s) < EVENT_QUEUE_SIZE /\
  (exists evs, live (g_queue s) = live (g_queue s0) ++ evs) /\
  deref s e = deref s0 e.

(** What was dispatched, [d], is the record that a call of
    [EVENT_Publish] with these arguments and [L] bytes of payload queues,
    and every handler called for it was given that record. *)
Definition delivered (now t pr L : Z) (bytes : list Z) (d : Dispatched) : Prop :=
  type (d_record d) = t /\
  priority (d_record d) = pr /\
  timestamp (d_record d) = now /\
  data_size (d_record d) = L /\
  firstn (Z.to_nat L) (data (d_record d)) = bytes /\
  calls_carry (d_event d) (d_record d) (d_calls d).

End Predicates.

(** The sizes of the arrays of a bus built from [bus_start]. *)
Ltac bus_wf :=
  unfold wf_bus; repeat split; try reflexivity; vm_compute; repeat constructor.

(** The invariant of the queue of such a bus. *)
Ltac bus_inv := vm_compute; repeat split; discriminate || reflexivity.

(** What a handler that appends did, at a concrete state. *)
Ltac appended_here :=
  split;
  [ vm_compute; reflexivity
  | first [ exists []; vm_compute; reflexivity
          | exists [make_event 0 3 0 None 0]; vm_compute; reflexivity ] ].

(** The same of every handler called in a dispatch. *)
Ltac appending_dispatch_here :=
  split;
  [ intros j Hj; unfold EVENT_SUBSCRIBER_MAX in Hj;
    do 8 (destruct j as [| j];
          [ cbv zeta; intros Hu;
            first [ vm_compute in Hu; discriminate Hu | appended_here ] |]);
    lia
  | intros j Hj; unfold EVENT_OBSERVER_MAX in Hj;
    do 4 (destruct j as [| j];
          [ cbv zeta; intros Hu;
            first [ vm_compute in Hu; discriminate Hu | appended_here ] |]);
    lia ].

(** ** event_example.c *)

(** The handlers of event_example.c print and touch nothing of the bus.
    [on_sensor_data] computes one value from the record before it prints
    it: [temp], when [event->data_size] is at least 2.  Bytes are
    promoted to [int] before the shift. *)
Definition on_sensor_data_temp (event : Event_t) : option Z :=
  if data_size event >? 0 then
    if data_size event >=? 2 then
      Some (Z.lor (Z.shiftl (nth 0 (data event) 0) 8) (nth 1 (data event) 0))
    else None
  else None.

(** ** Concrete buses *)

(** Handlers that never touch the bus, as those of event_example.c. *)
Definition quiet_handlers : Handlers unit := fun _ _ _ s => s.

(** The bus after [EVENT_Init ()]. *)
Definition bus_ready : Bus unit := snd (EVENT_Init (bus_start tt)).

(** The registrations of [main] in event_example.c: two subscribers of
    type 1 that share a callback, one each of types 2 and 3, one observer.
    Callbacks and arguments stand for the addresses. *)
Definition bus_demo : Bus unit :=
  snd (EVENT_RegisterObserver 400 0
    (snd (EVENT_Subscribe 3 300 30
      (snd (EVENT_Subscribe 2 200 0
        (snd (EVENT_Subscribe 1 100 11
          (snd (EVENT_Subscribe 1 100 10 bus_ready))))))))).

(** The four calls of [EVENT_Publish] of [main], the clock at 5..8. *)
Definition demo_publishes : list Publish_args :=
  [ mkPublish 5 1 2 None 0;
    mkPublish 6 2 1 (Some [1; 104]) 2;
    mkPublish 7 4 1 (Some [97; 100; 109; 105; 110; 0]) 6;
    mkPublish 8 3 2 (Some [231; 148; 181; 230; 186; 144; 230; 149; 133; 233]) 10 ].

Definition bus_demo_published : Bus unit :=
  match publish_seq demo_publishes bus_demo with
  | Some s => s
  | None => bus_demo
  end.

(** [EVENT_QUEUE_SIZE] publishes on a fresh bus. *)
Definition full_publishes : list Publish_args :=
  map (fun k => mkPublish k 1 (k mod 3) None 0) (map Z.of_nat (seq 0 64)).

Definition bus_full : Bus unit :=
  match publish_seq full_publishes bus_ready with
  | Some s => s
  | None => bus_ready
  end.

(** A handler, at address 100, that unsubscribes the pair (200, 0) from
    type 2; the other addresses do nothing. *)
Definition unsubscribing_handlers : Handlers unit := fun cb e a s =>
  if cb =? 100 then snd (EVENT_Unsubscribe 2 200 0 s) else s.

(** A handler, at address 100, that unsubscribes itself, with the [arg] it
    is called with, from the type of the event it is handed; the other
    addresses do nothing. *)
Definition one_shot_handlers : Handlers unit := fun cb e a s =>
  if cb =? 100 then snd (EVENT_Unsubscribe (type (deref s e)) 100 a s) else s.

(** Two subscribers of type 2, at addresses 100 and 200, and one event of
    type 2 that [queue_pop] has just taken, at slot 0 of the queue. *)
Definition bus_two_subscribers : Bus unit :=
  snd (queue_pop
    (snd (EVENT_Publish 1 2 0 None 0
      (snd (EVENT_Subscribe 2 200 0
        (snd (EVENT_Subscribe 2 100 0 bus_ready))))))).


(** A handler, at address 100, that publishes an event of type 3; the
    other addresses do nothing. *)
Definition publishing_handlers : Handlers unit := fun cb e a s =>
  if cb =? 100 then snd (EVENT_Publish 0 3 0 None 0 s) else s.

(** One subscriber of type 2, at address 100, and one event of type 2
    queued. *)
Definition bus_one_event : Bus unit :=
  snd (EVENT_Publish 1 2 0 None 0 (snd (EVENT_Subscribe 2 100 0 bus_ready))).

(** The first event of event_example.c alone in the queue. *)
Definition bus_button : Bus unit :=
  snd (EVENT_Publish 5 1 2 None 0 bus_demo).

(** The same after [queue_pop] has taken that event. *)
Definition bus_button_popped : Bus unit := snd (queue_pop bus_button).

(** A full queue of events of type 1, with a subscriber of type 1 at
    address 100 and an observer at address 400, after [queue_pop] has
    taken the first event, at slot 0. *)
Definition bus_full_popped : Bus unit :=
  match publish_seq full_publishes
          (snd (EVENT_RegisterObserver 400 0
             (snd (EVENT_Subscribe 1 100 0 bus_ready)))) with
  | Some s => snd (queue_pop s)
  | None => bus_ready
  end.

(** A handler, at address 100, that calls [EVENT_ClearQueue]; the other
    addresses do nothing. *)
Definition clearing_handlers : Handlers unit := fun cb e a s =>
  if cb =? 100 then snd (EVENT_ClearQueue s) else s.

(** The eight slots of type 1 taken, by callbacks 101 to 108. *)
Definition eight_subscribers : list (Z * Z) :=
  map (fun k => (100 + Z.of_nat k, Z.of_nat k)) (seq 1 8).

Definition bus_row_full : Bus unit :=
  match subscribe_seq 1 eight_subscribers bus_ready with
  | Some s => s
  | None => bus_ready
  end.

(** The four observer slots taken, two of them by the callback 400 with
    different arguments. *)
Definition bus_observers_full : Bus unit :=
  snd (EVENT_RegisterObserver 400 2
    (snd (EVENT_RegisterObserver 402 0
      (snd (EVENT_RegisterObserver 400 1
        (snd (EVENT_RegisterObserver 401 0 bus_ready))))))).

(** An observer at address 100, which [publishing_handlers] makes publish,
    and one event queued. *)
Definition bus_echo : Bus unit :=
  snd (EVENT_Publish 1 3 0 None 0 (snd (EVENT_RegisterObserver 100 0 bus_ready))).

(** What stays true of [bus_echo] under [publishing_handlers]: the
    observer is there and the queue is not empty. *)
Definition echo_goes_on (x : Bus unit) : Prop :=
  queue_inv (g_queue x) /\ g_initialized x = true /\
  (o_used (obs_at x 0) = true /\ o_callback (obs_at x 0) = 100) /\
  1 <= q_count (g_queue x).

(** What [EVENT_Process] returns on [bus_demo_published] with handlers
    that touch nothing: the count, the state and what was dispatched. *)
Definition demo_processed : Z * Bus unit * list Dispatched :=
  match EVENT_Process quiet_handlers 5 bus_demo_published with
  | Some r => r
  | None => (0, bus_demo_published, [])
  end.

(** A handler, at address 200, that unsubscribes the pair (100, 0) from
    type 2; the other addresses do nothing. *)
Definition late_unsubscribing_handlers : Handlers unit := fun cb e a s =>
  if cb =? 200 then snd (EVENT_Unsubscribe 2 100 0 s) else s.

(** Two subscribers of type 2, at addresses 100 and 200, no observer, and
    one event of type 2 queued. *)
Definition bus_two_queued : Bus unit :=
  snd (EVENT_Publish 1 2 0 None 0
    (snd (EVENT_Subscribe 2 200 0
      (snd (EVENT_Subscribe 2 100 0 bus_ready))))).

(** The first event of event_example.c queued on a bus without
    subscribers. *)
Definition bus_first_event : Bus unit :=
  snd (EVENT_Publish 5 1 2 None 0 bus_ready).

(** A subscriber of type 1 at address 100 and an observer at address
    400. *)
Definition bus_watched : Bus unit :=
  snd (EVENT_RegisterObserver 400 0 (snd (EVENT_Subscribe 1 100 0 bus_ready))).

(** The same after [EVENT_QUEUE_SIZE] publishes of type 1. *)
Definition bus_watched_full : Bus unit :=
  match publish_seq full_publishes bus_watched with
  | Some s => s
  | None => bus_watched
  end.

(** The same after one publish less. *)
Definition bus_watched_63 : Bus unit :=
  match publish_seq (firstn 63 full_publishes) bus_watched with
  | Some s => s
  | None => bus_watched
  end.

(** A subscriber of type 2 at address 100, which [publishing_handlers]
    makes publish, and an observer at address 400. *)
Definition bus_relay : Bus unit :=
  snd (EVENT_RegisterObserver 400 0 (snd (EVENT_Subscribe 2 100 0 bus_ready))).

(** The four events of event_example.c published on it. *)
Definition bus_relay_published : Bus unit :=
  match publish_seq demo_publishes bus_relay with
  | Some s => s
  | None => bus_relay
  end.

(** What [EVENT_Process] returns then, the subscriber publishing. *)
Definition relay_processed : Z * Bus unit * list Dispatched :=
  match EVENT_Process publishing_handlers 6 bus_relay_published with
  | Some r => r
  | None => (0, bus_relay_published, [])
  end.

(** The sensor reading of event_example.c published on [bus_relay]. *)
Definition bus_relay_sensor : Bus unit :=
  snd (EVENT_Publish 6 2 1 (Some [1; 104]) 2 bus_relay).

Definition sensor_processed : Z * Bus unit * list Dispatched :=
  match EVENT_Process publishing_handlers 3 bus_relay_sensor with
  | Some r => r
  | None => (0, bus_relay_sensor, [])
  end.

(** ** Proofs *)

Section Properties.

Context {U : Type}.
Implicit Types (s : Bus U) (code : Handlers U) (q : EventQueue_t).

(** *** The ring buffer *)

Lemma queue_zero_inv : queue_inv queue_zero.
Proof. unfold queue_inv, queue_zero; simpl. zmod. Qed.

Lemma u16_small x : 0 <= x < 2 ^ 16 -> u16 x = x.
Proof. intros H. unfold u16. apply Z.mod_small. exact H. Qed.

Lemma mod64_bound x : 0 <= x mod EVENT_QUEUE_SIZE < 2 ^ 16.
Proof.
  unfold EVENT_QUEUE_SIZE.
  pose proof (Z.mod_pos_bound x 64 ltac:(lia)). lia.
Qed.

Lemma queue_push_full e s :
  EVENT_QUEUE_SIZE <= q_count (g_queue s) -> queue_push e s = (-1, s).
Proof.
  intros H. unfold queue_push.
  destruct (Z.geb_spec (q_count (g_queue s)) EVENT_QUEUE_SIZE); [reflexivity | lia].
Qed.

Lemma queue_push_room e s :
  queue_inv (g_queue s) -> q_count (g_queue s) < EVENT_QUEUE_SIZE ->
  queue_push e s =
    (0, with_queue s
          (mkQueue (<[Z.to_nat (q_tail (g_queue s)) := e]> (q_queue (g_queue s)))
                   (q_head (g_queue s))
                   ((q_tail (g_queue s) + 1) mod EVENT_QUEUE_SIZE)
                   (q_count (g_queue s) + 1))).
Proof.
  intros (Hc & Hh & Ht & Heq) Hlt. unfold queue_push.
  destruct (Z.geb_spec (q_count (g_queue s)) EVENT_QUEUE_SIZE); [lia |].
  rewrite (u16_small _ (mod64_bound _)).
  rewrite (u16_small (q_count (g_queue s) + 1)); [reflexivity |].
  unfold EVENT_QUEUE_SIZE in *. lia.
Qed.

Lemma queue_pop_empty s :
  q_count (g_queue s) = 0 -> queue_pop s = (None, s).
Proof. intros H. unfold queue_pop. rewrite H. reflexivity. Qed.

Lemma queue_pop_some s :
  queue_inv (g_queue s) -> 0 < q_count (g_queue s) ->
  queue_pop s =
    (Some (Z.to_nat (q_head (g_queue s))),
     with_queue s
       (mkQueue (q_queue (g_queue s))
                ((q_head (g_queue s) + 1) mod EVENT_QUEUE_SIZE)
                (q_tail (g_queue s))
                (q_count (g_queue s) - 1))).
Proof.
  intros (Hc & Hh & Ht & Heq) Hlt. unfold queue_pop.
  destruct (Z.eqb_spec (q_count (g_queue s)) 0); [lia |].
  rewrite (u16_small _ (mod64_bound _)).
  rewrite (u16_small (q_count (g_queue s) - 1)); [reflexivity |].
  unfold EVENT_QUEUE_SIZE in *. lia.
Qed.

Lemma push_inv q e :
  queue_inv q -> q_count q < EVENT_QUEUE_SIZE ->
  queue_inv (mkQueue (<[Z.to_nat (q_tail q) := e]> (q_queue q)) (q_head q)
                     ((q_tail q + 1) mod EVENT_QUEUE_SIZE) (q_count q + 1)).
Proof.
  unfold queue_inv; simpl. intros (Hc & Hh & Ht & Heq) Hlt.
  repeat split; zmod.
Qed.

Lemma pop_inv q :
  queue_inv q -> 0 < q_count q ->
  queue_inv (mkQueue (q_queue q) ((q_head q + 1) mod EVENT_QUEUE_SIZE)
                     (q_tail q) (q_count q - 1)).
Proof.
  unfold queue_inv; simpl. intros (Hc & Hh & Ht & Heq) Hlt.
  repeat split; zmod.
Qed.

Lemma live_length q : length (live q) = Z.to_nat (q_count q).
Proof. unfold live. rewrite length_map, length_seq. reflexivity. Qed.

(** A push appends to the live records. *)
Lemma live_push q e :
  queue_inv q -> q_count q < EVENT_QUEUE_SIZE ->
  length (q_queue q) = Z.to_nat EVENT_QUEUE_SIZE ->
  live (mkQueue (<[Z.to_nat (q_tail q) := e]> (q_queue q)) (q_head q)
                ((q_tail q + 1) mod EVENT_QUEUE_SIZE) (q_count q + 1))
  = live q ++ [e].
Proof.
  intros (Hc & Hh & Ht & Heq) Hlt Hlen. unfold live, live_slot; simpl.
  replace (Z.to_nat (q_count q + 1)) with (Z.to_nat (q_count q) + 1)%nat by lia.
  rewrite seq_app, map_app. f_equal.
  - apply map_ext_in. intros k Hk. apply in_seq in Hk.
    apply list_lookup_total_insert_ne.
    intros Habs. apply Z2Nat.inj in Habs; zmod.
  - simpl. f_equal.
    replace ((q_head q + Z.of_nat (Z.to_nat (q_count q))) mod EVENT_QUEUE_SIZE)
      with (q_tail q) by (rewrite Heq; f_equal; lia).
    apply list_lookup_total_insert_eq. rewrite Hlen. zmod.
Qed.

(** A pop takes the oldest live record, the one at [head]. *)
Lemma live_pop q :
  queue_inv q -> 0 < q_count q ->
  live q = q_queue q !!! Z.to_nat (q_head q)
           :: live (mkQueue (q_queue q) ((q_head q + 1) mod EVENT_QUEUE_SIZE)
                            (q_tail q) (q_count q - 1)).
Proof.
  intros (Hc & Hh & Ht & Heq) Hlt. unfold live, live_slot; simpl.
  replace (Z.to_nat (q_count q)) with (S (Z.to_nat (q_count q - 1))) by lia.
  simpl. f_equal.
  - f_equal. f_equal. zmod.
  - rewrite <- seq_shift, map_map. apply map_ext. intros k.
    f_equal. f_equal. rewrite Nat2Z.inj_succ. zmod.
Qed.

(** *** Dispatch under handlers that keep the queue *)

Lemma deref_queue s1 s2 e : g_queue s1 = g_queue s2 -> deref s1 e = deref s2 e.
Proof. unfold deref. intros ->. reflexivity. Qed.

Lemma dispatch_subscribers_queue code n i e s :
  keeps_queue code ->
  g_queue (fst (dispatch_subscribers code n i e s)) = g_queue s /\
  calls_carry e (deref s e) (snd (dispatch_subscribers code n i e s)).
Proof.
  intros Hk. revert i s. induction n as [| n IH]; intros i s; simpl.
  - split; [reflexivity | constructor].
  - destruct (s_used (sub_at s (type (deref s e)) i)); [| apply IH].
    specialize (IH (S i)
      (code (s_callback (sub_at s (type (deref s e)) i)) e
            (s_arg (sub_at s (type (deref s e)) i)) s)).
    destruct (dispatch_subscribers code n (S i) e _) as [s2 calls].
    simpl in *. destruct IH as [Hq Hc]. rewrite Hk in Hq.
    rewrite (deref_queue _ s) in Hc by apply Hk.
    split; [exact Hq |]. constructor; [split; reflexivity | exact Hc].
Qed.

Lemma dispatch_observers_queue code n i e s :
  keeps_queue code ->
  g_queue (fst (dispatch_observers code n i e s)) = g_queue s /\
  calls_carry e (deref s e) (snd (dispatch_observers code n i e s)).
Proof.
  intros Hk. revert i s. induction n as [| n IH]; intros i s; simpl.
  - split; [reflexivity | constructor].
  - destruct (o_used (obs_at s i)); [| apply IH].
    specialize (IH (S i)
      (code (o_callback (obs_at s i)) e (o_arg (obs_at s i)) s)).
    destruct (dispatch_observers code n (S i) e _) as [s2 calls].
    simpl in *. destruct IH as [Hq Hc]. rewrite Hk in Hq.
    rewrite (deref_queue _ s) in Hc by apply Hk.
    split; [exact Hq |]. constructor; [split; reflexivity | exact Hc].
Qed.

Lemma dispatch_event_queue code e s :
  keeps_queue code ->
  g_queue (fst (dispatch_event code e s)) = g_queue s /\
  calls_carry e (deref s e) (snd (dispatch_event code e s)).
Proof.
  intros Hk. unfold dispatch_event.
  pose proof (dispatch_subscribers_queue code EVENT_SUBSCRIBER_MAX 0 e s Hk) as H1.
  destruct (dispatch_subscribers code EVENT_SUBSCRIBER_MAX 0 e s) as [s1 c1].
  pose proof (dispatch_observers_queue code EVENT_OBSERVER_MAX 0 e s1 Hk) as H2.
  destruct (dispatch_observers code EVENT_OBSERVER_MAX 0 e s1) as [s2 c2].
  simpl in *. destruct H1 as [Hq1 Hc1], H2 as [Hq2 Hc2].
  split; [congruence |].
  apply Forall_app. split; [exact Hc1 |].
  rewrite (deref_queue s1 s) in Hc2 by exact Hq1. exact Hc2.
Qed.

(** Under such handlers the loop of [EVENT_Process] ends after as many
    turns as there are live records, dispatches exactly these, oldest
    first, and leaves the queue empty. *)
Lemma process_loop_drain code :
  keeps_queue code ->
  forall (n fuel : nat) (c : Z) s,
    queue_inv (g_queue s) ->
    Z.to_nat (q_count (g_queue s)) = n ->
    (n < fuel)%nat ->
    exists s' ds,
      process_loop code fuel c s = Some (c + Z.of_nat n, s', ds) /\
      map d_record ds = live (g_queue s) /\
      Forall (fun d => calls_carry (d_event d) (d_record d) (d_calls d)) ds /\
      q_count (g_queue s') = 0.
Proof.
  intros Hk. induction n as [| n IH]; intros fuel c s Hinv Hn Hfuel.
  - destruct fuel as [| fuel]; [lia |]. simpl.
    assert (Hc : q_count (g_queue s) = 0) by (destruct Hinv; lia).
    unfold queue_is_empty. rewrite Hc. simpl.
    exists s, []. repeat split.
    + f_equal. f_equal. f_equal. lia.
    + unfold live. rewrite Hc. reflexivity.
    + constructor.
    + exact Hc.
  - destruct fuel as [| fuel]; [lia |]. simpl.
    assert (Hc : 0 < q_count (g_queue s)) by lia.
    unfold queue_is_empty.
    destruct (Z.eqb_spec (q_count (g_queue s)) 0) as [Hz | _]; [lia |].
    rewrite (queue_pop_some s Hinv Hc).
    set (s1 := with_queue s _).
    pose proof (dispatch_event_queue code (Z.to_nat (q_head (g_queue s))) s1 Hk)
      as [Hq Hcalls].
    destruct (dispatch_event code (Z.to_nat (q_head (g_queue s))) s1)
      as [s2 calls].
    simpl in Hq, Hcalls.
    destruct (IH fuel (c + 1) s2) as (s' & ds & Hrun & Hrec & Hall & Hend).
    + rewrite Hq. apply pop_inv; assumption.
    + rewrite Hq. simpl. lia.
    + lia.
    + rewrite Hrun. eexists _, _. repeat split.
      * f_equal. f_equal. f_equal. lia.
      * simpl. rewrite Hrec, Hq. rewrite (live_pop (g_queue s) Hinv Hc).
        reflexivity.
      * constructor; [exact Hcalls | exact Hall].
      * exact Hend.
Qed.

(** *** Publishing *)

(** A call of [EVENT_Publish] that does not return 0 returns -1 and
    changes nothing. *)
Lemma publish_error r s :
  fst (publish r s) <> 0 -> publish r s = (-1, s).
Proof.
  unfold publish, EVENT_Publish.
  destruct (negb (g_initialized s) || (p_type r >=? EVENT_MAX_COUNT));
    [reflexivity |].
  destruct ((match p_data r with Some _ => true | None => false end)
            && (p_data_size r >? EVENT_DATA_SIZE_MAX)); [reflexivity |].
  unfold queue_push.
  destruct (q_count (g_queue s) >=? EVENT_QUEUE_SIZE); simpl;
    [reflexivity | intros H; now elim H].
Qed.

(** What a call that returns 0 has done. *)
Lemma publish_ok r s :
  queue_inv (g_queue s) -> fst (publish r s) = 0 ->
  g_initialized s = true /\
  p_type r < EVENT_MAX_COUNT /\
  q_count (g_queue s) < EVENT_QUEUE_SIZE /\
  snd (publish r s) =
    with_queue s
      (mkQueue (<[Z.to_nat (q_tail (g_queue s)) := event_of r]>
                  (q_queue (g_queue s)))
               (q_head (g_queue s))
               ((q_tail (g_queue s) + 1) mod EVENT_QUEUE_SIZE)
               (q_count (g_queue s) + 1)).
Proof.
  intros Hinv. unfold publish, EVENT_Publish.
  destruct (g_initialized s); simpl; [| discriminate].
  destruct (Z.geb_spec (p_type r) EVENT_MAX_COUNT); simpl; [discriminate |].
  destruct ((match p_data r with Some _ => true | None => false end)
            && (p_data_size r >? EVENT_DATA_SIZE_MAX)); [discriminate |].
  destruct (Z_lt_ge_dec (q_count (g_queue s)) EVENT_QUEUE_SIZE) as [Hlt | Hge].
  - rewrite (queue_push_room _ s Hinv Hlt). simpl. intros _.
    repeat split; [lia | exact Hlt].
  - rewrite queue_push_full by lia. simpl. discriminate.
Qed.

(** When [EVENT_Publish] returns 0. *)
Lemma publish_accepts r s :
  g_initialized s = true ->
  p_type r < EVENT_MAX_COUNT ->
  (p_data r = None \/ p_data_size r <= EVENT_DATA_SIZE_MAX) ->
  q_count (g_queue s) < EVENT_QUEUE_SIZE ->
  fst (publish r s) = 0.
Proof.
  intros Hi Ht Hd Hc. unfold publish, EVENT_Publish. rewrite Hi. simpl.
  destruct (Z.geb_spec (p_type r) EVENT_MAX_COUNT); [lia |]. simpl.
  assert ((match p_data r with Some _ => true | None => false end)
          && (p_data_size r >? EVENT_DATA_SIZE_MAX) = false) as ->.
  { destruct Hd as [-> | Hd]; [reflexivity |].
    destruct (Z.gtb_spec (p_data_size r) EVENT_DATA_SIZE_MAX); [lia |].
    apply andb_false_r. }
  unfold queue_push.
  destruct (Z.geb_spec (q_count (g_queue s)) EVENT_QUEUE_SIZE); [lia |].
  reflexivity.
Qed.

(** A run of successful calls appends its records to the live ones and
    changes nothing else. *)
Lemma publish_seq_live rs : forall s s',
  queue_inv (g_queue s) ->
  length (q_queue (g_queue s)) = Z.to_nat EVENT_QUEUE_SIZE ->
  publish_seq rs s = Some s' ->
  queue_inv (g_queue s') /\
  length (q_queue (g_queue s')) = Z.to_nat EVENT_QUEUE_SIZE /\
  live (g_queue s') = live (g_queue s) ++ map event_of rs /\
  g_subscribers s' = g_subscribers s /\
  g_observers s' = g_observers s /\
  g_initialized s' = g_initialized s /\
  g_rest s' = g_rest s.
Proof.
  induction rs as [| r rs IH]; intros s s' Hinv Hlen; simpl.
  - intros [= <-]. rewrite app_nil_r. tauto.
  - pose proof (publish_ok r s Hinv) as Hok.
    destruct (publish r s) as [v s1]. simpl in Hok.
    destruct (Z.eqb_spec v 0) as [-> | _]; [| discriminate].
    destruct (Hok eq_refl) as (_ & _ & Hlt & ->). intros Hrun.
    apply IH in Hrun; simpl.
    + destruct Hrun as (H1 & H2 & H3 & H4 & H5 & H6 & H7).
      simpl in *. rewrite live_push in H3 by assumption.
      rewrite <- app_assoc in H3. simpl in H3. tauto.
    + apply push_inv; assumption.
    + rewrite length_insert. exact Hlen.
Qed.

(** *** Properties that handlers preserve *)

Lemma dispatch_subscribers_preserves (P : Bus U -> Prop) code n i e s :
  preserves P code -> P s -> P (fst (dispatch_subscribers code n i e s)).
Proof.
  intros Hp. revert i s. induction n as [| n IH]; intros i s Hs; simpl.
  - exact Hs.
  - destruct (s_used (sub_at s (type (deref s e)) i)); [| apply IH, Hs].
    specialize (IH (S i) _ (Hp (s_callback (sub_at s (type (deref s e)) i)) e
                               (s_arg (sub_at s (type (deref s e)) i)) s Hs)).
    destruct (dispatch_subscribers code n (S i) e _). exact IH.
Qed.

Lemma dispatch_observers_preserves (P : Bus U -> Prop) code n i e s :
  preserves P code -> P s -> P (fst (dispatch_observers code n i e s)).
Proof.
  intros Hp. revert i s. induction n as [| n IH]; intros i s Hs; simpl.
  - exact Hs.
  - destruct (o_used (obs_at s i)); [| apply IH, Hs].
    specialize (IH (S i) _ (Hp (o_callback (obs_at s i)) e
                               (o_arg (obs_at s i)) s Hs)).
    destruct (dispatch_observers code n (S i) e _). exact IH.
Qed.

Lemma dispatch_event_preserves (P : Bus U -> Prop) code e s :
  preserves P code -> P s -> P (fst (dispatch_event code e s)).
Proof.
  intros Hp Hs. unfold dispatch_event.
  pose proof (dispatch_subscribers_preserves P code EVENT_SUBSCRIBER_MAX 0 e s
                Hp Hs) as H1.
  destruct (dispatch_subscribers code EVENT_SUBSCRIBER_MAX 0 e s) as [s1 c1].
  pose proof (dispatch_observers_preserves P code EVENT_OBSERVER_MAX 0 e s1
                Hp H1) as H2.
  destruct (dispatch_observers code EVENT_OBSERVER_MAX 0 e s1) as [s2 c2].
  exact H2.
Qed.

(** A property that handlers and [queue_pop] preserve holds when the loop
    of [EVENT_Process] ends. *)
Lemma process_loop_preserves (P : Bus U -> Prop) code :
  preserves P code ->
  (forall s, P s -> P (snd (queue_pop s))) ->
  forall fuel c s n s' ds,
    P s -> process_loop code fuel c s = Some (n, s', ds) -> P s'.
Proof.
  intros Hp Hpop. induction fuel as [| fuel IH]; intros c s n s' ds Hs; simpl.
  - discriminate.
  - destruct (queue_is_empty s); [intros [= _ <- _]; exact Hs |].
    specialize (Hpop s Hs).
    destruct (queue_pop s) as [[e |] s1]; simpl in Hpop;
      [| intros [= _ <- _]; exact Hpop].
    pose proof (dispatch_event_preserves P code e s1 Hp Hpop) as Hd.
    destruct (dispatch_event code e s1) as [s2 calls]. simpl in Hd.
    destruct (process_loop code fuel (c + 1) s2) as [[[n3 s3] ds3] |] eqn:E;
      [| discriminate].
    intros [= _ <- _]. eapply IH; eassumption.
Qed.

(** The loop ends only on an empty queue, and counts its turns. *)
Lemma process_loop_ends_empty code :
  forall fuel c s n s' ds,
    process_loop code fuel c s = Some (n, s', ds) ->
    q_count (g_queue s') = 0 /\ n = c + Z.of_nat (length ds).
Proof.
  induction fuel as [| fuel IH]; intros c s n s' ds; simpl.
  - discriminate.
  - unfold queue_is_empty, queue_pop.
    destruct (Z.eqb_spec (q_count (g_queue s)) 0) as [Hz | Hnz].
    + intros [= <- <- <-]. simpl. split; [exact Hz | lia].
    + destruct (dispatch_event code _ _) as [s2 calls].
      destruct (process_loop code fuel (c + 1) s2) as [[[n3 s3] ds3] |] eqn:E;
        [| discriminate].
      intros [= <- <- <-]. apply IH in E. simpl. destruct E. split; [assumption | lia].
Qed.

(** What holds of the calls of each turn of the loop of [EVENT_Process],
    given a property of the state that handlers and [queue_pop] keep. *)
Lemma process_loop_calls (P : Bus U -> Prop) (R : Dispatched -> Prop) code :
  preserves P code ->
  (forall s e s1, P s -> queue_pop s = (Some e, s1) ->
                  P s1 /\
                  R (mkDispatched e (deref s1 e)
                                  (snd (dispatch_event code e s1)))) ->
  forall fuel c s n s' ds,
    P s -> process_loop code fuel c s = Some (n, s', ds) ->
    P s' /\ Forall R ds.
Proof.
  intros Hp Hstep. induction fuel as [| fuel IH]; intros c s n s' ds Hs; simpl.
  - discriminate.
  - destruct (queue_is_empty s);
      [intros [= _ <- <-]; split; [exact Hs | constructor] |].
    destruct (queue_pop s) as [[e |] s1] eqn:Hpop.
    + destruct (Hstep s e s1 Hs Hpop) as [Hs1 HR].
      pose proof (dispatch_event_preserves P code e s1 Hp Hs1) as Hs2.
      destruct (dispatch_event code e s1) as [s2 calls]. simpl in *.
      destruct (process_loop code fuel (c + 1) s2) as [[[n3 s3] ds3] |] eqn:E;
        [| discriminate].
      intros [= _ <- <-]. destruct (IH _ _ _ _ _ Hs2 E) as [Hs3 Hds].
      split; [exact Hs3 | constructor; assumption].
    + unfold queue_pop in Hpop.
      destruct (q_count (g_queue s) =? 0); [| discriminate].
      injection Hpop as <-. intros [= _ <- <-]. split; [exact Hs | constructor].
Qed.

(** Under handlers that add nothing to the queue the loop ends within as
    many turns as there are records. *)
Lemma process_loop_bounded code :
  preserves (fun s => queue_inv (g_queue s)) code ->
  never_grows code ->
  forall (n fuel : nat) (c : Z) s,
    queue_inv (g_queue s) ->
    (Z.to_nat (q_count (g_queue s)) <= n)%nat ->
    (n < fuel)%nat ->
    exists m s' ds,
      process_loop code fuel c s = Some (m, s', ds) /\
      m <= c + q_count (g_queue s).
Proof.
  intros Hp Hg. induction n as [| n IH]; intros fuel c s Hinv Hn Hfuel;
    destruct fuel as [| fuel]; try lia; simpl; unfold queue_is_empty.
  - assert (Hc : q_count (g_queue s) = 0) by (destruct Hinv; lia).
    rewrite Hc. simpl. eexists _, _, _. split; [reflexivity | lia].
  - destruct (Z.eqb_spec (q_count (g_queue s)) 0) as [Hz | Hnz].
    + eexists _, _, _. split; [reflexivity | lia].
    + assert (Hc : 0 < q_count (g_queue s)) by (destruct Hinv; lia).
      rewrite (queue_pop_some s Hinv Hc).
      set (s1 := with_queue s _).
      set (e := Z.to_nat (q_head (g_queue s))).
      pose proof (dispatch_event_preserves
                    (fun x => queue_inv (g_queue x) /\
                              q_count (g_queue x) <= q_count (g_queue s) - 1)
                    code e s1) as Hd.
      destruct (dispatch_event code e s1) as [s2 calls]. simpl in Hd.
      destruct Hd as [Hinv2 Hle].
      * intros cb e' a x [Hx1 Hx2]. split; [apply Hp, Hx1 |].
        specialize (Hg cb e' a x Hx1). lia.
      * split; [apply pop_inv; assumption | simpl; lia].
      * destruct (IH fuel (c + 1) s2 Hinv2 ltac:(lia) ltac:(lia))
          as (m & s' & ds & -> & Hm).
        eexists _, _, _. split; [reflexivity | lia].
Qed.

(** One turn of the loop of [EVENT_Process]. *)
Lemma process_loop_turn code fuel c s e s1 :
  queue_pop s = (Some e, s1) ->
  process_loop code (S fuel) c s
  = match process_loop code fuel (c + 1) (fst (dispatch_event code e s1)) with
    | Some (n, s', ds) =>
        Some (n, s', mkDispatched e (deref s1 e)
                       (snd (dispatch_event code e s1)) :: ds)
    | None => None
    end.
Proof.
  intros Hpop. cbn [process_loop].
  assert (Hne : queue_is_empty s = false).
  { unfold queue_is_empty. unfold queue_pop in Hpop.
    destruct (q_count (g_queue s) =? 0); [discriminate | reflexivity]. }
  rewrite Hne, Hpop.
  destruct (dispatch_event code e s1) as [s2 calls]. reflexivity.
Qed.

(** A loop that starts on a queue that is not empty has dispatched a
    record when it ends. *)
Lemma process_loop_first code fuel c s n s' ds :
  q_count (g_queue s) <> 0 ->
  process_loop code fuel c s = Some (n, s', ds) ->
  ds <> [].
Proof.
  intros Hnz. destruct fuel as [| fuel]; [discriminate |].
  cbn [process_loop]. unfold queue_is_empty, queue_pop.
  destruct (Z.eqb_spec (q_count (g_queue s)) 0); [contradiction |].
  destruct (dispatch_event code _ _) as [s2 calls].
  destruct (process_loop code fuel (c + 1) s2) as [[[n3 s3] ds3] |];
    [| discriminate].
  intros [= _ _ <-]. discriminate.
Qed.

(** [queue_pop] touches the queue only, and not the slot it hands out. *)
Lemma queue_pop_frame s e s1 :
  queue_pop s = (Some e, s1) ->
  g_subscribers s1 = g_subscribers s /\ g_observers s1 = g_observers s /\
  deref s1 e = deref s e.
Proof.
  unfold queue_pop. destruct (q_count (g_queue s) =? 0); [discriminate |].
  intros [= _ <-]. repeat split; reflexivity.
Qed.

(** *** The scans of [dispatch_event] *)

Lemma map_filter_ext_in {A B} (f g : A -> B) (p q : A -> bool) (l : list A) :
  (forall x, In x l -> f x = g x /\ p x = q x) ->
  map f (List.filter p l) = map g (List.filter q l).
Proof.
  induction l as [| a l IH]; intros H; simpl; [reflexivity |].
  destruct (H a (or_introl eq_refl)) as [Hf <-].
  specialize (IH (fun x Hx => H x (or_intror Hx))).
  destruct (p a); simpl; congruence.
Qed.

(** The first scan calls the subscribers that were in use when it began,
    provided the handlers change the registry only behind it. *)
Lemma dispatch_subscribers_scan code e t :
  behind_scan code e t ->
  forall n i s,
    (i + n = EVENT_SUBSCRIBER_MAX)%nat ->
    type (deref s e) = t ->
    targets (snd (dispatch_subscribers code n i e s))
      = map (sub_target s t)
            (List.filter (fun j => s_used (sub_at s t j)) (seq i n)) /\
    type (deref (fst (dispatch_subscribers code n i e s)) e) = t /\
    (forall j, (j < EVENT_OBSERVER_MAX)%nat ->
               obs_at (fst (dispatch_subscribers code n i e s)) j = obs_at s j).
Proof.
  intros [Hb _]. induction n as [| n IH]; intros i s Hin Ht; simpl.
  - repeat split; assumption || reflexivity.
  - rewrite Ht. destruct (s_used (sub_at s t i)) eqn:Hu.
    + destruct (Hb s i Ht Hu) as (Ht1 & Hsub & Hobs).
      specialize (IH (S i) _ ltac:(lia) Ht1).
      destruct (dispatch_subscribers code n (S i) e _) as [s2 calls].
      simpl in *. destruct IH as (Hc & Ht2 & Ho2).
      split; [| split; [exact Ht2 |]].
      * unfold sub_target at 1. f_equal. rewrite Hc.
        apply map_filter_ext_in. intros j Hj. apply in_seq in Hj.
        unfold sub_target. rewrite Hsub by lia. split; reflexivity.
      * intros j Hj. rewrite Ho2, Hobs by exact Hj. reflexivity.
    + apply IH; [lia | exact Ht].
Qed.

Lemma dispatch_observers_scan code e t :
  behind_scan code e t ->
  forall n i s,
    (i + n = EVENT_OBSERVER_MAX)%nat ->
    targets (snd (dispatch_observers code n i e s))
      = map (obs_target s)
            (List.filter (fun j => o_used (obs_at s j)) (seq i n)).
Proof.
  intros [_ Hb]. induction n as [| n IH]; intros i s Hin; simpl.
  - reflexivity.
  - destruct (o_used (obs_at s i)) eqn:Hu.
    + pose proof (Hb s i Hu) as Hobs. simpl in Hobs.
      specialize (IH (S i) (code (o_callback (obs_at s i)) e
                                 (o_arg (obs_at s i)) s) ltac:(lia)).
      destruct (dispatch_observers code n (S i) e _) as [s2 calls].
      simpl in *. unfold obs_target at 1. f_equal. rewrite IH.
      apply map_filter_ext_in. intros j Hj. apply in_seq in Hj.
      unfold obs_target. rewrite Hobs by lia. split; reflexivity.
    + apply IH. lia.
Qed.

(** Both scans: under such handlers a dispatch calls what the registry
    asked for when the dispatch began. *)
Lemma dispatch_event_scan code e s :
  behind_scan code e (type (deref s e)) ->
  targets (snd (dispatch_event code e s)) = snapshot s (type (deref s e)).
Proof.
  intros Hb. unfold dispatch_event, snapshot, active_subs, active_obs.
  destruct (dispatch_subscribers_scan code e _ Hb EVENT_SUBSCRIBER_MAX 0 s
              eq_refl eq_refl) as (Hc1 & Ht1 & Ho1).
  destruct (dispatch_subscribers code EVENT_SUBSCRIBER_MAX 0 e s) as [s1 c1].
  pose proof (dispatch_observers_scan code e _ Hb EVENT_OBSERVER_MAX 0 s1
                eq_refl) as Hc2.
  destruct (dispatch_observers code EVENT_OBSERVER_MAX 0 e s1) as [s2 c2].
  cbn [fst snd] in *. unfold targets in *. rewrite map_app, Hc1, Hc2. f_equal.
  apply map_filter_ext_in. intros j Hj. apply in_seq in Hj.
  unfold obs_target. rewrite Ho1 by lia. split; reflexivity.
Qed.

Lemma sub_at_ext s1 s2 t i :
  g_subscribers s1 = g_subscribers s2 -> sub_at s1 t i = sub_at s2 t i.
Proof. unfold sub_at. intros ->. reflexivity. Qed.

Lemma obs_at_ext s1 s2 i :
  g_observers s1 = g_observers s2 -> obs_at s1 i = obs_at s2 i.
Proof. unfold obs_at. intros ->. reflexivity. Qed.

(** Handlers that touch neither the queue nor the registry change
    nothing ahead of the scan. *)
Lemma keeps_behind_scan code e t :
  keeps_queue code -> keeps_registry code -> behind_scan code e t.
Proof.
  intros Hq Hr. split.
  - intros s i Ht Hu s1. subst s1.
    destruct (Hr (s_callback (sub_at s t i)) e (s_arg (sub_at s t i)) s)
      as [Hs Ho].
    split; [| split].
    + rewrite (deref_queue _ s) by apply Hq. exact Ht.
    + intros j _. apply sub_at_ext, Hs.
    + intros j _. apply obs_at_ext, Ho.
  - intros s i Hu s1 j _. subst s1. apply obs_at_ext, Hr.
Qed.

Lemma targets_slots calls l :
  targets calls = l -> map inv_slot calls = map (fun x => fst (fst x)) l.
Proof. intros <-. unfold targets. rewrite map_map. reflexivity. Qed.

Lemma NoDup_map_inj {A B} (f : A -> B) (l : list A) :
  (forall x y, f x = f y -> x = y) -> List.NoDup l -> List.NoDup (map f l).
Proof.
  intros Hf. induction 1 as [| a l Ha _ IH]; simpl; constructor.
  - intros Hin. apply in_map_iff in Hin as (y & Hy & Hin).
    apply Hf in Hy. subst y. exact (Ha Hin).
  - exact IH.
Qed.

Lemma snapshot_slots_NoDup s t :
  List.NoDup (map (fun x : Target => fst (fst x)) (snapshot s t)).
Proof.
  unfold snapshot. rewrite map_app, !map_map. simpl.
  apply List.NoDup_app.
  - apply NoDup_map_inj; [intros x y [=]; assumption |].
    apply List.NoDup_filter, seq_NoDup.
  - apply NoDup_map_inj; [intros x y [=]; assumption |].
    apply List.NoDup_filter, seq_NoDup.
  - intros a Ha Hb. apply in_map_iff in Ha as (x & <- & _).
    apply in_map_iff in Hb as (y & Hy & _). discriminate.
Qed.

(** *** The scans read the registry as they go *)

(** A scan of [S k] turns is a scan of [k] turns and one more turn. *)
Lemma dispatch_subscribers_snoc code e : forall k i s,
  fst (dispatch_subscribers code (S k) i e s)
  = fst (dispatch_subscribers code 1 (i + k) e
           (fst (dispatch_subscribers code k i e s))).
Proof.
  induction k as [| k IH]; intros i s.
  - rewrite Nat.add_0_r. reflexivity.
  - replace (i + S k)%nat with (S i + k)%nat by lia.
    change (dispatch_subscribers code (S (S k)) i e s) with
      (let t := type (deref s e) in
       let x := sub_at s t i in
       if s_used x then
         let s1 := code (s_callback x) e (s_arg x) s in
         let (s2, calls) := dispatch_subscribers code (S k) (S i) e s1 in
         (s2, mkInv (SubSlot t i) (s_callback x) (s_arg x) e (deref s e)
                :: calls)
       else dispatch_subscribers code (S k) (S i) e s).
    change (dispatch_subscribers code (S k) i e s) with
      (let t := type (deref s e) in
       let x := sub_at s t i in
       if s_used x then
         let s1 := code (s_callback x) e (s_arg x) s in
         let (s2, calls) := dispatch_subscribers code k (S i) e s1 in
         (s2, mkInv (SubSlot t i) (s_callback x) (s_arg x) e (deref s e)
                :: calls)
       else dispatch_subscribers code k (S i) e s).
    cbv zeta. destruct (s_used (sub_at s (type (deref s e)) i)).
    + specialize (IH (S i) (code (s_callback (sub_at s (type (deref s e)) i)) e
                                 (s_arg (sub_at s (type (deref s e)) i)) s)).
      destruct (dispatch_subscribers code (S k) (S i) e _) as [sa ca].
      destruct (dispatch_subscribers code k (S i) e _) as [sb cb].
      exact IH.
    + apply IH.
Qed.

Lemma dispatch_observers_snoc code e : forall k i s,
  fst (dispatch_observers code (S k) i e s)
  = fst (dispatch_observers code 1 (i + k) e
           (fst (dispatch_observers code k i e s))).
Proof.
  induction k as [| k IH]; intros i s.
  - rewrite Nat.add_0_r. reflexivity.
  - replace (i + S k)%nat with (S i + k)%nat by lia.
    change (dispatch_observers code (S (S k)) i e s) with
      (let x := obs_at s i in
       if o_used x then
         let s1 := code (o_callback x) e (o_arg x) s in
         let (s2, calls) := dispatch_observers code (S k) (S i) e s1 in
         (s2, mkInv (ObsSlot i) (o_callback x) (o_arg x) e (deref s e)
                :: calls)
       else dispatch_observers code (S k) (S i) e s).
    change (dispatch_observers code (S k) i e s) with
      (let x := obs_at s i in
       if o_used x then
         let s1 := code (o_callback x) e (o_arg x) s in
         let (s2, calls) := dispatch_observers code k (S i) e s1 in
         (s2, mkInv (ObsSlot i) (o_callback x) (o_arg x) e (deref s e)
                :: calls)
       else dispatch_observers code k (S i) e s).
    cbv zeta. destruct (o_used (obs_at s i)).
    + specialize (IH (S i) (code (o_callback (obs_at s i)) e
                                 (o_arg (obs_at s i)) s)).
      destruct (dispatch_observers code (S k) (S i) e _) as [sa ca].
      destruct (dispatch_observers code k (S i) e _) as [sb cb].
      exact IH.
    + apply IH.
Qed.

(** The calls of the first scan, from slot [i] on, are those of the slots
    in use when the scan reaches them. *)
Lemma dispatch_subscribers_reached code e s0 : forall n i,
  targets (snd (dispatch_subscribers code n i e (at_sub_slot code e s0 i)))
  = map (fun j => sub_target (at_sub_slot code e s0 j)
                             (type (deref (at_sub_slot code e s0 j) e)) j)
        (List.filter
           (fun j => s_used (sub_at (at_sub_slot code e s0 j)
                               (type (deref (at_sub_slot code e s0 j) e)) j))
           (seq i n)).
Proof.
  induction n as [| n IH]; intros i; [reflexivity |].
  specialize (IH (S i)).
  assert (Hnext : at_sub_slot code e s0 (S i)
                  = fst (dispatch_subscribers code 1 i e (at_sub_slot code e s0 i))).
  { unfold at_sub_slot. rewrite dispatch_subscribers_snoc. reflexivity. }
  rewrite Hnext in IH at 1. clear Hnext.
  cbn [seq List.filter]. cbv beta.
  remember (at_sub_slot code e s0 i) as s eqn:Hs.
  cbn [dispatch_subscribers] in *.
  destruct (s_used (sub_at s (type (deref s e)) i)).
  - cbn [fst] in IH.
    destruct (dispatch_subscribers code n (S i) e _) as [s2 calls].
    cbn [snd targets map] in *. rewrite <- Hs. unfold sub_target at 1.
    f_equal. exact IH.
  - exact IH.
Qed.

Lemma dispatch_observers_reached code e s1 : forall n i,
  targets (snd (dispatch_observers code n i e
                  (fst (dispatch_observers code i 0 e s1))))
  = map (fun j => obs_target (fst (dispatch_observers code j 0 e s1)) j)
        (List.filter
           (fun j => o_used (obs_at (fst (dispatch_observers code j 0 e s1)) j))
           (seq i n)).
Proof.
  induction n as [| n IH]; intros i; [reflexivity |].
  specialize (IH (S i)).
  rewrite (dispatch_observers_snoc code e i 0 s1) in IH at 1.
  cbn [seq List.filter]. cbv beta.
  remember (fst (dispatch_observers code i 0 e s1)) as s eqn:Hs.
  cbn [dispatch_observers Nat.add] in *.
  destruct (o_used (obs_at s i)).
  - cbn [fst] in IH.
    destruct (dispatch_observers code n (S i) e _) as [s2 calls].
    cbn [snd targets map] in *. rewrite <- Hs. unfold obs_target at 1.
    f_equal. exact IH.
  - exact IH.
Qed.

Lemma at_sub_slot_0 code e s : at_sub_slot code e s 0 = s.
Proof. reflexivity. Qed.

Lemma at_sub_slot_eq code e s j :
  at_sub_slot code e s j = fst (dispatch_subscribers code j 0 e s).
Proof. reflexivity. Qed.

Lemma dispatch_observers_0 code i e s :
  fst (dispatch_observers code 0 i e s) = s.
Proof. reflexivity. Qed.

(** Both scans: the calls of a dispatch are those asked for by each slot
    as it is when the scan reaches it. *)
Lemma dispatch_event_reached code e s :
  targets (snd (dispatch_event code e s)) = calls_as_reached code e s.
Proof.
  unfold dispatch_event, calls_as_reached, at_obs_slot.
  pose proof (dispatch_subscribers_reached code e s EVENT_SUBSCRIBER_MAX 0)
    as H1.
  rewrite at_sub_slot_0 in H1.
  pose proof (dispatch_observers_reached code e
                (fst (dispatch_subscribers code EVENT_SUBSCRIBER_MAX 0 e s))
                EVENT_OBSERVER_MAX 0) as H2.
  rewrite dispatch_observers_0 in H2.
  destruct (dispatch_subscribers code EVENT_SUBSCRIBER_MAX 0 e s) as [s1 c1].
  cbn [fst snd] in *.
  destruct (dispatch_observers code EVENT_OBSERVER_MAX 0 e s1) as [s2 c2].
  cbn [fst snd] in *. unfold targets in *. rewrite map_app, H1, H2.
  reflexivity.
Qed.

(** *** Handlers that change the registry behind the scan *)

Lemma at_sub_slot_S code e s j :
  at_sub_slot code e s (S j)
  = let sj := at_sub_slot code e s j in
    let x := sub_at sj (type (deref sj e)) j in
    if s_used x then code (s_callback x) e (s_arg x) sj else sj.
Proof.
  unfold at_sub_slot. rewrite dispatch_subscribers_snoc. simpl (0 + j)%nat.
  cbn [dispatch_subscribers]. cbv zeta.
  destruct (s_used _); reflexivity.
Qed.

Lemma at_obs_slot_S code e s j :
  at_obs_slot code e s (S j)
  = let sj := at_obs_slot code e s j in
    let x := obs_at sj j in
    if o_used x then code (o_callback x) e (o_arg x) sj else sj.
Proof.
  unfold at_obs_slot. rewrite dispatch_observers_snoc. simpl (0 + j)%nat.
  cbn [dispatch_observers]. cbv zeta.
  destruct (o_used _); reflexivity.
Qed.

Lemma at_obs_slot_0 code e s :
  at_obs_slot code e s 0 = at_sub_slot code e s EVENT_SUBSCRIBER_MAX.
Proof. unfold at_obs_slot, at_sub_slot. apply dispatch_observers_0. Qed.

(** Under such handlers the first scan reaches every slot as it was when
    the dispatch began. *)
Lemma behind_run_subs code e s :
  behind_scan_run code e s ->
  forall j, (j <= EVENT_SUBSCRIBER_MAX)%nat ->
    type (deref (at_sub_slot code e s j) e) = type (deref s e) /\
    (forall k, (j <= k < EVENT_SUBSCRIBER_MAX)%nat ->
       sub_at (at_sub_slot code e s j) (type (deref s e)) k
       = sub_at s (type (deref s e)) k) /\
    (forall k, (k < EVENT_OBSERVER_MAX)%nat ->
       obs_at (at_sub_slot code e s j) k = obs_at s k).
Proof.
  intros [Hb _]. induction j as [| j IH]; intros Hj.
  - repeat split; reflexivity.
  - destruct (IH ltac:(lia)) as (Ht & Hsub & Hobs).
    specialize (Hb j ltac:(lia)). cbv zeta in Hb.
    rewrite at_sub_slot_S. cbv zeta. rewrite Ht.
    destruct (s_used (sub_at (at_sub_slot code e s j) (type (deref s e)) j));
      [| repeat split; [exact Ht | intros k Hk; apply Hsub; lia | exact Hobs]].
    destruct (Hb eq_refl) as (Ht1 & Hsub1 & Hobs1).
    split; [exact Ht1 |]. split.
    + intros k Hk. rewrite Hsub1 by lia. apply Hsub. lia.
    + intros k Hk. rewrite Hobs1 by lia. apply Hobs. lia.
Qed.

Lemma behind_run_obs code e s :
  behind_scan_run code e s ->
  forall j, (j <= EVENT_OBSERVER_MAX)%nat ->
    forall k, (j <= k < EVENT_OBSERVER_MAX)%nat ->
      obs_at (at_obs_slot code e s j) k = obs_at s k.
Proof.
  intros Hb. pose proof Hb as [_ Ho]. induction j as [| j IH]; intros Hj k Hk.
  - rewrite at_obs_slot_0.
    apply (behind_run_subs code e s Hb EVENT_SUBSCRIBER_MAX); lia.
  - specialize (IH ltac:(lia)). specialize (Ho j ltac:(lia)). cbv zeta in Ho.
    rewrite at_obs_slot_S. cbv zeta.
    destruct (o_used (obs_at (at_obs_slot code e s j) j));
      [| apply IH; lia].
    rewrite (Ho eq_refl) by lia. apply IH. lia.
Qed.

(** Both scans under such handlers: the dispatch calls what the registry
    asked for when it began. *)
Lemma dispatch_event_behind_run code e s :
  behind_scan_run code e s ->
  targets (snd (dispatch_event code e s)) = snapshot s (type (deref s e)).
Proof.
  intros Hb. rewrite dispatch_event_reached.
  unfold calls_as_reached, snapshot, active_subs, active_obs. f_equal.
  - apply map_filter_ext_in. intros j Hj. apply in_seq in Hj.
    destruct (behind_run_subs code e s Hb j ltac:(lia)) as (Ht & Hsub & _).
    rewrite Ht. unfold sub_target. rewrite Hsub by lia. split; reflexivity.
  - apply map_filter_ext_in. intros j Hj. apply in_seq in Hj.
    unfold obs_target.
    rewrite (behind_run_obs code e s Hb j ltac:(lia) j) by lia.
    split; reflexivity.
Qed.

(** Handlers that change the registry only behind the scan, whatever the
    state, do so in every dispatch. *)
Lemma behind_scan_covers code e s :
  behind_scan code e (type (deref s e)) -> behind_scan_run code e s.
Proof.
  intros [Hs Ho].
  assert (Ht : forall j, type (deref (at_sub_slot code e s j) e) = type (deref s e)).
  { induction j as [| j IH]; [reflexivity |].
    rewrite at_sub_slot_S. cbv zeta. rewrite IH.
    destruct (s_used _) eqn:Hu; [| exact IH].
    apply (Hs _ j IH Hu). }
  split.
  - intros j _ sj Hu. apply (Hs sj j (Ht j) Hu).
  - intros j _ sj Hu. apply (Ho sj j Hu).
Qed.

Lemma snapshot_registry s1 s2 t :
  g_subscribers s1 = g_subscribers s2 -> g_observers s1 = g_observers s2 ->
  snapshot s1 t = snapshot s2 t.
Proof.
  intros Hs Ho. unfold snapshot, active_subs, active_obs, sub_target,
    obs_target, sub_at, obs_at. rewrite Hs, Ho. reflexivity.
Qed.

(** *** The registry *)

Lemma sub_at_set_sub_ne s t m x j :
  m <> j -> sub_at (set_sub s t m x) t j = sub_at s t j.
Proof.
  intros Hne. unfold sub_at, set_sub; simpl.
  rewrite list_lookup_total_insert. case_decide; [| reflexivity].
  apply list_lookup_total_insert_ne. exact Hne.
Qed.

Lemma sub_at_set_sub_eq s t m x :
  wf_bus s -> 0 <= t < EVENT_MAX_COUNT -> (m < EVENT_SUBSCRIBER_MAX)%nat ->
  sub_at (set_sub s t m x) t m = x.
Proof.
  intros (_ & Hlen & Hrows & _) Ht Hm. unfold sub_at, set_sub; simpl.
  assert (Hin : (Z.to_nat t < length (g_subscribers s))%nat)
    by (rewrite Hlen; zmod).
  rewrite list_lookup_total_insert_eq by exact Hin.
  apply list_lookup_total_insert_eq.
  rewrite (Forall_lookup_total_1 _ _ _ Hrows Hin). exact Hm.
Qed.

Lemma set_sub_wf s t m x : wf_bus s -> wf_bus (set_sub s t m x).
Proof.
  intros (Hq & Hlen & Hrows & Ho). unfold wf_bus, set_sub; simpl.
  repeat split; try assumption.
  - rewrite length_insert. exact Hlen.
  - destruct (Nat.lt_ge_cases (Z.to_nat t) (length (g_subscribers s))) as [H | H].
    + apply Forall_insert; [exact Hrows |]. rewrite length_insert.
      apply (Forall_lookup_total_1 _ _ _ Hrows H).
    + rewrite list_insert_ge by exact H. exact Hrows.
Qed.

Lemma set_obs_wf s m x : wf_bus s -> wf_bus (set_obs s m x).
Proof.
  intros (Hq & Hlen & Hrows & Ho). unfold wf_bus, set_obs; simpl.
  repeat split; try assumption. rewrite length_insert. exact Ho.
Qed.


(** What the loop of [EVENT_Unsubscribe] does: it finds no slot that
    matches and changes nothing, or it clears [used] in the first that
    does. *)
Lemma unsubscribe_loop_spec t cb a s : forall n k,
  (unsubscribe_loop n k t cb a s = (-1, s) /\
   forall j, (k <= j < k + n)%nat -> sub_matches s t j cb a = false) \/
  (exists m, (k <= m < k + n)%nat /\
     sub_matches s t m cb a = true /\
     (forall j, (k <= j < m)%nat -> sub_matches s t j cb a = false) /\
     unsubscribe_loop n k t cb a s
       = (0, set_sub s t m (mkSub (s_callback (sub_at s t m))
                                  (s_arg (sub_at s t m)) false))).
Proof.
  induction n as [| n IH]; intros k; simpl.
  - left. split; [reflexivity | intros j Hj; lia].
  - fold (sub_matches s t k cb a).
    destruct (sub_matches s t k cb a) eqn:Hk.
    + right. exists k. repeat split; try lia; try assumption.
    + destruct (IH (S k)) as [[Hr Hno] | (m & Hm & Hmatch & Hfirst & Hr)].
      * left. split; [exact Hr |]. intros j Hj.
        destruct (Nat.eq_dec j k) as [-> | Hne]; [exact Hk | apply Hno; lia].
      * right. exists m. repeat split; try lia; try assumption.
        intros j Hj.
        destruct (Nat.eq_dec j k) as [-> | Hne]; [exact Hk | apply Hfirst; lia].
Qed.


Lemma unsubscribe_frame t cb a s :
  g_queue (snd (EVENT_Unsubscribe t cb a s)) = g_queue s /\
  g_observers (snd (EVENT_Unsubscribe t cb a s)) = g_observers s /\
  g_initialized (snd (EVENT_Unsubscribe t cb a s)) = g_initialized s /\
  g_rest (snd (EVENT_Unsubscribe t cb a s)) = g_rest s.
Proof.
  unfold EVENT_Unsubscribe.
  destruct (negb (g_initialized s) || (t >=? EVENT_MAX_COUNT) || (cb =? 0));
    [simpl; tauto |].
  destruct (unsubscribe_loop_spec t cb a s EVENT_SUBSCRIBER_MAX 0)
    as [[-> _] | (m & _ & _ & _ & ->)]; simpl; tauto.
Qed.

(** [EVENT_Unsubscribe] changes no slot after one that matches. *)
Lemma unsubscribe_behind t cb a s i j :
  sub_matches s t i cb a = true -> (i < j)%nat ->
  sub_at (snd (EVENT_Unsubscribe t cb a s)) t j = sub_at s t j.
Proof.
  intros Hi Hij. unfold EVENT_Unsubscribe.
  destruct (negb (g_initialized s) || (t >=? EVENT_MAX_COUNT) || (cb =? 0));
    [reflexivity |].
  destruct (unsubscribe_loop_spec t cb a s EVENT_SUBSCRIBER_MAX 0)
    as [[-> _] | (m & _ & _ & Hfirst & ->)]; [reflexivity |]. simpl.
  apply sub_at_set_sub_ne. intros ->.
  rewrite Hfirst in Hi by lia. discriminate.
Qed.

(** *** Dispatch under handlers that publish *)

(** Pushes that leave room append to the live records and touch neither
    the head nor the slot before it, the one [queue_pop] handed out
    last. *)
Lemma push_seq_spec (e : nat) (evs : list Event_t) : forall s,
  queue_inv (g_queue s) ->
  length (q_queue (g_queue s)) = Z.to_nat EVENT_QUEUE_SIZE ->
  q_count (g_queue (push_seq evs s)) < EVENT_QUEUE_SIZE ->
  q_head (g_queue s) = (Z.of_nat e + 1) mod EVENT_QUEUE_SIZE ->
  Z.of_nat e < EVENT_QUEUE_SIZE ->
  queue_inv (g_queue (push_seq evs s)) /\
  length (q_queue (g_queue (push_seq evs s))) = Z.to_nat EVENT_QUEUE_SIZE /\
  q_head (g_queue (push_seq evs s)) = q_head (g_queue s) /\
  q_count (g_queue (push_seq evs s))
    = q_count (g_queue s) + Z.of_nat (length evs) /\
  live (g_queue (push_seq evs s)) = live (g_queue s) ++ evs /\
  q_queue (g_queue (push_seq evs s)) !!! e = q_queue (g_queue s) !!! e.
Proof.
  induction evs as [| ev evs IH]; intros s Hinv Hlen Hc Hh He.
  - simpl. rewrite app_nil_r. repeat split; try assumption || apply Hinv. lia.
  - cbn [push_seq fold_left] in *.
    fold (push_seq evs (snd (queue_push ev s))) in *.
    destruct (Z_lt_ge_dec (q_count (g_queue s)) EVENT_QUEUE_SIZE)
      as [Hlt | Hge].
    + rewrite (queue_push_room ev s Hinv Hlt) in *. cbn [snd] in *.
      set (s1 := with_queue s _) in *.
      assert (Hinv1 : queue_inv (g_queue s1)) by (apply push_inv; assumption).
      assert (Hlen1 : length (q_queue (g_queue s1))
                      = Z.to_nat EVENT_QUEUE_SIZE).
      { simpl. rewrite length_insert. exact Hlen. }
      destruct (IH s1 Hinv1 Hlen1 Hc Hh He) as (H1 & H2 & H3 & H4 & H5 & H6).
      split; [exact H1 |]. split; [exact H2 |]. split; [exact H3 |].
      simpl in H4. split; [rewrite H4; simpl length; lia |].
      split.
      * rewrite H5. simpl. rewrite live_push by assumption.
        rewrite <- app_assoc. reflexivity.
      * rewrite H6. simpl.
        apply list_lookup_total_insert_ne.
        destruct Hinv as (Hc0 & Hh0 & Ht0 & Heq).
        intros Habs. rewrite <- Habs in He, Hh.
        rewrite Z2Nat.id in He, Hh by lia. zmod.
    + rewrite (queue_push_full ev s) in * by lia. cbn [snd] in *.
      destruct (IH s Hinv Hlen Hc Hh He) as (_ & _ & _ & H4 & _). lia.
Qed.

(** A dispatch starts as it should be. *)
Lemma in_flight_start e s :
  queue_inv (g_queue s) ->
  length (q_queue (g_queue s)) = Z.to_nat EVENT_QUEUE_SIZE ->
  q_count (g_queue s) < EVENT_QUEUE_SIZE ->
  in_flight e s s.
Proof.
  intros Hinv Hlen Hc. repeat split; try assumption || apply Hinv.
  exists []. rewrite app_nil_r. reflexivity.
Qed.

(** A handler that appends keeps the dispatch as it should be. *)
Lemma in_flight_step e s0 s s' :
  q_head (g_queue s0) = (Z.of_nat e + 1) mod EVENT_QUEUE_SIZE ->
  Z.of_nat e < EVENT_QUEUE_SIZE ->
  in_flight e s0 s -> appended s s' -> in_flight e s0 s'.
Proof.
  intros Hh He (Hinv & Hlen & Hhead & Hc & (evs0 & Hlive) & Hd)
         (Hc' & evs & Hq).
  rewrite Hq in Hc'. rewrite <- Hhead in Hh.
  destruct (push_seq_spec e evs s Hinv Hlen Hc' Hh He)
    as (H1 & H2 & H3 & H4 & H5 & H6).
  unfold in_flight, deref. rewrite Hq.
  split; [exact H1 |]. split; [exact H2 |]. split; [congruence |].
  split; [exact Hc' |]. split.
  - exists (evs0 ++ evs). rewrite H5, Hlive, app_assoc. reflexivity.
  - rewrite H6. exact Hd.
Qed.

(** The dispatch of the record at [e], the slot [queue_pop] handed out
    last, by handlers that do no more to the queue than append. *)
Section Appending.

Variables (code : Handlers U) (e : nat) (s0 : Bus U).
Hypothesis Happ : during_dispatch appended code e s0.
Hypothesis Hhead :
  q_head (g_queue s0) = (Z.of_nat e + 1) mod EVENT_QUEUE_SIZE.
Hypothesis He : Z.of_nat e < EVENT_QUEUE_SIZE.
Hypothesis Hstart : in_flight e s0 s0.

(** Each scan reaches every slot with the dispatch as it should be. *)
Lemma append_run_subs (j : nat) :
  (j <= EVENT_SUBSCRIBER_MAX)%nat -> in_flight e s0 (at_sub_slot code e s0 j).
Proof.
  induction j as [| j IH]; intros Hj; [exact Hstart |].
  specialize (IH ltac:(lia)). rewrite at_sub_slot_S. cbv zeta.
  destruct (s_used _) eqn:Hu; [| exact IH].
  apply (in_flight_step e s0 _ _ Hhead He IH).
  apply (proj1 Happ j); [lia | exact Hu].
Qed.

Lemma append_run_obs (j : nat) :
  (j <= EVENT_OBSERVER_MAX)%nat -> in_flight e s0 (at_obs_slot code e s0 j).
Proof.
  induction j as [| j IH]; intros Hj.
  - rewrite at_obs_slot_0. apply append_run_subs. lia.
  - specialize (IH ltac:(lia)). rewrite at_obs_slot_S. cbv zeta.
    destruct (o_used _) eqn:Hu; [| exact IH].
    apply (in_flight_step e s0 _ _ Hhead He IH).
    apply (proj2 Happ j); [lia | exact Hu].
Qed.

(** Every handler is given the record as it was popped. *)
Lemma append_run_subs_carry : forall n i,
  (i + n <= EVENT_SUBSCRIBER_MAX)%nat ->
  calls_carry e (deref s0 e)
    (snd (dispatch_subscribers code n i e (at_sub_slot code e s0 i))).
Proof.
  induction n as [| n IH]; intros i Hin; [constructor |].
  specialize (IH (S i) ltac:(lia)).
  pose proof (at_sub_slot_S code e s0 i) as Hnext. cbv zeta in Hnext.
  destruct (append_run_subs i ltac:(lia)) as (_ & _ & _ & _ & _ & Hd).
  remember (at_sub_slot code e s0 i) as s eqn:Hs.
  cbn [dispatch_subscribers]. cbv zeta.
  destruct (s_used (sub_at s (type (deref s e)) i)).
  - rewrite <- Hnext.
    destruct (dispatch_subscribers code n (S i) e _) as [s2 calls].
    cbn [snd] in *. constructor; [split; [reflexivity | exact Hd] | exact IH].
  - rewrite <- Hnext. exact IH.
Qed.

Lemma append_run_obs_carry : forall n i,
  (i + n <= EVENT_OBSERVER_MAX)%nat ->
  calls_carry e (deref s0 e)
    (snd (dispatch_observers code n i e (at_obs_slot code e s0 i))).
Proof.
  induction n as [| n IH]; intros i Hin; [constructor |].
  specialize (IH (S i) ltac:(lia)).
  pose proof (at_obs_slot_S code e s0 i) as Hnext. cbv zeta in Hnext.
  destruct (append_run_obs i ltac:(lia)) as (_ & _ & _ & _ & _ & Hd).
  remember (at_obs_slot code e s0 i) as s eqn:Hs.
  cbn [dispatch_observers]. cbv zeta.
  destruct (o_used (obs_at s i)).
  - rewrite <- Hnext.
    destruct (dispatch_observers code n (S i) e _) as [s2 calls].
    cbn [snd] in *. constructor; [split; [reflexivity | exact Hd] | exact IH].
  - rewrite <- Hnext. exact IH.
Qed.

(** The state and the calls of a dispatch, by those of its scans. *)
Lemma dispatch_event_at_obs_slot :
  fst (dispatch_event code e s0) = at_obs_slot code e s0 EVENT_OBSERVER_MAX.
Proof.
  unfold dispatch_event, at_obs_slot.
  destruct (dispatch_subscribers code EVENT_SUBSCRIBER_MAX 0 e s0) as [s1 c1].
  cbn [fst].
  destruct (dispatch_observers code EVENT_OBSERVER_MAX 0 e s1) as [s2 c2].
  reflexivity.
Qed.

Lemma dispatch_event_snd :
  snd (dispatch_event code e s0)
  = snd (dispatch_subscribers code EVENT_SUBSCRIBER_MAX 0 e s0)
    ++ snd (dispatch_observers code EVENT_OBSERVER_MAX 0 e
              (fst (dispatch_subscribers code EVENT_SUBSCRIBER_MAX 0 e s0))).
Proof.
  unfold dispatch_event.
  destruct (dispatch_subscribers code EVENT_SUBSCRIBER_MAX 0 e s0) as [s1 c1].
  cbn [fst snd].
  destruct (dispatch_observers code EVENT_OBSERVER_MAX 0 e s1) as [s2 c2].
  reflexivity.
Qed.

(** A dispatch under handlers that append: every handler is given the
    record as it was popped, and the dispatch ends as it should be. *)
Lemma dispatch_event_appends :
  in_flight e s0 (fst (dispatch_event code e s0)) /\
  calls_carry e (deref s0 e) (snd (dispatch_event code e s0)).
Proof.
  split.
  - rewrite dispatch_event_at_obs_slot. apply append_run_obs.
    apply Nat.le_refl.
  - pose proof (append_run_subs_carry EVENT_SUBSCRIBER_MAX 0 (Nat.le_refl _))
      as H1.
    pose proof (append_run_obs_carry EVENT_OBSERVER_MAX 0 (Nat.le_refl _))
      as H2.
    rewrite at_sub_slot_0 in H1. rewrite at_obs_slot_0, at_sub_slot_eq in H2.
    rewrite dispatch_event_snd. apply Forall_app. split; [exact H1 | exact H2].
Qed.

(** With the registry left as it is besides, the dispatch calls what the
    registry asks for. *)
Lemma append_behind_run :
  during_dispatch same_registry code e s0 -> behind_scan_run code e s0.
Proof.
  intros [Hrs Hro]. split.
  - intros j Hj sj Hu s1.
    destruct (append_run_subs j ltac:(lia)) as (_ & _ & _ & _ & _ & Hd).
    fold sj in Hd.
    pose proof (proj1 Happ j Hj) as Ha. cbv zeta in Ha. fold sj in Ha.
    pose proof (Hrs j Hj) as Hr. cbv zeta in Hr. fold sj in Hr.
    rewrite Hd in Ha, Hr. specialize (Ha Hu). specialize (Hr Hu).
    fold s1 in Ha, Hr.
    destruct (in_flight_step e s0 sj s1 Hhead He
                (append_run_subs j ltac:(lia)) Ha)
      as (_ & _ & _ & _ & _ & Hd1).
    split; [rewrite Hd1; reflexivity |]. destruct Hr as [Hs Ho].
    split; intros k _; [apply sub_at_ext, Hs | apply obs_at_ext, Ho].
  - intros j Hj sj Hu s1 k _. apply obs_at_ext. apply (Hro j Hj Hu).
Qed.

End Appending.

(** The turns of the loop of [EVENT_Process]. *)
Lemma at_turn_next code k s e s1 :
  queue_pop s = (Some e, s1) ->
  at_turn code (S k) s = at_turn code k (fst (dispatch_event code e s1)).
Proof. intros H. cbn [at_turn]. rewrite H. reflexivity. Qed.

Lemma at_turn_done code k s :
  q_count (g_queue s) = 0 -> at_turn code k s = s.
Proof.
  intros Hz. destruct k as [| k]; [reflexivity |].
  cbn [at_turn]. rewrite (queue_pop_empty s Hz). reflexivity.
Qed.

Lemma at_turn_add code (a b : nat) : forall s,
  at_turn code (a + b) s = at_turn code b (at_turn code a s).
Proof.
  induction a as [| a IH]; intros s; [reflexivity |].
  cbn [Nat.add at_turn]. unfold queue_pop.
  destruct (Z.eqb_spec (q_count (g_queue s)) 0) as [Hz | _].
  - symmetry. apply at_turn_done. exact Hz.
  - apply IH.
Qed.

(** What every call of a handler does, through a dispatch and a drain. *)
Lemma during_dispatch_impl (R R' : Bus U -> Bus U -> Prop) code e s :
  (forall j, (j <= EVENT_SUBSCRIBER_MAX)%nat ->
     forall x, R (at_sub_slot code e s j) x -> R' (at_sub_slot code e s j) x) ->
  (forall j, (j <= EVENT_OBSERVER_MAX)%nat ->
     forall x, R (at_obs_slot code e s j) x -> R' (at_obs_slot code e s j) x) ->
  during_dispatch R code e s -> during_dispatch R' code e s.
Proof.
  intros H1 H2 [Hs Ho]. split.
  - intros j Hj sj x Hu. apply H1; [lia |]. apply (Hs j Hj Hu).
  - intros j Hj sj x Hu. apply H2; [lia |]. apply (Ho j Hj Hu).
Qed.

(** Handlers that have a property in every state have it in every
    dispatch and every drain. *)
Lemma always_during_dispatch (R : Bus U -> Bus U -> Prop) code e s :
  (forall cb e' a x, R x (code cb e' a x)) -> during_dispatch R code e s.
Proof. intros H. split; intros j _ sj x _; apply H. Qed.

Lemma always_during_drain (R : Bus U -> Bus U -> Prop) code s :
  (forall cb e' a x, R x (code cb e' a x)) -> during_drain R code s.
Proof. intros H k e s1 _. apply always_during_dispatch, H. Qed.

Lemma during_drain_next (R : Bus U -> Bus U -> Prop) code s e s1 :
  queue_pop s = (Some e, s1) ->
  during_drain R code s ->
  during_dispatch R code e s1 /\
  during_drain R code (fst (dispatch_event code e s1)).
Proof.
  intros Hpop Hdr. split.
  - apply (Hdr 0%nat e s1). exact Hpop.
  - intros k e' x Hx. apply (Hdr (S k) e' x).
    rewrite (at_turn_next code k s e s1 Hpop). exact Hx.
Qed.

Section Dispatch.

Variables (code : Handlers U) (e : nat) (s0 : Bus U).

(** Where each scan of the dispatch stands when a property of the state
    that the handlers called keep holds at the start. *)
Lemma during_dispatch_keeps (R : Bus U -> Bus U -> Prop) (P : Bus U -> Prop) :
  during_dispatch R code e s0 ->
  (forall x y, P x -> R x y -> P y) ->
  P s0 ->
  (forall j, (j <= EVENT_SUBSCRIBER_MAX)%nat -> P (at_sub_slot code e s0 j)) /\
  (forall j, (j <= EVENT_OBSERVER_MAX)%nat -> P (at_obs_slot code e s0 j)) /\
  P (fst (dispatch_event code e s0)).
Proof.
  intros [Hs Ho] Hstep H0.
  assert (H1 : forall j, (j <= EVENT_SUBSCRIBER_MAX)%nat ->
                         P (at_sub_slot code e s0 j)).
  { induction j as [| j IH]; intros Hj; [exact H0 |].
    specialize (IH ltac:(lia)). rewrite at_sub_slot_S. cbv zeta.
    destruct (s_used _) eqn:Hu; [| exact IH].
    apply (Hstep _ _ IH). apply (Hs j); [lia | exact Hu]. }
  assert (H2 : forall j, (j <= EVENT_OBSERVER_MAX)%nat ->
                         P (at_obs_slot code e s0 j)).
  { induction j as [| j IH]; intros Hj.
    - rewrite at_obs_slot_0. apply H1. apply Nat.le_refl.
    - specialize (IH ltac:(lia)). rewrite at_obs_slot_S. cbv zeta.
      destruct (o_used _) eqn:Hu; [| exact IH].
      apply (Hstep _ _ IH). apply (Ho j); [lia | exact Hu]. }
  split; [exact H1 |]. split; [exact H2 |].
  rewrite dispatch_event_at_obs_slot. apply H2. apply Nat.le_refl.
Qed.

End Dispatch.

(** A dispatch whose handlers leave the registry as it is. *)
Lemma dispatch_same_registry code e s :
  during_dispatch same_registry code e s ->
  same_registry s (fst (dispatch_event code e s)).
Proof.
  intros H.
  apply (during_dispatch_keeps code e s same_registry (same_registry s) H).
  - intros x y [H1 H2] [H3 H4]. split; congruence.
  - split; reflexivity.
Qed.

(** A dispatch whose handlers leave the queue as it is. *)
Lemma dispatch_same_queue code e s :
  during_dispatch same_queue code e s ->
  same_queue s (fst (dispatch_event code e s)) /\
  (q_count (g_queue s) < EVENT_QUEUE_SIZE -> during_dispatch appended code e s).
Proof.
  intros H.
  destruct (during_dispatch_keeps code e s same_queue (same_queue s) H)
    as (H1 & H2 & H3).
  - unfold same_queue. intros x y Hx Hy. congruence.
  - reflexivity.
  - split; [exact H3 |]. intros Hc.
    apply (during_dispatch_impl same_queue appended code e s); [| | exact H].
    + intros j Hj x Hx. specialize (H1 j Hj). unfold same_queue in Hx, H1.
      split; [rewrite Hx, H1; exact Hc | exists []; exact Hx].
    + intros j Hj x Hx. specialize (H2 j Hj). unfold same_queue in Hx, H2.
      split; [rewrite Hx, H2; exact Hc | exists []; exact Hx].
Qed.

(** The loop of [EVENT_Process] under handlers that append: whenever it
    ends, it has dispatched the records that were live, oldest first,
    before any other, and every handler was given the record popped. *)
Lemma process_loop_appends code :
  forall fuel c s n s' ds,
    queue_inv (g_queue s) ->
    length (q_queue (g_queue s)) = Z.to_nat EVENT_QUEUE_SIZE ->
    during_drain appended code s ->
    process_loop code fuel c s = Some (n, s', ds) ->
    (exists ds1 ds2, ds = ds1 ++ ds2 /\ map d_record ds1 = live (g_queue s)) /\
    Forall (fun d => calls_carry (d_event d) (d_record d) (d_calls d)) ds /\
    (during_drain same_registry code s ->
     Forall (fun d => targets (d_calls d) = snapshot s (type (d_record d))) ds).
Proof.
  induction fuel as [| fuel IH]; intros c s n s' ds Hinv Hlen Hdr;
    [discriminate |].
  destruct (Z.eq_dec (q_count (g_queue s)) 0) as [Hz | Hnz].
  - cbn [process_loop]. unfold queue_is_empty. rewrite Hz. simpl.
    intros [= _ _ <-]. split; [| split; [constructor | constructor]].
    exists [], []. split; [reflexivity |]. unfold live. rewrite Hz. reflexivity.
  - assert (Hc : 0 < q_count (g_queue s)) by (destruct Hinv; lia).
    pose proof (queue_pop_some s Hinv Hc) as Hpop.
    pose proof (live_pop (g_queue s) Hinv Hc) as Hlive.
    pose proof (pop_inv (g_queue s) Hinv Hc) as Hinv1.
    assert (Hhead : (q_head (g_queue s) + 1) mod EVENT_QUEUE_SIZE
                    = (Z.of_nat (Z.to_nat (q_head (g_queue s))) + 1)
                      mod EVENT_QUEUE_SIZE).
    { destruct Hinv as (_ & ? & _). rewrite Z2Nat.id by lia. reflexivity. }
    assert (He : Z.of_nat (Z.to_nat (q_head (g_queue s))) < EVENT_QUEUE_SIZE).
    { destruct Hinv as (_ & ? & _). lia. }
    assert (Hc1 : q_count (g_queue s) - 1 < EVENT_QUEUE_SIZE).
    { destruct Hinv. lia. }
    set (e := Z.to_nat (q_head (g_queue s))) in *.
    set (s1 := with_queue s _) in *.
    assert (Hst : in_flight e s1 s1)
      by (apply in_flight_start; [exact Hinv1 | exact Hlen | exact Hc1]).
    clear Hc Hc1 Hnz.
    rewrite (process_loop_turn code fuel c s e s1 Hpop).
    destruct (during_drain_next appended code s e s1 Hpop Hdr) as [H0 Hdr2].
    destruct (dispatch_event_appends code e s1 H0 Hhead He Hst)
      as ((Hinv2 & Hlen2 & _ & _ & (evs & Hlive2) & _) & Hcarry).
    destruct (process_loop code fuel (c + 1) (fst (dispatch_event code e s1)))
      as [[[n3 s3] ds3] |] eqn:E; [| discriminate].
    intros [= _ _ <-].
    destruct (IH _ _ _ _ _ Hinv2 Hlen2 Hdr2 E)
      as ((ds1 & ds2 & -> & Hrec) & Hall & Hpin).
    split; [| split].
    + rewrite Hlive2 in Hrec.
      apply map_eq_app in Hrec as (da & db & -> & Ha & Hb).
      exists (mkDispatched e (deref s1 e) (snd (dispatch_event code e s1))
                :: da), (db ++ ds2).
      split; [rewrite <- app_assoc; reflexivity |].
      cbn [map d_record]. rewrite Ha, Hlive. reflexivity.
    + constructor; [exact Hcarry | exact Hall].
    + intros Hr.
      destruct (during_drain_next same_registry code s e s1 Hpop Hr)
        as [Hr0 Hr2].
      destruct (dispatch_same_registry code e s1 Hr0) as [Hs2 Ho2].
      constructor.
      * cbn [d_calls d_record].
        rewrite (dispatch_event_behind_run code e s1
                   (append_behind_run code e s1 H0 Hhead He Hst Hr0)).
        apply snapshot_registry; reflexivity.
      * eapply Forall_impl; [exact (Hpin Hr2) |]. intros d ->.
        apply snapshot_registry; [rewrite Hs2 | rewrite Ho2]; reflexivity.
Qed.

(** A drain whose handlers leave the queue as it is appends, and that
    is all. *)
Lemma drain_same_queue_appends code : forall k s e s1,
  queue_inv (g_queue s) ->
  during_drain same_queue code s ->
  queue_pop (at_turn code k s) = (Some e, s1) ->
  during_dispatch appended code e s1.
Proof.
  induction k as [| k IH]; intros s e s1 Hinv Hdr.
  - cbn [at_turn]. intros Hpop.
    destruct (during_drain_next same_queue code s e s1 Hpop Hdr) as [Hd _].
    apply (dispatch_same_queue code e s1 Hd).
    unfold queue_pop in Hpop.
    destruct (Z.eqb_spec (q_count (g_queue s)) 0); [discriminate |].
    injection Hpop as _ <-. simpl.
    rewrite u16_small; destruct Hinv; unfold EVENT_QUEUE_SIZE in *; lia.
  - cbn [at_turn].
    destruct (queue_pop s) as [[e0 |] x] eqn:Hpop;
      [| rewrite Hpop; discriminate].
    destruct (during_drain_next same_queue code s e0 x Hpop Hdr)
      as [Hd Hnext].
    apply IH; [| exact Hnext].
    destruct (dispatch_same_queue code e0 x Hd) as [-> _].
    assert (Hc : 0 < q_count (g_queue s)).
    { unfold queue_pop in Hpop.
      destruct (Z.eqb_spec (q_count (g_queue s)) 0); [discriminate |].
      destruct Hinv. lia. }
    rewrite (queue_pop_some s Hinv Hc) in Hpop. injection Hpop as _ <-.
    apply pop_inv; assumption.
Qed.

Lemma during_drain_same_queue code s :
  queue_inv (g_queue s) ->
  during_drain same_queue code s -> during_drain appended code s.
Proof.
  intros Hinv Hdr k e s1. apply drain_same_queue_appends; assumption.
Qed.

(** Under handlers that leave the queue as it is, the loop of
    [EVENT_Process] ends after as many turns as there are live records
    and leaves the queue empty. *)
Lemma process_loop_quiet code :
  forall (n fuel : nat) (c : Z) s,
    queue_inv (g_queue s) ->
    during_drain same_queue code s ->
    Z.to_nat (q_count (g_queue s)) = n ->
    (n < fuel)%nat ->
    exists s' ds,
      process_loop code fuel c s = Some (c + Z.of_nat n, s', ds) /\
      map d_record ds = live (g_queue s) /\
      q_count (g_queue s') = 0.
Proof.
  induction n as [| n IH]; intros fuel c s Hinv Hdr Hn Hfuel.
  - destruct fuel as [| fuel]; [lia |]. cbn [process_loop].
    assert (Hc : q_count (g_queue s) = 0) by (destruct Hinv; lia).
    unfold queue_is_empty. rewrite Hc. simpl.
    exists s, []. repeat split.
    + f_equal. f_equal. f_equal. lia.
    + unfold live. rewrite Hc. reflexivity.
    + exact Hc.
  - destruct fuel as [| fuel]; [lia |].
    assert (Hc : 0 < q_count (g_queue s)) by lia.
    pose proof (queue_pop_some s Hinv Hc) as Hpop.
    set (e := Z.to_nat (q_head (g_queue s))) in *.
    set (s1 := with_queue s _) in *.
    rewrite (process_loop_turn code fuel c s e s1 Hpop).
    destruct (during_drain_next same_queue code s e s1 Hpop Hdr)
      as [Hd Hnext].
    destruct (dispatch_same_queue code e s1 Hd) as [Hq _].
    unfold same_queue in Hq.
    destruct (IH fuel (c + 1) (fst (dispatch_event code e s1)))
      as (s' & ds & Hrun & Hrec & Hend).
    + rewrite Hq. apply pop_inv; assumption.
    + exact Hnext.
    + rewrite Hq. simpl. lia.
    + lia.
    + rewrite Hrun. eexists _, _. repeat split.
      * f_equal. f_equal. f_equal. lia.
      * simpl. rewrite Hrec, Hq. rewrite (live_pop (g_queue s) Hinv Hc).
        reflexivity.
      * exact Hend.
Qed.

(** *** C1 *)

(** C1, amended.  FIFO dispatch order.  After a run of [n] calls of
    [EVENT_Publish] that all returned 0, with nothing else in between:
    when no call of a handler made in the turns of the loop of
    [EVENT_Process] changes the queue, [EVENT_Process] returns the number
    of the records queued and has popped the records that were queued
    before the run followed by the [n] published ones, in the order of the
    calls, whatever their priorities, and no other; and when these calls
    do no more to the queue than push records without filling it, as by
    [EVENT_Publish], every call of [EVENT_Process] that returns has popped
    these records first and in that order, before any that a handler
    published.  In both cases every handler called for a record was given
    that record as it was popped, and when none of these calls changes
    the registry either, the calls made for each record are those of the
    subscribers of its type in use, by slot, then of the observers in
    use, by slot. *)
Theorem fifo_dispatch_order code (rs : list Publish_args) s s' (fuel : nat) :
  wf_bus s ->
  queue_inv (g_queue s) ->
  g_initialized s = true ->
  publish_seq rs s = Some s' ->
  (during_drain same_queue code s' ->
   (length (live (g_queue s)) + length rs < fuel)%nat ->
   exists s'' ds,
     EVENT_Process code fuel s'
       = Some (Z.of_nat (length (live (g_queue s)) + length rs), s'', ds) /\
     map d_record ds = live (g_queue s) ++ map event_of rs /\
     Forall (fun d => calls_carry (d_event d) (d_record d) (d_calls d)) ds /\
     q_count (g_queue s'') = 0 /\
     (during_drain same_registry code s' ->
      Forall (fun d => targets (d_calls d) = snapshot s (type (d_record d)))
             ds)) /\
  (during_drain appended code s' ->
   forall n s'' ds,
     EVENT_Process code fuel s' = Some (n, s'', ds) ->
     (exists ds1 ds2,
        ds = ds1 ++ ds2 /\
        map d_record ds1 = live (g_queue s) ++ map event_of rs) /\
     Forall (fun d => calls_carry (d_event d) (d_record d) (d_calls d)) ds /\
     (during_drain same_registry code s' ->
      Forall (fun d => targets (d_calls d) = snapshot s (type (d_record d)))
             ds)).
Proof.
  intros (Hlen & _) Hinv Hinit Hrun.
  destruct (publish_seq_live rs s s' Hinv Hlen Hrun)
    as (Hinv' & Hlen' & Hlive & Hsub & Hobs & Hinit' & _).
  assert (Hsnap : forall t, snapshot s' t = snapshot s t)
    by (intros t; apply snapshot_registry; assumption).
  assert (Happ : during_drain appended code s' ->
   forall n s'' ds,
     process_loop code fuel 0 s' = Some (n, s'', ds) ->
     (exists ds1 ds2,
        ds = ds1 ++ ds2 /\
        map d_record ds1 = live (g_queue s) ++ map event_of rs) /\
     Forall (fun d => calls_carry (d_event d) (d_record d) (d_calls d)) ds /\
     (during_drain same_registry code s' ->
      Forall (fun d => targets (d_calls d) = snapshot s (type (d_record d)))
             ds)).
  { intros Hdr n s'' ds Hp.
    destruct (process_loop_appends code _ _ _ _ _ _ Hinv' Hlen' Hdr Hp)
      as (Hrec & Hall & Hpin).
    rewrite Hlive in Hrec. split; [exact Hrec |]. split; [exact Hall |].
    intros Hr. eapply Forall_impl; [exact (Hpin Hr) |].
    intros d ->. apply Hsnap. }
  unfold EVENT_Process. rewrite Hinit', Hinit. simpl negb. cbv iota.
  split; [| exact Happ].
  intros Hq Hfuel.
  assert (Hn : Z.to_nat (q_count (g_queue s'))
               = (length (live (g_queue s)) + length rs)%nat).
  { rewrite <- live_length, Hlive, length_app, length_map. reflexivity. }
  destruct (process_loop_quiet code _ fuel 0 s' Hinv' Hq Hn Hfuel)
    as (s'' & ds & Hp & Hrec & Hend).
  destruct (Happ (during_drain_same_queue code s' Hinv' Hq) _ _ _ Hp)
    as (_ & Hall & Hpin).
  exists s'', ds. rewrite Hrec, Hlive.
  split; [exact Hp |]. split; [reflexivity |]. split; [exact Hall |].
  split; [exact Hend | exact Hpin].
Qed.

(** *** C5 *)

Lemma map_nth_seq (src : list Z) : forall n : nat,
  (n <= length src)%nat ->
  map (fun i => nth i src 0) (seq 0 n) = firstn n src.
Proof.
  induction src as [| a src IH]; intros n Hn; simpl in Hn.
  - replace n with 0%nat by lia. reflexivity.
  - destruct n as [| n]; [reflexivity |]. simpl.
    rewrite <- seq_shift, map_map. simpl. f_equal. apply IH. lia.
Qed.

Lemma memcpy_firstn dst src n :
  0 <= n <= Z.of_nat (length src) ->
  firstn (Z.to_nat n) (memcpy dst src n) = firstn (Z.to_nat n) src.
Proof.
  intros Hn. unfold memcpy. rewrite map_nth_seq by lia.
  rewrite firstn_app, firstn_firstn, Nat.min_id.
  rewrite length_firstn.
  replace (Z.to_nat n - Nat.min (Z.to_nat n) (length src))%nat with 0%nat by lia.
  simpl. apply app_nil_r.
Qed.

(** The record that [EVENT_Publish] makes of [L] bytes. *)
Lemma make_event_payload (now t pr L : Z) (bytes : list Z) :
  0 < L <= EVENT_DATA_SIZE_MAX -> Z.of_nat (length bytes) = L ->
  let r := make_event now t pr (Some bytes) L in
  type r = t /\ priority r = pr /\ timestamp r = now /\ data_size r = L /\
  firstn (Z.to_nat L) (data r) = bytes.
Proof.
  intros HL Hb. unfold make_event. simpl.
  destruct (Z.gtb_spec L 0); [| lia]. simpl.
  repeat split. rewrite memcpy_firstn by lia. apply firstn_all2. lia.
Qed.

(** C5, amended.  Payload round trip.  When [EVENT_Publish] is given
    [L] bytes, [0 < L <= EVENT_DATA_SIZE_MAX], and returns 0, the record
    dispatched for it by the [EVENT_Process] that follows has the type,
    priority and timestamp of the call, [data_size = L] and the published
    bytes as the first [L] of [data], and every handler called for it is
    given that record: when no call of a handler made in the turns of the
    loop of [EVENT_Process] changes the queue, [EVENT_Process] returns and
    that record is the last it dispatches; when these calls do no more to
    the queue than push records without filling it, as by
    [EVENT_Publish], every call of [EVENT_Process] that returns has
    dispatched that record right after those that were queued before it.
    When none of these calls changes the registry either, the calls made
    for the record are those of the subscribers of its type in use, then
    of the observers in use. *)
Theorem payload_round_trip code (now t pr L : Z) (bytes : list Z) s s'
    (fuel : nat) :
  wf_bus s ->
  queue_inv (g_queue s) ->
  0 < L <= EVENT_DATA_SIZE_MAX ->
  Z.of_nat (length bytes) = L ->
  EVENT_Publish now t pr (Some bytes) L s = (0, s') ->
  (during_drain same_queue code s' ->
   (Z.to_nat (q_count (g_queue s')) < fuel)%nat ->
   exists n s'' ds d,
     EVENT_Process code fuel s' = Some (n, s'', ds ++ [d]) /\
     delivered now t pr L bytes d /\
     (during_drain same_registry code s' ->
      targets (d_calls d) = snapshot s t)) /\
  (during_drain appended code s' ->
   forall n s'' ds,
     EVENT_Process code fuel s' = Some (n, s'', ds) ->
     exists ds1 d ds2,
       ds = ds1 ++ d :: ds2 /\
       map d_record ds1 = live (g_queue s) /\
       delivered now t pr L bytes d /\
       (during_drain same_registry code s' ->
        targets (d_calls d) = snapshot s t)).
Proof.
  intros (Hlen & _) Hinv HL Hbytes Hpub.
  set (r := mkPublish now t pr (Some bytes) L).
  assert (Hseq : publish_seq [r] s = Some s').
  { simpl. unfold publish; simpl. rewrite Hpub. reflexivity. }
  destruct (publish_ok r s Hinv) as (Hinit & _).
  { unfold publish; simpl. rewrite Hpub. reflexivity. }
  destruct (publish_seq_live [r] s s' Hinv Hlen Hseq)
    as (Hinv' & Hlen' & Hlive & Hsub & Hobs & Hinit' & _).
  assert (Hsnap : forall t', snapshot s' t' = snapshot s t')
    by (intros t'; apply snapshot_registry; assumption).
  pose proof (make_event_payload now t pr L bytes HL Hbytes)
    as (H1 & H2 & H3 & H4 & H5).
  change (make_event now t pr (Some bytes) L) with (event_of r)
    in H1, H2, H3, H4, H5.
  assert (Hdel : forall d, d_record d = event_of r ->
            calls_carry (d_event d) (d_record d) (d_calls d) ->
            delivered now t pr L bytes d).
  { intros d Hd Hc. unfold delivered. rewrite <- Hd in H1, H2, H3, H4, H5.
    tauto. }
  simpl in Hlive.
  assert (Happ : during_drain appended code s' ->
   forall n s'' ds,
     process_loop code fuel 0 s' = Some (n, s'', ds) ->
     exists ds1 d ds2,
       ds = ds1 ++ d :: ds2 /\
       map d_record ds1 = live (g_queue s) /\
       delivered now t pr L bytes d /\
       (during_drain same_registry code s' ->
        targets (d_calls d) = snapshot s t)).
  { intros Hdr n s'' ds Hp.
    destruct (process_loop_appends code _ _ _ _ _ _ Hinv' Hlen' Hdr Hp)
      as ((ds1 & ds2 & -> & Hrec) & Hall & Hpin).
    rewrite Hlive in Hrec.
    apply map_eq_app in Hrec as (da & db & -> & Ha & Hlast).
    destruct db as [| d [| d' db]]; try discriminate.
    injection Hlast as Hd.
    exists da, d, ds2. rewrite <- app_assoc. split; [reflexivity |].
    split; [exact Ha |].
    rewrite <- app_assoc in Hall, Hpin.
    apply Forall_app in Hall as [_ Hall]. apply Forall_inv in Hall as Hcd.
    split; [apply Hdel; assumption |].
    intros Hr. specialize (Hpin Hr).
    apply Forall_app in Hpin as [_ Hpin]. apply Forall_inv in Hpin.
    rewrite Hpin, Hd, Hsnap, H1. reflexivity. }
  unfold EVENT_Process. rewrite Hinit', Hinit. simpl negb. cbv iota.
  split; [| exact Happ].
  intros Hq Hfuel.
  destruct (process_loop_quiet code _ fuel 0 s' Hinv' Hq eq_refl Hfuel)
    as (s'' & ds & Hp & Hrec & _).
  destruct (Happ (during_drain_same_queue code s' Hinv' Hq) _ _ _ Hp)
    as (ds1 & d & ds2 & -> & Ha & Hd & Hpin).
  assert (ds2 = []) as ->.
  { rewrite Hlive, map_app, Ha in Hrec. apply app_inv_head in Hrec.
    destruct ds2; [reflexivity | discriminate]. }
  exists (0 + Z.of_nat (Z.to_nat (q_count (g_queue s')))), s'', ds1, d.
  split; [exact Hp |]. split; [exact Hd | exact Hpin].
Qed.

(** *** C3 *)

(** C3.  Capacity.  After [EVENT_QUEUE_SIZE] calls of [EVENT_Publish] in
    a row that all returned 0, a further call returns -1 and leaves the
    state as it was, [queue_push] being what refuses; after any call of
    [EVENT_Process] that then returns having drained at least one record,
    a call of [EVENT_Publish] with a valid type and size returns 0; and
    with handlers that keep the invariant of the queue and add nothing to
    it, [EVENT_Process] on that full queue does return, having drained at
    least one record and at most [EVENT_QUEUE_SIZE], and such a call of
    [EVENT_Publish] then returns 0.  Handlers do not reset
    [g_initialized]. *)
Theorem capacity_enforced code (rs : list Publish_args) s s1 :
  preserves initialized code ->
  wf_bus s ->
  queue_inv (g_queue s) ->
  publish_seq rs s = Some s1 ->
  Z.of_nat (length rs) = EVENT_QUEUE_SIZE ->
  (forall r, publish r s1 = (-1, s1) /\
             queue_push (event_of r) s1 = (-1, s1)) /\
  (forall fuel n s2 ds r,
      EVENT_Process code fuel s1 = Some (n, s2, ds) ->
      1 <= n ->
      valid_publish r ->
      fst (publish r s2) = 0) /\
  (preserves (fun x => queue_inv (g_queue x)) code ->
   never_grows code ->
   forall fuel : nat, (Z.to_nat EVENT_QUEUE_SIZE < fuel)%nat ->
     exists n s2 ds,
       EVENT_Process code fuel s1 = Some (n, s2, ds) /\
       1 <= n <= EVENT_QUEUE_SIZE /\
       forall r, valid_publish r -> fst (publish r s2) = 0).
Proof.
  intros Hp (Hlen & _) Hinv Hrun Hn.
  destruct (publish_seq_live rs s s1 Hinv Hlen Hrun)
    as (Hinv1 & _ & Hlive & _).
  assert (Hfull : q_count (g_queue s1) = EVENT_QUEUE_SIZE).
  { apply (f_equal (@length _)) in Hlive.
    rewrite length_app, length_map, !live_length in Hlive.
    destruct Hinv as (? & _), Hinv1 as (? & _). lia. }
  assert (Hdrained : forall fuel n s2 ds r,
      EVENT_Process code fuel s1 = Some (n, s2, ds) ->
      1 <= n -> valid_publish r -> fst (publish r s2) = 0).
  { intros fuel n s2 ds r Hproc Hn1 (Ht & Hd). unfold EVENT_Process in Hproc.
    destruct (g_initialized s1) eqn:Hi1; simpl in Hproc;
      [| injection Hproc as <- _ _; lia].
    apply publish_accepts; [| lia | exact Hd |].
    + apply (process_loop_preserves initialized code Hp) in Hproc;
        [exact Hproc | | exact Hi1].
      intros s0 H0. unfold queue_pop.
      destruct (q_count (g_queue s0) =? 0); exact H0.
    + apply process_loop_ends_empty in Hproc as [-> _].
      unfold EVENT_QUEUE_SIZE. lia. }
  split; [| split; [exact Hdrained |]].
  - intros r. split; [| apply queue_push_full; lia].
    apply publish_error. unfold publish, EVENT_Publish.
    destruct (negb (g_initialized s1) || (p_type r >=? EVENT_MAX_COUNT));
      [discriminate |].
    destruct ((match p_data r with Some _ => true | None => false end)
              && (p_data_size r >? EVENT_DATA_SIZE_MAX)); [discriminate |].
    rewrite queue_push_full by lia. discriminate.
  - intros Hpi Hg fuel Hfuel.
    assert (Hi1 : g_initialized s1 = true).
    { destruct rs as [| r rs']; [discriminate Hn |].
      destruct (publish_seq_live (r :: rs') s s1 Hinv Hlen Hrun)
        as (_ & _ & _ & _ & _ & -> & _).
      cbn [publish_seq] in Hrun.
      pose proof (publish_ok r s Hinv) as Hok.
      destruct (publish r s) as [v s0]. cbn [fst] in Hok.
      destruct (Z.eqb_spec v 0) as [-> | _]; [| discriminate].
      apply Hok. reflexivity. }
    destruct (process_loop_bounded code Hpi Hg (Z.to_nat EVENT_QUEUE_SIZE)
                fuel 0 s1 Hinv1 ltac:(lia) Hfuel) as (n & s2 & ds & Hr & Hle).
    assert (Hproc : EVENT_Process code fuel s1 = Some (n, s2, ds)).
    { unfold EVENT_Process. rewrite Hi1. exact Hr. }
    pose proof (process_loop_first code fuel 0 s1 n s2 ds
                  ltac:(unfold EVENT_QUEUE_SIZE in *; lia) Hr) as Hne.
    apply process_loop_ends_empty in Hr as [_ Hnds].
    assert (1 <= n) by (destruct ds; [contradiction | simpl in Hnds; lia]).
    exists n, s2, ds. split; [exact Hproc |]. split; [lia |].
    intros r Hr. exact (Hdrained fuel n s2 ds r Hproc ltac:(lia) Hr).
Qed.

(** *** C2 *)

(** What follows from the list of the calls. *)
Lemma fan_out_counts (calls : list Invocation) s T k m :
  length (active_subs s T) = k ->
  length (active_obs s) = m ->
  targets calls
    = map (sub_target s T) (active_subs s T)
      ++ map (obs_target s) (active_obs s) ->
  length calls = (k + m)%nat /\
  List.NoDup (map inv_slot calls).
Proof.
  intros Hk Hm Hscan. split.
  - apply (f_equal (@length _)) in Hscan. unfold targets in Hscan.
    rewrite length_map, length_app, !length_map in Hscan. lia.
  - rewrite (targets_slots _ _ Hscan). apply snapshot_slots_NoDup.
Qed.

(** The first record that [EVENT_Process] dispatches is the one at the
    head of the queue, and the only one when its handlers leave the queue
    empty. *)
Lemma process_first_record code s fuel e s1 :
  g_initialized s = true ->
  queue_pop s = (Some e, s1) ->
  (forall n s' ds,
      EVENT_Process code fuel s = Some (n, s', ds) ->
      exists ds',
        ds = mkDispatched e (deref s1 e) (snd (dispatch_event code e s1))
             :: ds') /\
  (q_count (g_queue (fst (dispatch_event code e s1))) = 0 ->
   (1 < fuel)%nat ->
   EVENT_Process code fuel s
     = Some (1, fst (dispatch_event code e s1),
             [mkDispatched e (deref s1 e) (snd (dispatch_event code e s1))])).
Proof.
  intros Hinit Hpop.
  assert (Hproc : forall f, EVENT_Process code (S f) s
            = match process_loop code f (0 + 1)
                      (fst (dispatch_event code e s1)) with
              | Some (n, s', ds) =>
                  Some (n, s',
                        mkDispatched e (deref s1 e)
                          (snd (dispatch_event code e s1)) :: ds)
              | None => None
              end).
  { intros f. unfold EVENT_Process. rewrite Hinit. simpl negb. cbv iota.
    apply (process_loop_turn code f 0 s e s1 Hpop). }
  split.
  - intros n s' ds. destruct fuel as [| fuel].
    + unfold EVENT_Process. rewrite Hinit. discriminate.
    + rewrite Hproc.
      destruct (process_loop code fuel (0 + 1) _) as [[[n3 s3] ds3] |];
        [| discriminate].
      intros [= _ _ <-]. eexists. reflexivity.
  - intros Hz Hfuel. destruct fuel as [| [| fuel]]; try lia.
    rewrite Hproc. cbn [process_loop]. unfold queue_is_empty. rewrite Hz.
    reflexivity.
Qed.

(** C2, amended.  Fan-out.  With [k] subscriber slots of type [T] in
    use and [m] observer slots in use when the record at the head of the
    queue, of type [T], is popped, and when no handler called for that
    record changes, when it runs, the type of the record or a slot that
    the scans have yet to read (a subscriber called from slot [j]: the
    slots after [j] of the row of [T], the observers; an observer called
    from slot [j]: the observers after [j]), the dispatch of that record
    makes [k + m] calls: the subscribers of [T] in use, in ascending slot
    order, then the observers in use, in ascending slot order, each slot
    once, each with its callback and argument.  These are the calls of the
    first record that [EVENT_Process] dispatches, whenever it returns, and
    [EVENT_Process] returns 1, with this record alone dispatched, when the
    handlers leave the queue empty. *)
Theorem fan_out_complete code s (T : Z) (k m fuel e : nat) s1 :
  g_initialized s = true ->
  queue_pop s = (Some e, s1) ->
  type (deref s e) = T ->
  length (active_subs s T) = k ->
  length (active_obs s) = m ->
  behind_scan_run code e s1 ->
  let calls := snd (dispatch_event code e s1) in
  targets calls
    = map (sub_target s T) (active_subs s T)
      ++ map (obs_target s) (active_obs s) /\
  length calls = (k + m)%nat /\
  List.NoDup (map inv_slot calls) /\
  (forall n s' ds,
      EVENT_Process code fuel s = Some (n, s', ds) ->
      exists ds', ds = mkDispatched e (deref s e) calls :: ds') /\
  (q_count (g_queue (fst (dispatch_event code e s1))) = 0 ->
   (1 < fuel)%nat ->
   EVENT_Process code fuel s
     = Some (1, fst (dispatch_event code e s1),
             [mkDispatched e (deref s e) calls])).
Proof.
  intros Hinit Hpop HT Hk Hm Hb. cbv zeta.
  destruct (queue_pop_frame s e s1 Hpop) as (Hs & Ho & Hd).
  assert (Hscan : targets (snd (dispatch_event code e s1))
            = map (sub_target s T) (active_subs s T)
              ++ map (obs_target s) (active_obs s)).
  { rewrite (dispatch_event_behind_run code e s1 Hb), Hd, HT.
    apply (snapshot_registry s1 s T Hs Ho). }
  rewrite <- Hd.
  destruct (fan_out_counts _ s T k m Hk Hm Hscan) as [H1 H2].
  split; [exact Hscan |]. split; [exact H1 |]. split; [exact H2 |].
  exact (process_first_record code s fuel e s1 Hinit Hpop).
Qed.

(** *** C4 *)

(** C4, amended.  [dispatch_event] takes no snapshot of the registry:
    the calls it makes for a record are those asked for by each slot as it
    is when the scan reaches it, after the handlers of the slots before
    have run.  So when no handler called for the record changes, when it
    runs, the type of the record or a slot that the scans have yet to read
    (a subscriber called from slot [j]: the slots after [j] of the row of
    the type of the record, the observers; an observer called from slot
    [j]: the observers after [j]), the calls made for that record are those
    the registry asked for when the dispatch began, and what the handlers
    did to the registry shows only in the dispatch of later records; a
    change to a slot that the scan has yet to reach shows in the dispatch
    of the record in flight. *)
Theorem dispatch_reads_registry_live code (e : nat) s :
  targets (snd (dispatch_event code e s)) = calls_as_reached code e s /\
  (behind_scan_run code e s ->
   targets (snd (dispatch_event code e s)) = snapshot s (type (deref s e))).
Proof.
  split; [apply dispatch_event_reached |].
  apply dispatch_event_behind_run.
Qed.

(** *** C6 *)

(** C6, amended.  On an initialized bus and with a valid type, a call of
    [EVENT_Publish] with a payload of [EVENT_DATA_SIZE_MAX] bytes returns
    0 when the queue is not full; with a payload of
    [EVENT_DATA_SIZE_MAX + 1] bytes it returns -1 and changes nothing;
    without a payload the size is not looked at: whatever [data_size] is,
    the call returns 0 when the queue is not full, and the record it
    queues has [data_size = 0]. *)
Theorem payload_size_boundary (now t pr n : Z) (bytes : list Z) s :
  g_initialized s = true ->
  0 <= t < EVENT_MAX_COUNT ->
  (q_count (g_queue s) < EVENT_QUEUE_SIZE ->
   fst (EVENT_Publish now t pr (Some bytes) EVENT_DATA_SIZE_MAX s) = 0) /\
  EVENT_Publish now t pr (Some bytes) (EVENT_DATA_SIZE_MAX + 1) s = (-1, s) /\
  (q_count (g_queue s) < EVENT_QUEUE_SIZE ->
   fst (EVENT_Publish now t pr None n s) = 0) /\
  (wf_bus s -> queue_inv (g_queue s) ->
   q_count (g_queue s) < EVENT_QUEUE_SIZE ->
   exists ev,
     live (g_queue (snd (EVENT_Publish now t pr None n s)))
       = live (g_queue s) ++ [ev] /\
     data_size ev = 0).
Proof.
  intros Hinit Ht. repeat split.
  - intros Hc.
    apply (publish_accepts (mkPublish now t pr (Some bytes) EVENT_DATA_SIZE_MAX));
      simpl; try assumption; [lia | right; lia].
  - unfold EVENT_Publish. rewrite Hinit. simpl.
    destruct (Z.geb_spec t EVENT_MAX_COUNT); [lia |]. reflexivity.
  - intros Hc. apply (publish_accepts (mkPublish now t pr None n));
      simpl; try assumption; [lia | left; reflexivity].
  - intros (Hlen & _) Hinv Hc.
    set (r := mkPublish now t pr None n).
    assert (H0 : fst (publish r s) = 0)
      by (apply publish_accepts; simpl; try assumption; [lia | left; reflexivity]).
    assert (Hseq : publish_seq [r] s = Some (snd (publish r s))).
    { simpl. destruct (publish r s) as [v s1]. simpl in *. subst v. reflexivity. }
    destruct (publish_seq_live [r] s _ Hinv Hlen Hseq) as (_ & _ & Hlive & _).
    exists (event_of r). split; [exact Hlive | reflexivity].
Qed.

(** *** C7 *)

Lemma repeat_lookup_total {A} `{Inhabited A} (x : A) (n i : nat) :
  repeat x n !!! i = x \/ repeat x n !!! i = inhabitant.
Proof.
  revert i. induction n as [| n IH]; intros i; simpl.
  - right. reflexivity.
  - destruct i as [| i]; [left; reflexivity | apply IH].
Qed.

Lemma subs_zero_unused (t i : nat) : s_used ((subs_zero !!! t) !!! i) = false.
Proof.
  unfold subs_zero.
  destruct (repeat_lookup_total
              (repeat (mkSub 0 0 false) EVENT_SUBSCRIBER_MAX)
              (Z.to_nat EVENT_MAX_COUNT) t) as [-> | ->].
  - destruct (repeat_lookup_total (mkSub 0 0 false) EVENT_SUBSCRIBER_MAX i)
      as [-> | ->]; reflexivity.
  - reflexivity.
Qed.

Lemma obs_zero_unused (i : nat) : o_used (obs_zero !!! i) = false.
Proof.
  unfold obs_zero.
  destruct (repeat_lookup_total (mkObs 0 0 false) EVENT_OBSERVER_MAX i)
    as [-> | ->]; reflexivity.
Qed.

(** C7.  [EVENT_Init] is a hard reset.  From any state it returns 0 and
    leaves the same state whatever the queue and the registry held: the
    queue empty, every subscriber and observer slot unused, the bus
    initialized.  Calling it again changes nothing more, and a call of
    [EVENT_Process] that follows returns 0 and calls no handler. *)
Theorem init_hard_reset code s (fuel : nat) :
  let s1 := snd (EVENT_Init s) in
  fst (EVENT_Init s) = 0 /\
  s1 = mkBus queue_zero subs_zero obs_zero true (g_rest s) /\
  EVENT_Init s1 = (0, s1) /\
  EVENT_GetCount s1 = 0 /\
  live (g_queue s1) = [] /\
  (forall t i, s_used (sub_at s1 t i) = false) /\
  (forall i, o_used (obs_at s1 i) = false) /\
  EVENT_Process code (S fuel) s1 = Some (0, s1, []).
Proof.
  simpl. repeat split.
  - intros t i. apply subs_zero_unused.
  - intros i. apply obs_zero_unused.
Qed.

(** *** C8 *)






Lemma filter_length_flip {A} (p q : A -> bool) (m : A) (l : list A) :
  List.NoDup l -> In m l -> p m = true -> q m = false ->
  (forall x, x <> m -> q x = p x) ->
  S (length (List.filter q l)) = length (List.filter p l).
Proof.
  intros Hnd Hin Hp Hq Hoth. induction Hnd as [| a l Ha Hnd IH]; [elim Hin |].
  simpl. destruct Hin as [-> | Hin].
  - rewrite Hp, Hq. simpl. f_equal. f_equal.
    apply List.filter_ext_in. intros x Hx. apply Hoth. intros ->. exact (Ha Hx).
  - rewrite (Hoth a) by (intros ->; exact (Ha Hin)).
    destruct (p a); simpl; rewrite <- (IH Hin); reflexivity.
Qed.

Lemma filter_length_0 {A} (p : A -> bool) (l : list A) :
  length (List.filter p l) = 0%nat <-> forall x, In x l -> p x = false.
Proof.
  induction l as [| a l IH]; simpl; [tauto |].
  destruct (p a) eqn:Hp; simpl.
  - split; [discriminate |]. intros H. rewrite (H a) in Hp by tauto.
    discriminate.
  - rewrite IH. split; [intros H x [<- | Hx]; auto | intros H x Hx; auto].
Qed.



(** *** C9 *)

Lemma exec_before_init code fuel (rest : U) op :
  op <> OpInit ->
  exec code (S fuel) op (bus_start rest)
    = Some (before_init_result op, bus_start rest, []).
Proof.
  destruct op; intros Hop; try reflexivity. contradiction.
Qed.

(** C9.  Before the first [EVENT_Init], when the variables of event.c
    are as the loader zeroed them, every call other than [EVENT_Init]
    leaves the state as it is and calls no handler: [EVENT_Subscribe],
    [EVENT_Unsubscribe], [EVENT_Publish], [EVENT_RegisterObserver] and
    [EVENT_UnregisterObserver] return -1, and [EVENT_Process],
    [EVENT_ClearQueue] and [EVENT_GetCount] return 0.  This holds along
    any sequence of such calls. *)
Theorem before_init_rejects code (fuel : nat) (rest : U) (ops : list Op) :
  Forall (fun op => op <> OpInit) ops ->
  run code (S fuel) ops (bus_start rest)
    = Some (map before_init_result ops, bus_start rest, []).
Proof.
  induction 1 as [| op ops Hop _ IH]; [reflexivity |].
  cbn [run map]. rewrite (exec_before_init code fuel rest op Hop), IH.
  reflexivity.
Qed.

(** *** C10 *)

Lemma subscribe_loop_queue t cb a s : forall n k,
  g_queue (snd (subscribe_loop n k t cb a s)) = g_queue s.
Proof.
  induction n as [| n IH]; intros k; simpl; [reflexivity |].
  destruct (negb (s_used (sub_at s t k))); [reflexivity | apply IH].
Qed.

Lemma register_loop_queue cb a s : forall n k,
  g_queue (snd (register_loop n k cb a s)) = g_queue s.
Proof.
  induction n as [| n IH]; intros k; simpl; [reflexivity |].
  destruct (negb (o_used (obs_at s k))); [reflexivity | apply IH].
Qed.

Lemma unregister_loop_queue cb s : forall n k,
  g_queue (snd (unregister_loop n k cb s)) = g_queue s.
Proof.
  induction n as [| n IH]; intros k; simpl; [reflexivity |].
  destruct (o_used (obs_at s k) && (o_callback (obs_at s k) =? cb));
    [reflexivity | apply IH].
Qed.

Lemma queue_pop_inv s :
  queue_inv (g_queue s) -> queue_inv (g_queue (snd (queue_pop s))).
Proof.
  intros Hinv.
  destruct (Z.eq_dec (q_count (g_queue s)) 0) as [Hz | Hnz].
  - rewrite queue_pop_empty by exact Hz. exact Hinv.
  - assert (Hpos : 0 < q_count (g_queue s)) by (destruct Hinv; lia).
    rewrite (queue_pop_some s Hinv Hpos). simpl. apply pop_inv; assumption.
Qed.

Lemma publish_inv r s :
  queue_inv (g_queue s) -> queue_inv (g_queue (snd (publish r s))).
Proof.
  intros Hinv. destruct (Z.eq_dec (fst (publish r s)) 0) as [H0 | Hne].
  - destruct (publish_ok r s Hinv H0) as (_ & _ & Hlt & ->). simpl.
    apply push_inv; assumption.
  - rewrite (publish_error r s Hne). exact Hinv.
Qed.

(** The state a call leaves satisfies the invariant of the queue. *)
Lemma exec_queue_inv code fuel op s r s' ds :
  preserves (fun s => queue_inv (g_queue s)) code ->
  queue_inv (g_queue s) ->
  exec code fuel op s = Some (r, s', ds) ->
  queue_inv (g_queue s').
Proof.
  intros Hp Hinv.
  destruct op as [| t cb a | t cb a | now t pr d n | | | | cb a | cb];
    cbn [exec].
  - intros [= _ <- _]. apply queue_zero_inv.
  - intros [= _ <- _]. unfold EVENT_Subscribe.
    destruct (negb (g_initialized s) || (t >=? EVENT_MAX_COUNT) || (cb =? 0));
      [exact Hinv | rewrite subscribe_loop_queue; exact Hinv].
  - intros [= _ <- _].
    destruct (unsubscribe_frame t cb a s) as (-> & _). exact Hinv.
  - intros [= _ <- _]. apply (publish_inv (mkPublish now t pr d n)), Hinv.
  - unfold EVENT_Process.
    destruct (negb (g_initialized s)); [intros [= _ <- _]; exact Hinv |].
    apply (process_loop_preserves (fun s => queue_inv (g_queue s)) code Hp);
      [apply queue_pop_inv | exact Hinv].
  - intros [= _ <- _]. apply queue_zero_inv.
  - intros [= _ <- _]. exact Hinv.
  - intros [= _ <- _]. unfold EVENT_RegisterObserver.
    destruct (negb (g_initialized s) || (cb =? 0));
      [exact Hinv | rewrite register_loop_queue; exact Hinv].
  - intros [= _ <- _]. unfold EVENT_UnregisterObserver.
    destruct (negb (g_initialized s) || (cb =? 0));
      [exact Hinv | rewrite unregister_loop_queue; exact Hinv].
Qed.

(** C10.  The invariant of the queue, [0 <= count <= EVENT_QUEUE_SIZE],
    [head] and [tail] below [EVENT_QUEUE_SIZE], and [tail] the slot
    [count] places after [head] modulo [EVENT_QUEUE_SIZE], holds before
    [main] runs and is kept by every function of the interface; the
    handlers [EVENT_Process] calls are any that keep it themselves.  Every
    function but [EVENT_Process] always returns, and [EVENT_Process]
    returns when the handlers leave the queue alone. *)
Theorem queue_invariant_preserved code (fuel : nat) (op : Op) s :
  preserves (fun s => queue_inv (g_queue s)) code ->
  queue_inv (g_queue s) ->
  (forall rest : U, queue_inv (g_queue (bus_start rest))) /\
  (forall r s' ds,
      exec code fuel op s = Some (r, s', ds) -> queue_inv (g_queue s')) /\
  (op <> OpProcess -> exists r s', exec code fuel op s = Some (r, s', [])) /\
  (keeps_queue code -> (Z.to_nat (q_count (g_queue s)) < fuel)%nat ->
   exists r s' ds, exec code fuel op s = Some (r, s', ds)).
Proof.
  intros Hp Hinv. split; [intros rest; apply queue_zero_inv |].
  split; [intros r s' ds; apply exec_queue_inv; assumption |].
  assert (Hquiet : op <> OpProcess ->
            exists r s', exec code fuel op s = Some (r, s', [])).
  { destruct op; intros Hop; try (cbn [exec]; eexists _, _; reflexivity).
    contradiction. }
  split; [exact Hquiet |]. intros Hk Hfuel.
  destruct op; try (destruct Hquiet as (r & s' & ->);
                    [discriminate | eexists _, _, _; reflexivity]).
  cbn [exec]. unfold EVENT_Process.
  destruct (negb (g_initialized s)); [eexists _, _, _; reflexivity |].
  destruct (process_loop_drain code Hk _ fuel 0 s Hinv eq_refl Hfuel)
    as (s' & ds & -> & _). eexists _, _, _; reflexivity.
Qed.

(** ** Further properties of event.c *)

(** *** [EVENT_Subscribe] *)

Lemma sub_at_set_sub_other s t t' m x j :
  0 <= t -> 0 <= t' -> t <> t' ->
  sub_at (set_sub s t m x) t' j = sub_at s t' j.
Proof.
  intros Ht Ht' Hne. unfold sub_at, set_sub; simpl.
  rewrite list_lookup_total_insert_ne by lia. reflexivity.
Qed.

(** What the loop of [EVENT_Subscribe] does: every slot is in use and
    nothing changes, or the first free slot takes the pair. *)
Lemma subscribe_loop_spec t cb a s : forall n k,
  (subscribe_loop n k t cb a s = (-1, s) /\
   forall j, (k <= j < k + n)%nat -> s_used (sub_at s t j) = true) \/
  (exists m, (k <= m < k + n)%nat /\
     s_used (sub_at s t m) = false /\
     (forall j, (k <= j < m)%nat -> s_used (sub_at s t j) = true) /\
     subscribe_loop n k t cb a s = (0, set_sub s t m (mkSub cb a true))).
Proof.
  induction n as [| n IH]; intros k; simpl.
  - left. split; [reflexivity | intros j Hj; lia].
  - destruct (s_used (sub_at s t k)) eqn:Hk; simpl.
    + destruct (IH (S k)) as [[Hr Hall] | (m & Hm & Hfree & Hfirst & Hr)].
      * left. split; [exact Hr |]. intros j Hj.
        destruct (Nat.eq_dec j k) as [-> | Hne]; [exact Hk | apply Hall; lia].
      * right. exists m. split; [lia |]. split; [exact Hfree |].
        split; [| exact Hr]. intros j Hj.
        destruct (Nat.eq_dec j k) as [-> | Hne]; [exact Hk | apply Hfirst; lia].
    + right. exists k. split; [lia |]. split; [exact Hk |].
      split; [intros j Hj; lia | reflexivity].
Qed.

(** [EVENT_Subscribe] on an initialized bus, with a valid type and a
    callback: the row is full, or the first free slot takes the pair. *)
Lemma subscribe_fit (t cb a : Z) s :
  wf_bus s -> g_initialized s = true ->
  0 <= t < EVENT_MAX_COUNT -> cb <> 0 ->
  ((forall j, (j < EVENT_SUBSCRIBER_MAX)%nat -> s_used (sub_at s t j) = true) /\
   EVENT_Subscribe t cb a s = (-1, s)) \/
  (exists m s',
     EVENT_Subscribe t cb a s = (0, s') /\
     (m < EVENT_SUBSCRIBER_MAX)%nat /\
     s_used (sub_at s t m) = false /\
     (forall j, (j < m)%nat -> s_used (sub_at s t j) = true) /\
     sub_at s' t m = mkSub cb a true /\
     (forall t' j, 0 <= t' -> (t' <> t \/ j <> m) ->
                   sub_at s' t' j = sub_at s t' j) /\
     g_observers s' = g_observers s /\
     g_queue s' = g_queue s /\
     g_initialized s' = true /\
     g_rest s' = g_rest s).
Proof.
  intros Hwf Hinit Ht Hcb. unfold EVENT_Subscribe. rewrite Hinit.
  destruct (Z.geb_spec t EVENT_MAX_COUNT); [lia |].
  destruct (Z.eqb_spec cb 0); [contradiction |]. cbn [negb orb].
  destruct (subscribe_loop_spec t cb a s EVENT_SUBSCRIBER_MAX 0)
    as [[-> Hall] | (m & Hm & Hfree & Hfirst & ->)].
  - left. split; [| reflexivity]. intros j Hj. apply Hall. lia.
  - right. exists m, (set_sub s t m (mkSub cb a true)).
    split; [reflexivity |]. split; [lia |]. split; [exact Hfree |].
    split; [intros j Hj; apply Hfirst; lia |].
    split; [apply sub_at_set_sub_eq; assumption || lia |].
    split; [| simpl; tauto].
    intros t' j Ht' [Hne | Hne].
    + apply sub_at_set_sub_other; lia.
    + destruct (Z.eq_dec t' t) as [-> | Hne'];
        [apply sub_at_set_sub_ne; congruence
        | apply sub_at_set_sub_other; lia].
Qed.

(** X1.  First fit.  On an initialized bus, with a valid type and a
    callback that is not [NULL], [EVENT_Subscribe] returns -1 and changes
    nothing when the eight slots of the type are in use; otherwise it
    returns 0, the free slot of lowest index holds the pair and is in use,
    and every other slot of the registry, the observers, the queue and
    [g_initialized] are as they were. *)
Theorem subscribe_first_fit (t cb a : Z) s :
  wf_bus s -> g_initialized s = true ->
  0 <= t < EVENT_MAX_COUNT -> cb <> 0 ->
  ((forall j, (j < EVENT_SUBSCRIBER_MAX)%nat -> s_used (sub_at s t j) = true) /\
   EVENT_Subscribe t cb a s = (-1, s)) \/
  (exists m s',
     EVENT_Subscribe t cb a s = (0, s') /\
     (m < EVENT_SUBSCRIBER_MAX)%nat /\
     s_used (sub_at s t m) = false /\
     (forall j, (j < m)%nat -> s_used (sub_at s t j) = true) /\
     sub_at s' t m = mkSub cb a true /\
     (forall t' j, 0 <= t' -> (t' <> t \/ j <> m) ->
                   sub_at s' t' j = sub_at s t' j) /\
     g_observers s' = g_observers s /\
     g_queue s' = g_queue s /\
     g_initialized s' = true /\
     g_rest s' = g_rest s).
Proof. apply subscribe_fit. Qed.

Lemma filter_length_all {A} (p : A -> bool) (l : list A) :
  length (List.filter p l) = length l <-> forall x, In x l -> p x = true.
Proof.
  induction l as [| a l IH]; simpl; [tauto |].
  pose proof (List.filter_length_le p l) as Hle.
  destruct (p a) eqn:Hp; simpl.
  - split.
    + intros H x [<- | Hx]; [exact Hp | apply IH; [lia | exact Hx]].
    + intros H. f_equal. apply IH. intros x Hx. apply H. right. exact Hx.
  - split; [lia |]. intros H. rewrite (H a) in Hp by tauto. discriminate.
Qed.

(** X2.  Capacity of a type.  On an initialized bus, with a valid type
    and a callback that is not [NULL], a call of [EVENT_Subscribe] that
    returns 0 adds one subscriber in use to the type and none to the
    others, and the call returns -1 exactly when the type has
    [EVENT_SUBSCRIBER_MAX] subscribers in use. *)
Theorem subscribe_counts (t cb a : Z) s :
  wf_bus s -> g_initialized s = true ->
  0 <= t < EVENT_MAX_COUNT -> cb <> 0 ->
  (fst (EVENT_Subscribe t cb a s) = -1
   <-> length (active_subs s t) = EVENT_SUBSCRIBER_MAX) /\
  (fst (EVENT_Subscribe t cb a s) = 0 ->
   length (active_subs (snd (EVENT_Subscribe t cb a s)) t)
     = S (length (active_subs s t)) /\
   forall t', 0 <= t' -> t' <> t ->
     active_subs (snd (EVENT_Subscribe t cb a s)) t' = active_subs s t').
Proof.
  intros Hwf Hinit Ht Hcb.
  assert (Hfull : length (active_subs s t) = EVENT_SUBSCRIBER_MAX
                  <-> forall j, (j < EVENT_SUBSCRIBER_MAX)%nat ->
                                s_used (sub_at s t j) = true).
  { unfold active_subs.
    rewrite <- (length_seq EVENT_SUBSCRIBER_MAX 0) at 2.
    rewrite filter_length_all. split; intros H j Hj; apply H.
    - apply in_seq. lia.
    - apply in_seq in Hj. lia. }
  destruct (subscribe_fit t cb a s Hwf Hinit Ht Hcb)
    as [[Hall ->] | (m & s' & -> & Hm & Hfree & _ & Hnew & Hoth & _)];
    cbn [fst snd].
  - split; [| discriminate]. split; [intros _; apply Hfull, Hall | reflexivity].
  - split.
    + split; [discriminate |]. intros Hlen.
      rewrite (proj1 Hfull Hlen m Hm) in Hfree. discriminate.
    + intros _. split.
      * unfold active_subs. symmetry. apply (filter_length_flip _ _ m).
        -- apply seq_NoDup.
        -- apply in_seq. lia.
        -- rewrite Hnew. reflexivity.
        -- exact Hfree.
        -- intros j Hj. rewrite Hoth by (lia || tauto). reflexivity.
      * intros t' Ht' Hne. unfold active_subs. apply List.filter_ext.
        intros j. rewrite Hoth by (lia || tauto). reflexivity.
Qed.

(** *** [EVENT_Unsubscribe] *)

(** [EVENT_Unsubscribe] on an initialized bus, with a valid type and a
    callback: no slot matches, or the first that does is cleared. *)
Lemma unsubscribe_match (t cb a : Z) s :
  wf_bus s -> g_initialized s = true ->
  0 <= t < EVENT_MAX_COUNT -> cb <> 0 ->
  ((forall j, (j < EVENT_SUBSCRIBER_MAX)%nat -> sub_matches s t j cb a = false) /\
   EVENT_Unsubscribe t cb a s = (-1, s)) \/
  (exists m s',
     EVENT_Unsubscribe t cb a s = (0, s') /\
     (m < EVENT_SUBSCRIBER_MAX)%nat /\
     sub_matches s t m cb a = true /\
     (forall j, (j < m)%nat -> sub_matches s t j cb a = false) /\
     sub_at s' t m = mkSub cb a false /\
     (forall t' j, 0 <= t' -> (t' <> t \/ j <> m) ->
                   sub_at s' t' j = sub_at s t' j) /\
     g_observers s' = g_observers s /\
     g_queue s' = g_queue s /\
     g_initialized s' = true /\
     g_rest s' = g_rest s /\
     wf_bus s').
Proof.
  intros Hwf Hinit Ht Hcb. unfold EVENT_Unsubscribe. rewrite Hinit.
  destruct (Z.geb_spec t EVENT_MAX_COUNT); [lia |].
  destruct (Z.eqb_spec cb 0); [contradiction |]. cbn [negb orb].
  destruct (unsubscribe_loop_spec t cb a s EVENT_SUBSCRIBER_MAX 0)
    as [[-> Hno] | (m & Hm & Hmatch & Hfirst & ->)].
  - left. split; [| reflexivity]. intros j Hj. apply Hno. lia.
  - right. eexists m, _. split; [reflexivity |]. split; [lia |].
    split; [exact Hmatch |]. split; [intros j Hj; apply Hfirst; lia |].
    split.
    + rewrite sub_at_set_sub_eq by (assumption || lia).
      unfold sub_matches in Hmatch.
      apply andb_prop in Hmatch as [Hmatch Ha].
      apply andb_prop in Hmatch as [_ Hc].
      apply Z.eqb_eq in Ha, Hc. rewrite Ha, Hc. reflexivity.
    + split; [| simpl; repeat split; try assumption; apply set_sub_wf, Hwf].
      intros t' j Ht' [Hne | Hne].
      * apply sub_at_set_sub_other; lia.
      * destruct (Z.eq_dec t' t) as [-> | Hne'];
          [apply sub_at_set_sub_ne; congruence
          | apply sub_at_set_sub_other; lia].
Qed.

(** X3.  First match.  On an initialized bus, with a valid type and a
    callback that is not [NULL], [EVENT_Unsubscribe] returns -1 and changes
    nothing when no slot of the type in use holds both the callback and the
    argument; otherwise it returns 0 and clears [used] in the slot of
    lowest index that does, in which the callback and the argument stay
    stored; every other slot, the observers, the queue and [g_initialized]
    are as they were. *)
Theorem unsubscribe_first_match (t cb a : Z) s :
  wf_bus s -> g_initialized s = true ->
  0 <= t < EVENT_MAX_COUNT -> cb <> 0 ->
  ((forall j, (j < EVENT_SUBSCRIBER_MAX)%nat -> sub_matches s t j cb a = false) /\
   EVENT_Unsubscribe t cb a s = (-1, s)) \/
  (exists m s',
     EVENT_Unsubscribe t cb a s = (0, s') /\
     (m < EVENT_SUBSCRIBER_MAX)%nat /\
     sub_matches s t m cb a = true /\
     (forall j, (j < m)%nat -> sub_matches s t j cb a = false) /\
     sub_at s' t m = mkSub cb a false /\
     (forall t' j, 0 <= t' -> (t' <> t \/ j <> m) ->
                   sub_at s' t' j = sub_at s t' j) /\
     g_observers s' = g_observers s /\
     g_queue s' = g_queue s /\
     g_initialized s' = true /\
     g_rest s' = g_rest s /\
     wf_bus s').
Proof. apply unsubscribe_match. Qed.

Lemma map_filter_ext_used {A B} (f g : A -> B) (p q : A -> bool) (l : list A) :
  (forall x, In x l -> p x = q x /\ (p x = true -> f x = g x)) ->
  map f (List.filter p l) = map g (List.filter q l).
Proof.
  induction l as [| a l IH]; intros H; simpl; [reflexivity |].
  destruct (H a (or_introl eq_refl)) as [<- Hf].
  specialize (IH (fun x Hx => H x (or_intror Hx))).
  destruct (p a); simpl; [rewrite Hf by reflexivity |]; congruence.
Qed.

(** Two states whose slots agree wherever one is in use ask for the same
    calls. *)
Lemma snapshot_ext s1 s2 t :
  (forall j, (j < EVENT_SUBSCRIBER_MAX)%nat ->
     s_used (sub_at s1 t j) = s_used (sub_at s2 t j) /\
     (s_used (sub_at s1 t j) = true -> sub_at s1 t j = sub_at s2 t j)) ->
  g_observers s1 = g_observers s2 ->
  snapshot s1 t = snapshot s2 t.
Proof.
  intros Hs Ho. unfold snapshot, active_subs, active_obs. f_equal.
  - apply map_filter_ext_used. intros j Hj. apply in_seq in Hj.
    destruct (Hs j ltac:(lia)) as [Hu Heq]. split; [exact Hu |].
    intros H. unfold sub_target. rewrite (Heq H). reflexivity.
  - apply map_filter_ext_in. intros j _. unfold obs_target, obs_at.
    rewrite Ho. split; reflexivity.
Qed.

(** X4.  Subscribing and unsubscribing.  When a pair that is registered
    in no slot of the type is subscribed and [EVENT_Subscribe] returns 0, a
    call of [EVENT_Unsubscribe] with the same arguments returns 0 and takes
    back that subscription: for every type the calls the registry asks
    for are those it asked for before the two calls, and the observers,
    the queue and [g_initialized] are as they were. *)
Theorem subscribe_then_unsubscribe (t cb a : Z) s s1 :
  wf_bus s -> g_initialized s = true ->
  0 <= t < EVENT_MAX_COUNT -> cb <> 0 ->
  registrations s t cb a = 0%nat ->
  EVENT_Subscribe t cb a s = (0, s1) ->
  exists s2,
    EVENT_Unsubscribe t cb a s1 = (0, s2) /\
    (forall t', 0 <= t' -> snapshot s2 t' = snapshot s t') /\
    g_observers s2 = g_observers s /\
    g_queue s2 = g_queue s /\
    g_initialized s2 = true /\
    g_rest s2 = g_rest s.
Proof.
  intros Hwf Hinit Ht Hcb Hreg Hsub.
  assert (Hno : forall j, (j < EVENT_SUBSCRIBER_MAX)%nat ->
                          sub_matches s t j cb a = false).
  { intros j Hj. apply (proj1 (filter_length_0 _ _) Hreg). apply in_seq. lia. }
  destruct (subscribe_fit t cb a s Hwf Hinit Ht Hcb)
    as [[_ Hr] | (m & s1' & Hr & Hm & Hfree & _ & Hnew & Hoth & Ho & Hq & Hi & Hrest)];
    rewrite Hr in Hsub; [discriminate |]. injection Hsub as ->.
  assert (Hwf1 : wf_bus s1).
  { unfold EVENT_Subscribe in Hr. rewrite Hinit in Hr.
    destruct (Z.geb_spec t EVENT_MAX_COUNT); [lia |].
    destruct (Z.eqb_spec cb 0); [contradiction |]. cbn [negb orb] in Hr.
    destruct (subscribe_loop_spec t cb a s EVENT_SUBSCRIBER_MAX 0)
      as [[Hr' _] | (m' & _ & _ & _ & Hr')]; rewrite Hr' in Hr;
      [discriminate |]. injection Hr as <-. apply set_sub_wf, Hwf. }
  destruct (unsubscribe_match t cb a s1 Hwf1 Hi Ht Hcb)
    as [[Hno1 _] | (m' & s2 & Hu & Hm' & Hmatch & _ & Hcl & Hoth2 & Ho2 & Hq2 & Hi2 & Hrest2 & _)].
  - specialize (Hno1 m Hm). unfold sub_matches in Hno1.
    rewrite Hnew in Hno1. simpl in Hno1. rewrite !Z.eqb_refl in Hno1.
    discriminate.
  - assert (m' = m) as ->.
    { destruct (Nat.eq_dec m' m) as [-> | Hne]; [reflexivity |].
      unfold sub_matches in Hmatch. rewrite Hoth in Hmatch by (lia || tauto).
      fold (sub_matches s t m' cb a) in Hmatch.
      rewrite Hno in Hmatch by exact Hm'. discriminate. }
    exists s2. split; [exact Hu |].
    split; [| repeat split; congruence].
    intros t' Ht'. apply snapshot_ext; [| congruence].
    intros j Hj.
    destruct (Z.eq_dec t' t) as [-> | Hnet].
    + destruct (Nat.eq_dec j m) as [-> | Hnej].
      * rewrite Hcl, Hfree. simpl. split; [reflexivity | discriminate].
      * rewrite Hoth2, Hoth by (lia || tauto). split; reflexivity.
    + rewrite Hoth2, Hoth by (lia || tauto). split; reflexivity.
Qed.

(** X5.  A slot freed is a slot to take.  After a call of
    [EVENT_Unsubscribe] that returned 0, a call of [EVENT_Subscribe] for the
    same type returns 0; and when the eight slots of the type were in use
    before, the new pair goes into the slot that was freed, so that it is
    called where the old one was. *)
Theorem unsubscribe_frees_slot (t cb a cb' a' : Z) s s1 :
  wf_bus s -> g_initialized s = true ->
  0 <= t < EVENT_MAX_COUNT -> cb <> 0 -> cb' <> 0 ->
  EVENT_Unsubscribe t cb a s = (0, s1) ->
  fst (EVENT_Subscribe t cb' a' s1) = 0 /\
  ((forall j, (j < EVENT_SUBSCRIBER_MAX)%nat -> s_used (sub_at s t j) = true) ->
   exists m, (m < EVENT_SUBSCRIBER_MAX)%nat /\
     sub_at s t m = mkSub cb a true /\
     sub_at (snd (EVENT_Subscribe t cb' a' s1)) t m = mkSub cb' a' true /\
     forall j, (j < EVENT_SUBSCRIBER_MAX)%nat -> j <> m ->
       sub_at (snd (EVENT_Subscribe t cb' a' s1)) t j = sub_at s t j).
Proof.
  intros Hwf Hinit Ht Hcb Hcb' Hun.
  destruct (unsubscribe_match t cb a s Hwf Hinit Ht Hcb)
    as [[_ Hr] | (m & s1' & Hr & Hm & Hmatch & _ & Hcl & Hoth & _ & _ & Hi & _ & Hwf1)];
    rewrite Hr in Hun; [discriminate |]. injection Hun as ->.
  destruct (subscribe_fit t cb' a' s1 Hwf1 Hi Ht Hcb')
    as [[Hall _] | (m' & s2 & Hs & Hm' & Hfree & Hfirst & Hnew & Hoth2 & _)].
  - specialize (Hall m Hm). rewrite Hcl in Hall. discriminate.
  - rewrite Hs. cbn [fst snd]. split; [reflexivity |]. intros Hfull.
    assert (m' = m) as ->.
    { destruct (Nat.eq_dec m' m) as [-> | Hne]; [reflexivity |].
      rewrite Hoth in Hfree by (lia || tauto).
      rewrite Hfull in Hfree by exact Hm'. discriminate. }
    exists m. split; [exact Hm |]. split; [| split; [exact Hnew |]].
    + unfold sub_matches in Hmatch. destruct (sub_at s t m) as [c r u].
      simpl in Hmatch.
      apply andb_prop in Hmatch as [Hmatch Ha].
      apply andb_prop in Hmatch as [Hu Hc].
      apply Z.eqb_eq in Ha, Hc. subst. reflexivity.
    + intros j Hj Hne. rewrite Hoth2, Hoth by (lia || tauto). reflexivity.
Qed.

(** *** Order of registration *)

Lemma subscribe_wf t cb a s :
  wf_bus s -> wf_bus (snd (EVENT_Subscribe t cb a s)).
Proof.
  intros Hwf. unfold EVENT_Subscribe.
  destruct (negb (g_initialized s) || (t >=? EVENT_MAX_COUNT) || (cb =? 0));
    [exact Hwf |].
  destruct (subscribe_loop_spec t cb a s EVENT_SUBSCRIBER_MAX 0)
    as [[-> _] | (m & _ & _ & _ & ->)]; [exact Hwf | apply set_sub_wf, Hwf].
Qed.

Lemma filter_ltb_seq (j : nat) : forall n,
  List.filter (fun i => (i <? j)%nat) (seq 0 n) = seq 0 (Nat.min j n).
Proof.
  induction n as [| n IH]; [rewrite Nat.min_0_r; reflexivity |].
  rewrite seq_S, List.filter_app, IH. simpl.
  destruct (Nat.ltb_spec n j).
  - replace (Nat.min j (S n)) with (S n) by lia.
    replace (Nat.min j n) with n by lia. rewrite seq_S. reflexivity.
  - replace (Nat.min j (S n)) with j by lia.
    replace (Nat.min j n) with j by lia. apply app_nil_r.
Qed.

Lemma row_prefix_active s t j :
  row_prefix s t j -> (j <= EVENT_SUBSCRIBER_MAX)%nat ->
  active_subs s t = seq 0 j.
Proof.
  intros Hp Hj. unfold active_subs.
  rewrite (List.filter_ext_in _ (fun i => (i <? j)%nat)).
  - rewrite filter_ltb_seq. f_equal. lia.
  - intros i Hi. apply in_seq in Hi. apply Hp. lia.
Qed.

(** On a row whose slots in use are the first [j], the pair goes into
    slot [j], after all the subscribers there are. *)
Lemma subscribe_appends (t cb a : Z) s (j : nat) :
  wf_bus s -> g_initialized s = true ->
  0 <= t < EVENT_MAX_COUNT -> cb <> 0 ->
  row_prefix s t j -> (j < EVENT_SUBSCRIBER_MAX)%nat ->
  exists s',
    EVENT_Subscribe t cb a s = (0, s') /\
    wf_bus s' /\ g_initialized s' = true /\
    row_prefix s' t (S j) /\
    sub_calls s' t = sub_calls s t ++ [(SubSlot t j, cb, a)] /\
    g_observers s' = g_observers s /\
    g_queue s' = g_queue s.
Proof.
  intros Hwf Hinit Ht Hcb Hp Hj.
  pose proof (subscribe_wf t cb a s Hwf) as Hwf'.
  destruct (subscribe_fit t cb a s Hwf Hinit Ht Hcb)
    as [[Hall _] | (m & s' & Hr & Hm & Hfree & Hfirst & Hnew & Hoth & Ho & Hq & Hi & _)].
  - specialize (Hall j Hj). rewrite Hp in Hall by exact Hj.
    apply Nat.ltb_lt in Hall. lia.
  - assert (m = j) as ->.
    { rewrite Hp in Hfree by exact Hm. apply Nat.ltb_ge in Hfree.
      destruct (Nat.eq_dec m j) as [-> | Hne]; [reflexivity |].
      specialize (Hfirst j ltac:(lia)). rewrite Hp in Hfirst by exact Hj.
      apply Nat.ltb_lt in Hfirst. lia. }
    rewrite Hr in Hwf'. exists s'. split; [exact Hr |].
    split; [exact Hwf' |]. split; [exact Hi |].
    assert (Hp' : row_prefix s' t (S j)).
    { intros i Hi'. destruct (Nat.eq_dec i j) as [-> | Hne].
      - rewrite Hnew. simpl. symmetry. apply Nat.ltb_lt. lia.
      - rewrite Hoth by (lia || tauto). rewrite Hp by exact Hi'.
        destruct (Nat.ltb_spec i j), (Nat.ltb_spec i (S j)); lia || reflexivity. }
    split; [exact Hp' |]. split; [| split; [exact Ho | exact Hq]].
    unfold sub_calls.
    rewrite (row_prefix_active s' t (S j) Hp') by lia.
    rewrite (row_prefix_active s t j Hp) by lia.
    rewrite seq_S, map_app. simpl. f_equal.
    + apply map_ext_in. intros i Hi'. apply in_seq in Hi'.
      unfold sub_target. rewrite Hoth by (lia || right; lia). reflexivity.
    + unfold sub_target. rewrite Hnew. reflexivity.
Qed.

(** X6.  Order of registration.  On a row whose slots in use are the
    first [j], as every row is after [EVENT_Init], a run of calls of
    [EVENT_Subscribe] that fits in the slots left returns 0 each time,
    takes the slots that follow in the order of the calls and leaves
    observers and queue as they were; and [dispatch_event] then calls,
    for a record of that type, the subscribers there were, then the new
    ones in the order of the calls, then the observers, when no handler
    called changes, when it runs, the type of the record or a slot that
    the scans have yet to read. *)
Theorem subscribe_order (t : Z) (ps : list (Z * Z)) : forall s (j : nat),
  wf_bus s -> g_initialized s = true ->
  0 <= t < EVENT_MAX_COUNT ->
  Forall (fun p => fst p <> 0) ps ->
  row_prefix s t j ->
  (j + length ps <= EVENT_SUBSCRIBER_MAX)%nat ->
  exists s',
    subscribe_seq t ps s = Some s' /\
    row_prefix s' t (j + length ps) /\
    sub_calls s' t
      = sub_calls s t
        ++ map (fun ip => (SubSlot t (fst ip), fst (snd ip), snd (snd ip)))
               (combine (seq j (length ps)) ps) /\
    g_observers s' = g_observers s /\
    g_queue s' = g_queue s /\
    forall code (e : nat),
      type (deref s' e) = t ->
      behind_scan_run code e s' ->
      targets (snd (dispatch_event code e s'))
        = sub_calls s t
          ++ map (fun ip => (SubSlot t (fst ip), fst (snd ip), snd (snd ip)))
                 (combine (seq j (length ps)) ps)
          ++ map (obs_target s) (active_obs s).
Proof.
  intros s j Hwf Hinit Ht Hcb Hp Hj.
  assert (Hrun : exists s',
    subscribe_seq t ps s = Some s' /\
    row_prefix s' t (j + length ps) /\
    sub_calls s' t
      = sub_calls s t
        ++ map (fun ip => (SubSlot t (fst ip), fst (snd ip), snd (snd ip)))
               (combine (seq j (length ps)) ps) /\
    g_observers s' = g_observers s /\
    g_queue s' = g_queue s).
  { revert s j Hwf Hinit Hcb Hp Hj.
    induction ps as [| [cb a] ps IH]; intros s j Hwf Hinit Hcb Hp Hj.
    - exists s. rewrite Nat.add_0_r, app_nil_r. repeat split. exact Hp.
    - simpl in Hj. inversion Hcb as [| ? ? Hcb1 Hcb2]; subst.
      destruct (subscribe_appends t cb a s j Hwf Hinit Ht Hcb1 Hp ltac:(lia))
        as (s1 & Hr & Hwf1 & Hi1 & Hp1 & Hc1 & Ho1 & Hq1).
      destruct (IH s1 (S j) Hwf1 Hi1 Hcb2 Hp1 ltac:(lia))
        as (s' & Hrun & Hp' & Hc' & Ho' & Hq').
      exists s'. cbn [subscribe_seq]. rewrite Hr. simpl (0 =? 0).
      split; [exact Hrun |].
      split; [replace (j + length ((cb, a) :: ps))%nat
                with (S j + length ps)%nat by (simpl; lia); exact Hp' |].
      split; [rewrite Hc', Hc1, <- app_assoc; reflexivity |].
      split; congruence. }
  destruct Hrun as (s' & Hrun & Hp' & Hc & Ho & Hq).
  exists s'. repeat (split; [assumption |]).
  intros code e He Hb.
  rewrite (dispatch_event_behind_run code e s' Hb), He.
  unfold snapshot. fold (sub_calls s' t). rewrite Hc, <- app_assoc.
  f_equal. f_equal. unfold active_obs.
  apply map_filter_ext_in. intros i _. unfold obs_target, obs_at.
  rewrite Ho. split; reflexivity.
Qed.

(** *** Observers *)

Lemma obs_at_set_obs_ne s m x j :
  m <> j -> obs_at (set_obs s m x) j = obs_at s j.
Proof.
  intros Hne. unfold obs_at, set_obs; simpl.
  apply list_lookup_total_insert_ne. exact Hne.
Qed.

Lemma obs_at_set_obs_eq s m x :
  wf_bus s -> (m < EVENT_OBSERVER_MAX)%nat -> obs_at (set_obs s m x) m = x.
Proof.
  intros (_ & _ & _ & Hlen) Hm. unfold obs_at, set_obs; simpl.
  apply list_lookup_total_insert_eq. rewrite Hlen. exact Hm.
Qed.

Lemma register_loop_spec cb a s : forall n k,
  (register_loop n k cb a s = (-1, s) /\
   forall j, (k <= j < k + n)%nat -> o_used (obs_at s j) = true) \/
  (exists m, (k <= m < k + n)%nat /\
     o_used (obs_at s m) = false /\
     (forall j, (k <= j < m)%nat -> o_used (obs_at s j) = true) /\
     register_loop n k cb a s = (0, set_obs s m (mkObs cb a true))).
Proof.
  induction n as [| n IH]; intros k; simpl.
  - left. split; [reflexivity | intros j Hj; lia].
  - destruct (o_used (obs_at s k)) eqn:Hk; simpl.
    + destruct (IH (S k)) as [[Hr Hall] | (m & Hm & Hfree & Hfirst & Hr)].
      * left. split; [exact Hr |]. intros j Hj.
        destruct (Nat.eq_dec j k) as [-> | Hne]; [exact Hk | apply Hall; lia].
      * right. exists m. split; [lia |]. split; [exact Hfree |].
        split; [| exact Hr]. intros j Hj.
        destruct (Nat.eq_dec j k) as [-> | Hne]; [exact Hk | apply Hfirst; lia].
    + right. exists k. split; [lia |]. split; [exact Hk |].
      split; [intros j Hj; lia | reflexivity].
Qed.

Lemma unregister_loop_spec cb s : forall n k,
  (unregister_loop n k cb s = (-1, s) /\
   forall j, (k <= j < k + n)%nat ->
     o_used (obs_at s j) && (o_callback (obs_at s j) =? cb) = false) \/
  (exists m, (k <= m < k + n)%nat /\
     o_used (obs_at s m) && (o_callback (obs_at s m) =? cb) = true /\
     (forall j, (k <= j < m)%nat ->
        o_used (obs_at s j) && (o_callback (obs_at s j) =? cb) = false) /\
     unregister_loop n k cb s
       = (0, set_obs s m (mkObs (o_callback (obs_at s m))
                                (o_arg (obs_at s m)) false))).
Proof.
  induction n as [| n IH]; intros k; simpl.
  - left. split; [reflexivity | intros j Hj; lia].
  - destruct (o_used (obs_at s k) && (o_callback (obs_at s k) =? cb)) eqn:Hk.
    + right. exists k. split; [lia |]. split; [exact Hk |].
      split; [intros j Hj; lia | reflexivity].
    + destruct (IH (S k)) as [[Hr Hno] | (m & Hm & Hmatch & Hfirst & Hr)].
      * left. split; [exact Hr |]. intros j Hj.
        destruct (Nat.eq_dec j k) as [-> | Hne]; [exact Hk | apply Hno; lia].
      * right. exists m. split; [lia |]. split; [exact Hmatch |].
        split; [| exact Hr]. intros j Hj.
        destruct (Nat.eq_dec j k) as [-> | Hne]; [exact Hk | apply Hfirst; lia].
Qed.

(** X7.  Observers, first fit.  On an initialized bus, with a callback
    that is not [NULL], [EVENT_RegisterObserver] returns -1 and changes
    nothing when the four observer slots are in use; otherwise it returns
    0, the free slot of lowest index holds the pair and is in use, and the
    other observer slots, the subscribers, the queue and [g_initialized]
    are as they were. *)
Theorem register_observer_first_fit (cb a : Z) s :
  wf_bus s -> g_initialized s = true -> cb <> 0 ->
  ((forall j, (j < EVENT_OBSERVER_MAX)%nat -> o_used (obs_at s j) = true) /\
   EVENT_RegisterObserver cb a s = (-1, s)) \/
  (exists m s',
     EVENT_RegisterObserver cb a s = (0, s') /\
     (m < EVENT_OBSERVER_MAX)%nat /\
     o_used (obs_at s m) = false /\
     (forall j, (j < m)%nat -> o_used (obs_at s j) = true) /\
     obs_at s' m = mkObs cb a true /\
     (forall j, j <> m -> obs_at s' j = obs_at s j) /\
     g_subscribers s' = g_subscribers s /\
     g_queue s' = g_queue s /\
     g_initialized s' = true /\
     g_rest s' = g_rest s).
Proof.
  intros Hwf Hinit Hcb. unfold EVENT_RegisterObserver. rewrite Hinit.
  destruct (Z.eqb_spec cb 0); [contradiction |]. cbn [negb orb].
  destruct (register_loop_spec cb a s EVENT_OBSERVER_MAX 0)
    as [[-> Hall] | (m & Hm & Hfree & Hfirst & ->)].
  - left. split; [| reflexivity]. intros j Hj. apply Hall. lia.
  - right. exists m, (set_obs s m (mkObs cb a true)).
    split; [reflexivity |]. split; [lia |]. split; [exact Hfree |].
    split; [intros j Hj; apply Hfirst; lia |].
    split; [apply obs_at_set_obs_eq; assumption || lia |].
    split; [| simpl; tauto].
    intros j Hne. apply obs_at_set_obs_ne. congruence.
Qed.

(** X8.  Observers are removed by callback alone.  On an initialized
    bus, with a callback that is not [NULL], [EVENT_UnregisterObserver]
    returns -1 and changes nothing when no observer slot in use holds the
    callback; otherwise it returns 0 and clears [used] in the slot of
    lowest index in use that holds it, whatever the argument registered
    with it, and the other observer slots, the subscribers, the queue and
    [g_initialized] are as they were. *)
Theorem unregister_observer_by_callback (cb : Z) s :
  wf_bus s -> g_initialized s = true -> cb <> 0 ->
  ((forall j, (j < EVENT_OBSERVER_MAX)%nat ->
      o_used (obs_at s j) = true -> o_callback (obs_at s j) <> cb) /\
   EVENT_UnregisterObserver cb s = (-1, s)) \/
  (exists m s',
     EVENT_UnregisterObserver cb s = (0, s') /\
     (m < EVENT_OBSERVER_MAX)%nat /\
     o_used (obs_at s m) = true /\
     o_callback (obs_at s m) = cb /\
     (forall j, (j < m)%nat ->
        o_used (obs_at s j) = true -> o_callback (obs_at s j) <> cb) /\
     obs_at s' m = mkObs cb (o_arg (obs_at s m)) false /\
     (forall j, j <> m -> obs_at s' j = obs_at s j) /\
     g_subscribers s' = g_subscribers s /\
     g_queue s' = g_queue s /\
     g_initialized s' = true /\
     g_rest s' = g_rest s).
Proof.
  intros Hwf Hinit Hcb. unfold EVENT_UnregisterObserver. rewrite Hinit.
  destruct (Z.eqb_spec cb 0); [contradiction |]. cbn [negb orb].
  assert (Hfalse : forall j,
            o_used (obs_at s j) && (o_callback (obs_at s j) =? cb) = false ->
            o_used (obs_at s j) = true -> o_callback (obs_at s j) <> cb).
  { intros j H Hu Hc. rewrite Hu, Hc, Z.eqb_refl in H. discriminate. }
  destruct (unregister_loop_spec cb s EVENT_OBSERVER_MAX 0)
    as [[-> Hno] | (m & Hm & Hmatch & Hfirst & ->)].
  - left. split; [| reflexivity]. intros j Hj. apply Hfalse, Hno. lia.
  - right. apply andb_prop in Hmatch as [Hu Hc]. apply Z.eqb_eq in Hc.
    eexists m, _. split; [reflexivity |]. split; [lia |].
    split; [exact Hu |]. split; [exact Hc |].
    split; [intros j Hj; apply Hfalse, Hfirst; lia |].
    split; [rewrite obs_at_set_obs_eq by (assumption || lia);
            rewrite Hc; reflexivity |].
    split; [| simpl; tauto].
    intros j Hne. apply obs_at_set_obs_ne. congruence.
Qed.

(** *** [EVENT_ClearQueue] and [EVENT_Process] *)

(** X9.  [EVENT_ClearQueue] does not look at [g_initialized]: from any
    state it returns 0 and leaves an empty queue that satisfies the
    invariant, with the registry, [g_initialized] and the rest as they
    were; the records that were queued are dispatched to no one, and a
    call of [EVENT_Process] that follows returns 0 without a call to a
    handler. *)
Theorem clear_queue_drops code (fuel : nat) s :
  let s1 := snd (EVENT_ClearQueue s) in
  fst (EVENT_ClearQueue s) = 0 /\
  EVENT_GetCount s1 = 0 /\
  live (g_queue s1) = [] /\
  queue_inv (g_queue s1) /\
  g_subscribers s1 = g_subscribers s /\
  g_observers s1 = g_observers s /\
  g_initialized s1 = g_initialized s /\
  g_rest s1 = g_rest s /\
  (forall t, snapshot s1 t = snapshot s t) /\
  EVENT_Process code (S fuel) s1 = Some (0, s1, []).
Proof.
  simpl. repeat split; try apply queue_zero_inv.
  unfold EVENT_Process. simpl. destruct (g_initialized s); reflexivity.
Qed.

(** X10.  Whenever [EVENT_Process] returns, whatever the handlers did,
    the value returned is the number of records it popped and dispatched,
    and on an initialized bus the queue is empty. *)
Theorem process_counts_dispatches code (fuel : nat) s (n : Z) s' ds :
  EVENT_Process code fuel s = Some (n, s', ds) ->
  n = Z.of_nat (length ds) /\
  (g_initialized s = true -> EVENT_GetCount s' = 0) /\
  (g_initialized s = false -> s' = s /\ ds = []).
Proof.
  unfold EVENT_Process. destruct (g_initialized s); simpl.
  - intros Hp. apply process_loop_ends_empty in Hp as [Hc Hn].
    split; [lia |]. split; [intros _; exact Hc | discriminate].
  - intros [= <- <- <-]. split; [reflexivity |].
    split; [discriminate | intros _; split; reflexivity].
Qed.


(** X11.  [EVENT_Process] returns when no handler adds to the queue:
    with handlers that keep the invariant of the queue and never leave
    more records in it than they found, which lets them call
    [EVENT_ClearQueue], the loop ends within as many turns as there were
    records and the value returned is at most that number. *)
Theorem process_terminates code (fuel : nat) s :
  preserves (fun s => queue_inv (g_queue s)) code ->
  never_grows code ->
  queue_inv (g_queue s) ->
  (Z.to_nat (EVENT_GetCount s) < fuel)%nat ->
  exists n s' ds,
    EVENT_Process code fuel s = Some (n, s', ds) /\
    0 <= n <= EVENT_GetCount s.
Proof.
  intros Hp Hg Hinv Hfuel. unfold EVENT_Process.
  destruct (g_initialized s); simpl.
  - destruct (process_loop_bounded code Hp Hg _ fuel 0 s Hinv (Nat.le_refl _)
                Hfuel) as (m & s' & ds & Hr & Hm).
    exists m, s', ds. split; [exact Hr |].
    apply process_loop_ends_empty in Hr as [_ ->].
    unfold EVENT_GetCount, queue_get_count. lia.
  - eexists _, _, _. split; [reflexivity |].
    unfold EVENT_GetCount, queue_get_count. destruct Hinv. lia.
Qed.

Lemma dispatch_event_fst code e s :
  fst (dispatch_event code e s)
  = fst (dispatch_observers code EVENT_OBSERVER_MAX 0 e
           (fst (dispatch_subscribers code EVENT_SUBSCRIBER_MAX 0 e s))).
Proof.
  unfold dispatch_event.
  destruct (dispatch_subscribers code EVENT_SUBSCRIBER_MAX 0 e s) as [s1 c1].
  cbn [fst].
  destruct (dispatch_observers code EVENT_OBSERVER_MAX 0 e s1) as [s2 c2].
  reflexivity.
Qed.

Lemma dispatch_observers_first code n i e s :
  o_used (obs_at s i) = true ->
  fst (dispatch_observers code (S n) i e s)
  = fst (dispatch_observers code n (S i) e
           (code (o_callback (obs_at s i)) e (o_arg (obs_at s i)) s)).
Proof.
  intros Hu. cbn [dispatch_observers]. rewrite Hu.
  destruct (dispatch_observers code n (S i) e _). reflexivity.
Qed.

(** X12.  [EVENT_Process] does not return while handlers keep the queue
    from emptying: when some property of the state holds at the start,
    implies that the queue is not empty, and holds again after each pop
    and dispatch, no number of turns of the loop is enough. *)
Theorem process_never_returns code (P : Bus U -> Prop) s :
  (forall x, P x ->
     q_count (g_queue x) <> 0 /\
     exists e x1, queue_pop x = (Some e, x1) /\
                  P (fst (dispatch_event code e x1))) ->
  P s -> g_initialized s = true ->
  forall fuel : nat, EVENT_Process code fuel s = None.
Proof.
  intros Hstep Hs Hinit fuel. unfold EVENT_Process. rewrite Hinit. simpl.
  clear Hinit. generalize 0 as c. revert s Hs.
  induction fuel as [| fuel IH]; intros s Hs c; [reflexivity |].
  destruct (Hstep s Hs) as (Hnz & e & s1 & Hpop & Hnext).
  cbn [process_loop]. unfold queue_is_empty.
  destruct (Z.eqb_spec (q_count (g_queue s)) 0); [contradiction |].
  rewrite Hpop.
  destruct (dispatch_event code e s1) as [s2 calls]. simpl in Hnext.
  rewrite IH; [reflexivity | exact Hnext].
Qed.

(** *** No call through [NULL] *)

Lemma sub_at_set_sub_cases s t m x t' j :
  sub_at (set_sub s t m x) t' j = x \/
  sub_at (set_sub s t m x) t' j = sub_at s t' j.
Proof.
  unfold sub_at, set_sub; simpl.
  rewrite list_lookup_total_insert. case_decide as H; [| right; reflexivity].
  destruct H as [<- _].
  rewrite list_lookup_total_insert. case_decide; [left | right]; reflexivity.
Qed.

Lemma obs_at_set_obs_cases s m x j :
  obs_at (set_obs s m x) j = x \/ obs_at (set_obs s m x) j = obs_at s j.
Proof.
  unfold obs_at, set_obs; simpl.
  rewrite list_lookup_total_insert. case_decide; [left | right]; reflexivity.
Qed.

Lemma reg_ok_ext s1 s2 :
  g_subscribers s1 = g_subscribers s2 -> g_observers s1 = g_observers s2 ->
  reg_ok s2 -> reg_ok s1.
Proof.
  intros Hs Ho [H1 H2]. split.
  - intros t i. rewrite (sub_at_ext s1 s2 t i Hs). apply H1.
  - intros i. rewrite (obs_at_ext s1 s2 i Ho). apply H2.
Qed.

Lemma reg_ok_set_sub s t m x :
  (s_used x = true -> s_callback x <> 0) -> reg_ok s -> reg_ok (set_sub s t m x).
Proof.
  intros Hx [H1 H2]. split.
  - intros t' i. destruct (sub_at_set_sub_cases s t m x t' i) as [-> | ->];
      [exact Hx | apply H1].
  - exact H2.
Qed.

Lemma reg_ok_set_obs s m x :
  (o_used x = true -> o_callback x <> 0) -> reg_ok s -> reg_ok (set_obs s m x).
Proof.
  intros Hx [H1 H2]. split.
  - exact H1.
  - intros i. destruct (obs_at_set_obs_cases s m x i) as [-> | ->];
      [exact Hx | apply H2].
Qed.

Lemma publish_frame r s :
  g_subscribers (snd (publish r s)) = g_subscribers s /\
  g_observers (snd (publish r s)) = g_observers s /\
  g_initialized (snd (publish r s)) = g_initialized s /\
  g_rest (snd (publish r s)) = g_rest s.
Proof.
  unfold publish, EVENT_Publish.
  destruct (negb (g_initialized s) || (p_type r >=? EVENT_MAX_COUNT));
    [simpl; tauto |].
  destruct ((match p_data r with Some _ => true | None => false end)
            && (p_data_size r >? EVENT_DATA_SIZE_MAX)); [simpl; tauto |].
  unfold queue_push.
  destruct (q_count (g_queue s) >=? EVENT_QUEUE_SIZE); simpl; tauto.
Qed.

Lemma dispatch_subscribers_nonnull code n i e s :
  preserves reg_ok code -> reg_ok s ->
  Forall (fun c => inv_callback c <> 0)
         (snd (dispatch_subscribers code n i e s)).
Proof.
  intros Hp. revert i s. induction n as [| n IH]; intros i s Hs; simpl.
  - constructor.
  - destruct (s_used (sub_at s (type (deref s e)) i)) eqn:Hu; [| apply IH, Hs].
    specialize (IH (S i) _ (Hp (s_callback (sub_at s (type (deref s e)) i)) e
                               (s_arg (sub_at s (type (deref s e)) i)) s Hs)).
    destruct (dispatch_subscribers code n (S i) e _) as [s2 calls].
    simpl in *. constructor; [| exact IH]. simpl. apply (proj1 Hs), Hu.
Qed.

Lemma dispatch_observers_nonnull code n i e s :
  preserves reg_ok code -> reg_ok s ->
  Forall (fun c => inv_callback c <> 0)
         (snd (dispatch_observers code n i e s)).
Proof.
  intros Hp. revert i s. induction n as [| n IH]; intros i s Hs; simpl.
  - constructor.
  - destruct (o_used (obs_at s i)) eqn:Hu; [| apply IH, Hs].
    specialize (IH (S i) _ (Hp (o_callback (obs_at s i)) e
                               (o_arg (obs_at s i)) s Hs)).
    destruct (dispatch_observers code n (S i) e _) as [s2 calls].
    simpl in *. constructor; [| exact IH]. simpl. apply (proj2 Hs), Hu.
Qed.

Lemma dispatch_event_nonnull code e s :
  preserves reg_ok code -> reg_ok s ->
  Forall (fun c => inv_callback c <> 0) (snd (dispatch_event code e s)).
Proof.
  intros Hp Hs. unfold dispatch_event.
  pose proof (dispatch_subscribers_nonnull code EVENT_SUBSCRIBER_MAX 0 e s
                Hp Hs) as H1.
  pose proof (dispatch_subscribers_preserves reg_ok code EVENT_SUBSCRIBER_MAX
                0 e s Hp Hs) as Hs1.
  destruct (dispatch_subscribers code EVENT_SUBSCRIBER_MAX 0 e s) as [s1 c1].
  pose proof (dispatch_observers_nonnull code EVENT_OBSERVER_MAX 0 e s1
                Hp Hs1) as H2.
  destruct (dispatch_observers code EVENT_OBSERVER_MAX 0 e s1) as [s2 c2].
  simpl in *. apply Forall_app. split; assumption.
Qed.


Lemma lookup_total_in_or_default {A} `{Inhabited A} (l : list A) (i : nat) :
  In (l !!! i) l \/ l !!! i = inhabitant.
Proof.
  revert i. induction l as [| a l IH]; intros i.
  - right. reflexivity.
  - destruct i as [| i]; [left; left; reflexivity |].
    destruct (IH i) as [Hin | Hd]; [left; right; exact Hin | right; exact Hd].
Qed.

(** A test of [reg_ok] that runs. *)
Lemma reg_ok_check s :
  forallb (forallb (fun x => negb (s_used x) || negb (s_callback x =? 0)))
          (g_subscribers s)
  && forallb (fun x => negb (o_used x) || negb (o_callback x =? 0))
             (g_observers s) = true ->
  reg_ok s.
Proof.
  intros H. apply andb_prop in H as [Hs Ho].
  rewrite forallb_forall in Hs, Ho. split.
  - intros t i Hu. unfold sub_at in *.
    destruct (lookup_total_in_or_default (g_subscribers s) (Z.to_nat t))
      as [Hrow | Hrow].
    + specialize (Hs _ Hrow). rewrite forallb_forall in Hs.
      destruct (lookup_total_in_or_default (g_subscribers s !!! Z.to_nat t) i)
        as [Hin | Hd].
      * specialize (Hs _ Hin). rewrite Hu in Hs. simpl in Hs.
        apply negb_true_iff, Z.eqb_neq in Hs. exact Hs.
      * rewrite Hd in Hu. discriminate.
    + rewrite Hrow in Hu. discriminate.
  - intros i Hu. unfold obs_at in *.
    destruct (lookup_total_in_or_default (g_observers s) i) as [Hin | Hd].
    + specialize (Ho _ Hin). rewrite Hu in Ho. simpl in Ho.
      apply negb_true_iff, Z.eqb_neq in Ho. exact Ho.
    + rewrite Hd in Hu. discriminate.
Qed.

(** X13.  No call through [NULL].  That no slot in use holds a [NULL]
    callback is true of the zeroed statics and is kept by every function
    of the interface, with handlers that keep it themselves; and every
    call [EVENT_Process] makes is to a callback that is not [NULL]. *)
Theorem never_calls_null code (fuel : nat) (op : Op) s (r : Z) s' ds :
  preserves reg_ok code ->
  reg_ok s ->
  exec code fuel op s = Some (r, s', ds) ->
  (forall rest : U, reg_ok (bus_start rest)) /\
  reg_ok s' /\
  Forall (fun d => Forall (fun c => inv_callback c <> 0) (d_calls d)) ds.
Proof.
  intros Hp Hs Hex.
  assert (Hzero : forall q i rest,
            reg_ok (mkBus q subs_zero obs_zero i rest : Bus U)).
  { intros q i rest. split.
    - intros t j H. unfold sub_at in H; simpl in H.
      rewrite subs_zero_unused in H. discriminate.
    - intros j H. unfold obs_at in H; simpl in H.
      rewrite obs_zero_unused in H. discriminate. }
  split; [intros rest; apply Hzero |].
  destruct op as [| t cb a | t cb a | now t pr d n | | | | cb a | cb];
    cbn [exec] in Hex.
  - injection Hex as _ <- <-. split; [apply Hzero | constructor].
  - injection Hex as _ <- <-. split; [| constructor].
    unfold EVENT_Subscribe.
    destruct (negb (g_initialized s) || (t >=? EVENT_MAX_COUNT)) eqn:Hg;
      [exact Hs |]. cbn [orb].
    destruct (Z.eqb_spec cb 0); [exact Hs |].
    destruct (subscribe_loop_spec t cb a s EVENT_SUBSCRIBER_MAX 0)
      as [[-> _] | (m & _ & _ & _ & ->)]; [exact Hs |].
    apply reg_ok_set_sub; [intros _; assumption | exact Hs].
  - injection Hex as _ <- <-. split; [| constructor].
    unfold EVENT_Unsubscribe.
    destruct (negb (g_initialized s) || (t >=? EVENT_MAX_COUNT) || (cb =? 0));
      [exact Hs |].
    destruct (unsubscribe_loop_spec t cb a s EVENT_SUBSCRIBER_MAX 0)
      as [[-> _] | (m & _ & _ & _ & ->)]; [exact Hs |].
    apply reg_ok_set_sub; [discriminate | exact Hs].
  - injection Hex as _ <- <-. split; [| constructor].
    destruct (publish_frame (mkPublish now t pr d n) s) as (H1 & H2 & _).
    exact (reg_ok_ext _ _ H1 H2 Hs).
  - unfold EVENT_Process in Hex.
    destruct (negb (g_initialized s));
      [injection Hex as _ <- <-; split; [exact Hs | constructor] |].
    apply (process_loop_calls reg_ok
             (fun d => Forall (fun c => inv_callback c <> 0) (d_calls d))
             code Hp) in Hex; [exact Hex | | exact Hs].
    intros x e x1 Hx Hpop.
    assert (Hx1 : reg_ok x1).
    { unfold queue_pop in Hpop.
      destruct (q_count (g_queue x) =? 0); [discriminate |].
      injection Hpop as _ <-. exact Hx. }
    split; [exact Hx1 | apply dispatch_event_nonnull; assumption].
  - injection Hex as _ <- <-. split; [exact Hs | constructor].
  - injection Hex as _ <- <-. split; [exact Hs | constructor].
  - injection Hex as _ <- <-. split; [| constructor].
    unfold EVENT_RegisterObserver.
    destruct (negb (g_initialized s)); [exact Hs |]. cbn [orb].
    destruct (Z.eqb_spec cb 0); [exact Hs |].
    destruct (register_loop_spec cb a s EVENT_OBSERVER_MAX 0)
      as [[-> _] | (m & _ & _ & _ & ->)]; [exact Hs |].
    apply reg_ok_set_obs; [intros _; assumption | exact Hs].
  - injection Hex as _ <- <-. split; [| constructor].
    unfold EVENT_UnregisterObserver.
    destruct (negb (g_initialized s) || (cb =? 0)); [exact Hs |].
    destruct (unregister_loop_spec cb s EVENT_OBSERVER_MAX 0)
      as [[-> _] | (m & _ & _ & _ & ->)]; [exact Hs |].
    apply reg_ok_set_obs; [discriminate | exact Hs].
Qed.

(** *** What the queue holds *)



Lemma publish_ok_size r s :
  fst (publish r s) = 0 ->
  p_data r = None \/ p_data_size r <= EVENT_DATA_SIZE_MAX.
Proof.
  unfold publish, EVENT_Publish.
  destruct (negb (g_initialized s) || (p_type r >=? EVENT_MAX_COUNT));
    [discriminate |].
  destruct (p_data r); [| left; reflexivity].
  destruct (Z.gtb_spec (p_data_size r) EVENT_DATA_SIZE_MAX);
    [discriminate | right; lia].
Qed.






(** *** The record [EVENT_Publish] queues *)

Lemma drop_repeat {A} (x : A) : forall n m : nat,
  drop n (repeat x m) = repeat x (m - n).
Proof.
  induction n as [| n IH]; intros m.
  - rewrite Nat.sub_0_r. reflexivity.
  - destruct m as [| m]; [reflexivity | apply IH].
Qed.

(** X15.  The record queued.  A call of [EVENT_Publish] that returns 0
    appends one record to the live ones, with the type, the priority and
    the clock value of the call.  With a payload of [n > 0] bytes its
    [data_size] is [n] and its [data] are these bytes followed by zeros up
    to [EVENT_DATA_SIZE_MAX]; with a payload pointer and [n = 0], or with
    no payload whatever [n] is, its [data_size] is 0 and its [data] are all
    zero. *)
Theorem publish_record (now t pr n : Z) (d : option (list Z)) s :
  wf_bus s -> queue_inv (g_queue s) -> 0 <= n ->
  fst (EVENT_Publish now t pr d n s) = 0 ->
  exists ev,
    live (g_queue (snd (EVENT_Publish now t pr d n s)))
      = live (g_queue s) ++ [ev] /\
    type ev = t /\ priority ev = pr /\ timestamp ev = now /\
    match d with
    | Some bytes =>
        (0 < n -> n <= Z.of_nat (length bytes) ->
         data_size ev = n /\
         data ev = firstn (Z.to_nat n) bytes
                   ++ repeat 0 (Z.to_nat (EVENT_DATA_SIZE_MAX - n))) /\
        (n = 0 ->
         data_size ev = 0 /\ data ev = repeat 0 (Z.to_nat EVENT_DATA_SIZE_MAX))
    | None =>
        data_size ev = 0 /\ data ev = repeat 0 (Z.to_nat EVENT_DATA_SIZE_MAX)
    end.
Proof.
  intros (Hlen & _) Hinv Hn H0.
  set (r := mkPublish now t pr d n).
  change (EVENT_Publish now t pr d n s) with (publish r s) in *.
  pose proof (publish_ok_size r s H0) as Hsize.
  assert (Hseq : publish_seq [r] s = Some (snd (publish r s))).
  { simpl. destruct (publish r s) as [v s1]. simpl in *. subst v. reflexivity. }
  destruct (publish_seq_live [r] s _ Hinv Hlen Hseq) as (_ & _ & Hlive & _).
  exists (event_of r). split; [exact Hlive |].
  unfold event_of, make_event. simpl p_data. simpl p_data_size.
  simpl p_now. simpl p_type. simpl p_priority.
  destruct d as [bytes |]; [| repeat split].
  destruct (Z.gtb_spec n 0) as [Hpos | Hle]; cbn [type priority timestamp data_size data];
    repeat split; try lia.
  unfold memcpy. rewrite map_nth_seq by lia.
  rewrite drop_repeat. f_equal. f_equal.
  destruct Hsize as [Hs | Hs]; [discriminate | simpl in Hs].
  unfold EVENT_DATA_SIZE_MAX in *. lia.
Qed.


(** X17.  One step of the queue.  [queue_push] returns -1 and changes
    nothing exactly when [EVENT_QUEUE_SIZE] records are live, and
    otherwise appends the record to the live ones.  [queue_pop] returns
    [NULL] and changes nothing exactly when no record is live, and
    otherwise returns the address of the oldest, which stays where it is
    in the array, and leaves the others live in their order. *)
Theorem queue_step (ev : Event_t) s :
  wf_bus s -> queue_inv (g_queue s) ->
  (if q_count (g_queue s) =? EVENT_QUEUE_SIZE
   then queue_push ev s = (-1, s)
   else fst (queue_push ev s) = 0 /\
        live (g_queue (snd (queue_push ev s))) = live (g_queue s) ++ [ev] /\
        queue_inv (g_queue (snd (queue_push ev s)))) /\
  (match queue_pop s with
   | (None, s') => s' = s /\ live (g_queue s) = []
   | (Some e, s') =>
       live (g_queue s) = deref s e :: live (g_queue s') /\
       q_queue (g_queue s') = q_queue (g_queue s) /\
       queue_inv (g_queue s')
   end).
Proof.
  intros (Hlen & _) Hinv. split.
  - destruct (Z.eqb_spec (q_count (g_queue s)) EVENT_QUEUE_SIZE) as [Hf | Hnf].
    + apply queue_push_full. lia.
    + assert (Hlt : q_count (g_queue s) < EVENT_QUEUE_SIZE)
        by (destruct Hinv; lia).
      rewrite (queue_push_room ev s Hinv Hlt). simpl.
      split; [reflexivity |].
      split; [apply live_push | apply push_inv]; assumption.
  - destruct (Z.eq_dec (q_count (g_queue s)) 0) as [Hz | Hnz].
    + rewrite queue_pop_empty by exact Hz. split; [reflexivity |].
      unfold live. rewrite Hz. reflexivity.
    + assert (Hc : 0 < q_count (g_queue s)) by (destruct Hinv; lia).
      rewrite (queue_pop_some s Hinv Hc). simpl.
      split; [apply live_pop; assumption |].
      split; [reflexivity | apply pop_inv; assumption].
Qed.

(** *** event_example.c *)

Lemma lor_shiftl_byte (hi lo : Z) :
  0 <= lo < 2 ^ 8 -> Z.lor (Z.shiftl hi 8) lo = 256 * hi + lo.
Proof.
  intros Hlo. rewrite <- Z.lxor_lor, <- Z.add_nocarry_lxor.
  - rewrite Z.shiftl_mul_pow2 by lia. lia.
  - apply Z.bits_inj'. intros k Hk. rewrite Z.land_spec, Z.bits_0.
    destruct (Z.ltb_spec k 8).
    + rewrite Z.shiftl_spec_low by lia. reflexivity.
    + rewrite <- (Z.mod_small lo (2 ^ 8)) by lia.
      rewrite Z.mod_pow2_bits_high by lia. apply andb_false_r.
  - apply Z.bits_inj'. intros k Hk. rewrite Z.land_spec, Z.bits_0.
    destruct (Z.ltb_spec k 8).
    + rewrite Z.shiftl_spec_low by lia. reflexivity.
    + rewrite <- (Z.mod_small lo (2 ^ 8)) by lia.
      rewrite Z.mod_pow2_bits_high by lia. apply andb_false_r.
Qed.

(** X18.  The sensor handler reads its payload as a 16-bit number, high
    byte first: for a record published with the two bytes [hi] and [lo]
    the value of [temp] is [256 * hi + lo], between 0 and 65535, and with
    fewer than two bytes of payload no value is computed. *)
Theorem sensor_temp_big_endian (now t pr hi lo : Z) (d : option (list Z)) :
  0 <= hi < 2 ^ 8 -> 0 <= lo < 2 ^ 8 ->
  on_sensor_data_temp (make_event now t pr (Some [hi; lo]) 2)
    = Some (256 * hi + lo) /\
  0 <= 256 * hi + lo <= 65535 /\
  on_sensor_data_temp (make_event now t pr (Some [hi]) 1) = None /\
  on_sensor_data_temp (make_event now t pr d 0) = None /\
  on_sensor_data_temp (make_event now t pr None 2) = None.
Proof.
  intros Hhi Hlo. split; [| split; [lia |]].
  - unfold on_sensor_data_temp, make_event. simpl.
    rewrite lor_shiftl_byte by exact Hlo. reflexivity.
  - split; [reflexivity |]. split; [destruct d |]; reflexivity.
Qed.

End Properties.

(** ** The theorems at concrete buses *)

(** Handlers that touch nothing of the bus. *)
Lemma quiet_keeps_queue : keeps_queue quiet_handlers.
Proof. intros cb e a s. reflexivity. Qed.

Lemma quiet_keeps_registry : keeps_registry quiet_handlers.
Proof. intros cb e a s. split; reflexivity. Qed.

Lemma quiet_behind_run (e : nat) (s : Bus unit) :
  behind_scan_run quiet_handlers e s.
Proof.
  apply behind_scan_covers, keeps_behind_scan.
  - intros cb e' a x. reflexivity.
  - intros cb e' a x. split; reflexivity.
Qed.

(** [publishing_handlers] leaves the registry as it is. *)
Lemma publishing_keeps_registry : keeps_registry publishing_handlers.
Proof.
  intros cb e a s. unfold publishing_handlers.
  destruct (cb =? 100); [| split; reflexivity].
  destruct (publish_frame (mkPublish 0 3 0 None 0) s) as (H1 & H2 & _).
  split; assumption.
Qed.

(** On [bus_relay_published] the one handler that changes the queue
    publishes once, into a queue of three records. *)
Lemma relay_drain_appends :
  during_drain appended publishing_handlers bus_relay_published.
Proof.
  intros k e s1.
  do 5 (destruct k as [| k];
        [ intros Hpop; vm_compute in Hpop; injection Hpop as <- <-;
          appending_dispatch_here |]).
  change (S (S (S (S (S k))))) with (5 + k)%nat.
  rewrite at_turn_add, at_turn_done by (vm_compute; reflexivity).
  rewrite queue_pop_empty by (vm_compute; reflexivity). discriminate.
Qed.

(** The same on [bus_relay_sensor]. *)
Lemma sensor_drain_appends :
  during_drain appended publishing_handlers bus_relay_sensor.
Proof.
  intros k e s1.
  do 2 (destruct k as [| k];
        [ intros Hpop; vm_compute in Hpop; injection Hpop as <- <-;
          appending_dispatch_here |]).
  change (S (S k)) with (2 + k)%nat.
  rewrite at_turn_add, at_turn_done by (vm_compute; reflexivity).
  rewrite queue_pop_empty by (vm_compute; reflexivity). discriminate.
Qed.

(** C1 as stated fails: after [EVENT_QUEUE_SIZE] publishes of type 1 on
    a bus whose subscriber of type 1 publishes an event of type 3 when
    called, [EVENT_Process] returns 128, and for each of the 64 records
    published, popped with type 1, the observer is called with a record
    of type 3: the subscriber's publish went into the slot just popped,
    the queue having been full at the pop. *)
Lemma fifo_overwritten_counterexample :
  publish_seq full_publishes bus_watched = Some bus_watched_full /\
  map (fun r => type (event_of r)) full_publishes = repeat 1 64 /\
  option_map
    (fun r => (fst (fst r),
               map (fun d => (type (d_record d),
                              map (fun c => (inv_callback c,
                                             type (inv_record c)))
                                  (d_calls d)))
                   (firstn 64 (snd r))))
    (EVENT_Process publishing_handlers 200 bus_watched_full)
  = Some (128, repeat (1, [(100, 1); (400, 3)]) 64).
Proof. vm_compute. repeat split; reflexivity. Qed.

(** With handlers that touch nothing, the four events of
    event_example.c come out in the order published, each to its
    subscribers and the observer; with a subscriber of type 2 that
    publishes, they come out first and in that order, before the event
    that the subscriber published. *)
Lemma fifo_dispatch_order_witness :
  (exists s'' ds,
     EVENT_Process quiet_handlers 5 bus_demo_published
       = Some (Z.of_nat (length (live (g_queue bus_demo))
                         + length demo_publishes), s'', ds) /\
     map d_record ds = live (g_queue bus_demo) ++ map event_of demo_publishes /\
     Forall (fun d => calls_carry (d_event d) (d_record d) (d_calls d)) ds /\
     q_count (g_queue s'') = 0 /\
     Forall (fun d => targets (d_calls d)
                      = snapshot bus_demo (type (d_record d))) ds) /\
  EVENT_Process publishing_handlers 6 bus_relay_published
    = Some relay_processed /\
  (exists ds1 ds2,
     snd relay_processed = ds1 ++ ds2 /\
     map d_record ds1
       = live (g_queue bus_relay) ++ map event_of demo_publishes) /\
  Forall (fun d => calls_carry (d_event d) (d_record d) (d_calls d))
         (snd relay_processed) /\
  Forall (fun d => targets (d_calls d)
                   = snapshot bus_relay (type (d_record d)))
         (snd relay_processed).
Proof.
  split.
  - destruct (fifo_dispatch_order quiet_handlers demo_publishes bus_demo
                bus_demo_published 5) as [HB _].
    + bus_wf.
    + bus_inv.
    + reflexivity.
    + reflexivity.
    + destruct (HB (always_during_drain same_queue _ _ quiet_keeps_queue)
                  ltac:(vm_compute; lia))
        as (s'' & ds & H1 & H2 & H3 & H4 & H5).
      exists s'', ds. repeat (split; [assumption |]).
      apply H5, always_during_drain, quiet_keeps_registry.
  - assert (Hp : EVENT_Process publishing_handlers 6 bus_relay_published
                 = Some relay_processed) by (vm_compute; reflexivity).
    split; [exact Hp |].
    destruct (fifo_dispatch_order publishing_handlers demo_publishes bus_relay
                bus_relay_published 6) as [_ HA].
    + bus_wf.
    + bus_inv.
    + reflexivity.
    + vm_compute. reflexivity.
    + destruct (HA relay_drain_appends (fst (fst relay_processed))
                  (snd (fst relay_processed)) (snd relay_processed))
        as (H1 & H2 & H3).
      * rewrite Hp. vm_compute. reflexivity.
      * split; [exact H1 |]. split; [exact H2 |].
        apply H3, always_during_drain, publishing_keeps_registry.
Defined.

(** C5 as stated fails: the sensor reading is the 64th record of a
    full queue, its subscriber publishes when called, and the observer is
    then called, for that record, with a record of [data_size] 0 whose
    first bytes are 0. *)
Lemma payload_overwritten_counterexample :
  fst (EVENT_Publish 70 1 0 (Some [1; 104]) 2 bus_watched_63) = 0 /\
  option_map
    (fun r => (fst (fst r),
               map (fun d => (data_size (d_record d),
                              firstn 2 (data (d_record d)),
                              map (fun c => (inv_callback c,
                                             data_size (inv_record c),
                                             firstn 2 (data (inv_record c))))
                                  (d_calls d)))
                   (firstn 1 (skipn 63 (snd r)))))
    (EVENT_Process publishing_handlers 200
       (snd (EVENT_Publish 70 1 0 (Some [1; 104]) 2 bus_watched_63)))
  = Some (128, [(2, [1; 104], [(100, 2, [1; 104]); (400, 0, [0; 0])])]).
Proof. vm_compute. repeat split; reflexivity. Qed.

(** The sensor reading of event_example.c, bytes 0x01 0x68, comes back
    as published, also when its subscriber publishes. *)
Lemma payload_round_trip_witness :
  (exists n s'' ds d,
     EVENT_Process quiet_handlers 2
       (snd (EVENT_Publish 6 2 1 (Some [1; 104]) 2 bus_demo))
       = Some (n, s'', ds ++ [d]) /\
     delivered 6 2 1 2 [1; 104] d /\
     targets (d_calls d) = snapshot bus_demo 2) /\
  EVENT_Process publishing_handlers 3 bus_relay_sensor
    = Some sensor_processed /\
  exists ds1 d ds2,
    snd sensor_processed = ds1 ++ d :: ds2 /\
    map d_record ds1 = live (g_queue bus_relay) /\
    delivered 6 2 1 2 [1; 104] d /\
    targets (d_calls d) = snapshot bus_relay 2.
Proof.
  split.
  - destruct (payload_round_trip quiet_handlers 6 2 1 2 [1; 104] bus_demo
                (snd (EVENT_Publish 6 2 1 (Some [1; 104]) 2 bus_demo)) 2)
      as [HB _].
    + bus_wf.
    + bus_inv.
    + unfold EVENT_DATA_SIZE_MAX. lia.
    + reflexivity.
    + reflexivity.
    + destruct (HB (always_during_drain same_queue _ _ quiet_keeps_queue)
                  ltac:(vm_compute; lia))
        as (n & s'' & ds & d & H1 & H2 & H3).
      exists n, s'', ds, d. split; [exact H1 |]. split; [exact H2 |].
      apply H3, always_during_drain, quiet_keeps_registry.
  - assert (Hp : EVENT_Process publishing_handlers 3 bus_relay_sensor
                 = Some sensor_processed) by (vm_compute; reflexivity).
    split; [exact Hp |].
    destruct (payload_round_trip publishing_handlers 6 2 1 2 [1; 104] bus_relay
                bus_relay_sensor 3) as [_ HA].
    + bus_wf.
    + bus_inv.
    + unfold EVENT_DATA_SIZE_MAX. lia.
    + reflexivity.
    + vm_compute. reflexivity.
    + destruct (HA sensor_drain_appends (fst (fst sensor_processed))
                  (snd (fst sensor_processed)) (snd sensor_processed))
        as (ds1 & d & ds2 & H1 & H2 & H3 & H4).
      * rewrite Hp. vm_compute. reflexivity.
      * exists ds1, d, ds2. repeat (split; [assumption |]).
        apply H4, always_during_drain, publishing_keeps_registry.
Defined.

(** A fresh bus takes 64 events and refuses the 65th; [EVENT_Process]
    then returns having drained records, and the bus accepts again. *)
Lemma capacity_enforced_witness :
  (forall r, publish r bus_full = (-1, bus_full) /\
             queue_push (event_of r) bus_full = (-1, bus_full)) /\
  exists n s2 ds,
    EVENT_Process quiet_handlers 65 bus_full = Some (n, s2, ds) /\
    1 <= n <= EVENT_QUEUE_SIZE /\
    forall r, valid_publish r -> fst (publish r s2) = 0.
Proof.
  destruct (capacity_enforced quiet_handlers full_publishes bus_ready bus_full)
    as (H1 & _ & H3).
  - intros cb e a s H. exact H.
  - bus_wf.
  - bus_inv.
  - vm_compute. reflexivity.
  - reflexivity.
  - split; [exact H1 |]. apply H3.
    + intros cb e a s H. exact H.
    + intros cb e a s _. unfold quiet_handlers. lia.
    + vm_compute. lia.
Defined.

(** C4 as stated fails: the handler in slot 0 unsubscribes the one in
    slot 1, which was in use when the dispatch of the record began and is
    not called for it. *)
Lemma dispatch_snapshot_counterexample :
  snapshot bus_two_subscribers (type (deref bus_two_subscribers 0))
    = [(SubSlot 2 0, 100, 0); (SubSlot 2 1, 200, 0)] /\
  targets (snd (dispatch_event unsubscribing_handlers 0 bus_two_subscribers))
    = [(SubSlot 2 0, 100, 0)] /\
  targets (snd (dispatch_event unsubscribing_handlers 0 bus_two_subscribers))
    <> snapshot bus_two_subscribers (type (deref bus_two_subscribers 0)).
Proof.
  split; [reflexivity |]. split; [reflexivity |].
  vm_compute. discriminate.
Qed.

(** A handler that unsubscribes itself changes the registry only behind
    the scan. *)
Lemma one_shot_behind_scan e t : behind_scan one_shot_handlers e t.
Proof.
  split.
  - intros s i Ht Hu s1. subst s1. unfold one_shot_handlers.
    destruct (Z.eqb_spec (s_callback (sub_at s t i)) 100) as [Hcb | _];
      [| repeat split; [exact Ht]].
    rewrite Ht.
    destruct (unsubscribe_frame t 100 (s_arg (sub_at s t i)) s)
      as (Hq & Ho & _).
    split; [| split].
    + rewrite (deref_queue _ s) by exact Hq. exact Ht.
    + intros j Hj. apply (unsubscribe_behind _ _ _ _ i); [| lia].
      unfold sub_matches. rewrite Hu, Hcb, !Z.eqb_refl. reflexivity.
    + intros j _. apply obs_at_ext, Ho.
  - intros s i Hu s1 j _. subst s1. unfold one_shot_handlers.
    destruct (o_callback (obs_at s i) =? 100); [| reflexivity].
    apply obs_at_ext, unsubscribe_frame.
Qed.

(** The handler in slot 1 unsubscribes the one in slot 0, which the scan
    has passed. *)
Lemma late_unsubscribe_behind_run :
  behind_scan_run late_unsubscribing_handlers 0 bus_two_subscribers.
Proof.
  split.
  - intros j Hj. unfold EVENT_SUBSCRIBER_MAX in Hj.
    do 8 (destruct j as [| j];
          [intros sj Hu s1; split; [reflexivity |];
           split; intros k Hk;
           unfold EVENT_SUBSCRIBER_MAX, EVENT_OBSERVER_MAX in Hk;
           do 8 (destruct k as [| k]; [try lia; vm_compute; reflexivity |]);
           lia
          |]).
    lia.
  - intros j Hj. unfold EVENT_OBSERVER_MAX in Hj.
    do 4 (destruct j as [| j];
          [intros sj Hu s1 k Hk; unfold EVENT_OBSERVER_MAX in Hk;
           do 4 (destruct k as [| k]; [try lia; vm_compute; reflexivity |]);
           lia
          |]).
    lia.
Qed.

(** Both subscribers are then called for the record in flight. *)
Lemma dispatch_reads_registry_live_witness :
  targets (snd (dispatch_event late_unsubscribing_handlers 0
                  bus_two_subscribers))
    = snapshot bus_two_subscribers (type (deref bus_two_subscribers 0)).
Proof.
  apply (proj2 (dispatch_reads_registry_live late_unsubscribing_handlers 0
                  bus_two_subscribers)).
  exact late_unsubscribe_behind_run.
Defined.

(** And only the other one for the next record. *)
Example one_shot_next_record :
  let s := fst (dispatch_event one_shot_handlers 0 bus_two_subscribers) in
  targets (snd (dispatch_event one_shot_handlers 0 s))
    = [(SubSlot 2 1, 200, 0)].
Proof. reflexivity. Qed.

(** C2 as stated fails: two subscribers of type 2 in use, no observer,
    one event of type 2 queued, and [EVENT_Process] makes one call, for
    the handler in slot 0 unsubscribes the one in slot 1. *)
Lemma fan_out_counterexample :
  length (active_subs bus_two_queued 2) = 2%nat /\
  length (active_obs bus_two_queued) = 0%nat /\
  q_count (g_queue bus_two_queued) = 1 /\
  type (deref bus_two_queued (Z.to_nat (q_head (g_queue bus_two_queued))))
    = 2 /\
  option_map
    (fun r => (fst (fst r), map (fun d => targets (d_calls d)) (snd r)))
    (EVENT_Process unsubscribing_handlers 2 bus_two_queued)
    = Some (1, [[(SubSlot 2 0, 100, 0)]]).
Proof. vm_compute. repeat split; reflexivity. Qed.

(** The button event of event_example.c goes to its two subscribers,
    then to the observer; and on the bus of the counterexample both
    subscribers are called when it is the handler in slot 1 that
    unsubscribes the one in slot 0. *)
Lemma fan_out_complete_witness :
  (queue_pop bus_button = (Some 0%nat, bus_button_popped) /\
   targets (snd (dispatch_event quiet_handlers 0 bus_button_popped))
     = map (sub_target bus_button 1) (active_subs bus_button 1)
       ++ map (obs_target bus_button) (active_obs bus_button) /\
   length (snd (dispatch_event quiet_handlers 0 bus_button_popped))
     = (2 + 1)%nat /\
   List.NoDup
     (map inv_slot (snd (dispatch_event quiet_handlers 0 bus_button_popped))) /\
   EVENT_Process quiet_handlers 2 bus_button
     = Some (1, fst (dispatch_event quiet_handlers 0 bus_button_popped),
             [mkDispatched 0 (deref bus_button 0)
                (snd (dispatch_event quiet_handlers 0 bus_button_popped))])) /\
  (queue_pop bus_two_queued = (Some 0%nat, bus_two_subscribers) /\
   targets (snd (dispatch_event late_unsubscribing_handlers 0
                   bus_two_subscribers))
     = [(SubSlot 2 0, 100, 0); (SubSlot 2 1, 200, 0)] /\
   length (snd (dispatch_event late_unsubscribing_handlers 0
                  bus_two_subscribers)) = (2 + 0)%nat /\
   EVENT_Process late_unsubscribing_handlers 2 bus_two_queued
     = Some (1, fst (dispatch_event late_unsubscribing_handlers 0
                       bus_two_subscribers),
             [mkDispatched 0 (deref bus_two_queued 0)
                (snd (dispatch_event late_unsubscribing_handlers 0
                        bus_two_subscribers))])).
Proof.
  split.
  - assert (Hpop : queue_pop bus_button = (Some 0%nat, bus_button_popped))
      by reflexivity.
    destruct (fan_out_complete quiet_handlers bus_button 1 2 1 2 0
                bus_button_popped) as (H1 & H2 & H3 & _ & H5).
    + reflexivity.
    + exact Hpop.
    + reflexivity.
    + reflexivity.
    + reflexivity.
    + apply quiet_behind_run.
    + split; [exact Hpop |]. split; [exact H1 |]. split; [exact H2 |].
      split; [exact H3 |]. apply H5; [reflexivity | lia].
  - assert (Hpop : queue_pop bus_two_queued = (Some 0%nat, bus_two_subscribers))
      by reflexivity.
    destruct (fan_out_complete late_unsubscribing_handlers bus_two_queued 2
                2 0 2 0 bus_two_subscribers) as (H1 & H2 & _ & _ & H5).
    + reflexivity.
    + exact Hpop.
    + reflexivity.
    + reflexivity.
    + reflexivity.
    + exact late_unsubscribe_behind_run.
    + split; [exact Hpop |]. split; [exact H1 |]. split; [exact H2 |].
      apply H5; [reflexivity | lia].
Defined.

(** C6 as stated fails: the bus is initialized, the type valid and the
    payload of [EVENT_DATA_SIZE_MAX] bytes, and the call returns -1, for
    the queue is full. *)
Lemma publish_at_limit_counterexample :
  g_initialized bus_full = true /\
  fst (EVENT_Publish 64 1 0 (Some (repeat 7 32)) EVENT_DATA_SIZE_MAX bus_full)
    = -1.
Proof. split; reflexivity. Qed.

Lemma payload_size_boundary_witness :
  (q_count (g_queue bus_demo) < EVENT_QUEUE_SIZE ->
   fst (EVENT_Publish 9 2 1 (Some (repeat 7 32)) EVENT_DATA_SIZE_MAX bus_demo)
     = 0) /\
  EVENT_Publish 9 2 1 (Some (repeat 7 32)) (EVENT_DATA_SIZE_MAX + 1) bus_demo
    = (-1, bus_demo) /\
  (q_count (g_queue bus_demo) < EVENT_QUEUE_SIZE ->
   fst (EVENT_Publish 9 2 1 None 200 bus_demo) = 0) /\
  (wf_bus bus_demo -> queue_inv (g_queue bus_demo) ->
   q_count (g_queue bus_demo) < EVENT_QUEUE_SIZE ->
   exists ev,
     live (g_queue (snd (EVENT_Publish 9 2 1 None 200 bus_demo)))
       = live (g_queue bus_demo) ++ [ev] /\
     data_size ev = 0).
Proof.
  apply (payload_size_boundary 9 2 1 200 (repeat 7 32) bus_demo).
  - reflexivity.
  - unfold EVENT_MAX_COUNT. lia.
Defined.



Lemma before_init_rejects_witness :
  run quiet_handlers 1
      [OpSubscribe 1 100 0; OpPublish 0 1 0 None 0; OpProcess; OpClearQueue;
       OpGetCount; OpRegisterObserver 400 0; OpUnregisterObserver 400;
       OpUnsubscribe 1 100 0]
      (bus_start tt)
    = Some ([-1; -1; 0; 0; 0; -1; -1; -1], bus_start tt, []).
Proof.
  apply (before_init_rejects quiet_handlers 0 tt
           [OpSubscribe 1 100 0; OpPublish 0 1 0 None 0; OpProcess;
            OpClearQueue; OpGetCount; OpRegisterObserver 400 0;
            OpUnregisterObserver 400; OpUnsubscribe 1 100 0]).
  repeat constructor; discriminate.
Defined.

(** A handler that publishes keeps the invariant. *)
Lemma publishing_handlers_inv :
  preserves (fun s => queue_inv (g_queue s)) publishing_handlers.
Proof.
  intros cb e a s Hinv. unfold publishing_handlers.
  destruct (cb =? 100); [| exact Hinv].
  apply (publish_inv (mkPublish 0 3 0 None 0)), Hinv.
Qed.

(** [EVENT_Process] with a handler that publishes while it runs. *)
Lemma queue_invariant_preserved_witness :
  (forall rest : unit, queue_inv (g_queue (bus_start rest))) /\
  (forall r s' ds,
      exec publishing_handlers 3 OpProcess bus_one_event = Some (r, s', ds) ->
      queue_inv (g_queue s')) /\
  (OpProcess <> OpProcess ->
   exists r s', exec publishing_handlers 3 OpProcess bus_one_event
                = Some (r, s', [])) /\
  (keeps_queue publishing_handlers ->
   (Z.to_nat (q_count (g_queue bus_one_event)) < 3)%nat ->
   exists r s' ds, exec publishing_handlers 3 OpProcess bus_one_event
                   = Some (r, s', ds)).
Proof.
  apply (queue_invariant_preserved publishing_handlers 3 OpProcess
           bus_one_event).
  - exact publishing_handlers_inv.
  - vm_compute. repeat split; discriminate || reflexivity.
Defined.

(** That call drains the event and the one its handler published. *)
Example process_with_publishing_handler :
  exists s' ds,
    exec publishing_handlers 3 OpProcess bus_one_event = Some (2, s', ds) /\
    map (fun d => type (d_record d)) ds = [2; 3] /\
    queue_inv (g_queue s').
Proof.
  eexists _, _. split; [reflexivity |]. split; [reflexivity |].
  vm_compute. repeat split; discriminate || reflexivity.
Qed.

(** The scenario of event_example.c in small: one subscriber, one
    observer, one event. *)
Example subscribe_observe_publish_process :
  exists s' calls,
    run quiet_handlers 2
        [OpInit; OpSubscribe 2 200 0; OpRegisterObserver 400 0;
         OpPublish 0 2 2 None 0; OpProcess; OpGetCount]
        (bus_start tt)
      = Some ([0; 0; 0; 0; 1; 0], s',
              [mkDispatched 0 (make_event 0 2 2 None 0) calls]) /\
    targets calls = [(SubSlot 2 0, 200, 0); (ObsSlot 0, 400, 0)].
Proof. eexists _, _. split; reflexivity. Qed.

(** [queue_pop] hands out the address of the slot and frees it at once.
    On a queue that was full that slot is [tail]: a handler that publishes
    while the record is dispatched writes over it, and the handlers after
    it are handed the new record. *)
Example publish_in_handler_reuses_slot :
  type (deref bus_full_popped 0) = 1 /\
  map (fun c => (inv_slot c, inv_callback c, type (inv_record c)))
      (snd (dispatch_event publishing_handlers 0 bus_full_popped))
    = [(SubSlot 1 0, 100, 1); (ObsSlot 0, 400, 3)].
Proof. split; reflexivity. Qed.

(** ** The further properties at concrete buses *)

(** A third subscriber of type 1 on the bus of event_example.c goes into
    slot 2. *)
Lemma subscribe_first_fit_witness :
  ((forall j, (j < EVENT_SUBSCRIBER_MAX)%nat ->
      s_used (sub_at bus_demo 1 j) = true) /\
   EVENT_Subscribe 1 500 0 bus_demo = (-1, bus_demo)) \/
  (exists m s',
     EVENT_Subscribe 1 500 0 bus_demo = (0, s') /\
     (m < EVENT_SUBSCRIBER_MAX)%nat /\
     s_used (sub_at bus_demo 1 m) = false /\
     (forall j, (j < m)%nat -> s_used (sub_at bus_demo 1 j) = true) /\
     sub_at s' 1 m = mkSub 500 0 true /\
     (forall t' j, 0 <= t' -> (t' <> 1 \/ j <> m) ->
                   sub_at s' t' j = sub_at bus_demo t' j) /\
     g_observers s' = g_observers bus_demo /\
     g_queue s' = g_queue bus_demo /\
     g_initialized s' = true /\
     g_rest s' = g_rest bus_demo).
Proof.
  apply (subscribe_first_fit 1 500 0 bus_demo).
  - bus_wf.
  - vm_compute. reflexivity.
  - unfold EVENT_MAX_COUNT. lia.
  - lia.
Defined.

(** A ninth subscriber of a type is refused. *)
Lemma subscribe_counts_witness :
  (fst (EVENT_Subscribe 1 500 0 bus_row_full) = -1
   <-> length (active_subs bus_row_full 1) = EVENT_SUBSCRIBER_MAX) /\
  (fst (EVENT_Subscribe 1 500 0 bus_row_full) = 0 ->
   length (active_subs (snd (EVENT_Subscribe 1 500 0 bus_row_full)) 1)
     = S (length (active_subs bus_row_full 1)) /\
   forall t', 0 <= t' -> t' <> 1 ->
     active_subs (snd (EVENT_Subscribe 1 500 0 bus_row_full)) t'
     = active_subs bus_row_full t').
Proof.
  apply (subscribe_counts 1 500 0 bus_row_full).
  - bus_wf.
  - vm_compute. reflexivity.
  - unfold EVENT_MAX_COUNT. lia.
  - lia.
Defined.

Example ninth_subscriber_refused :
  length (active_subs bus_row_full 1) = EVENT_SUBSCRIBER_MAX /\
  fst (EVENT_Subscribe 1 500 0 bus_row_full) = -1.
Proof. split; reflexivity. Qed.

(** Of the two subscriptions of type 1 of event_example.c, which share
    their callback, the one with argument 11 is in slot 1. *)
Lemma unsubscribe_first_match_witness :
  ((forall j, (j < EVENT_SUBSCRIBER_MAX)%nat ->
      sub_matches bus_demo 1 j 100 11 = false) /\
   EVENT_Unsubscribe 1 100 11 bus_demo = (-1, bus_demo)) \/
  (exists m s',
     EVENT_Unsubscribe 1 100 11 bus_demo = (0, s') /\
     (m < EVENT_SUBSCRIBER_MAX)%nat /\
     sub_matches bus_demo 1 m 100 11 = true /\
     (forall j, (j < m)%nat -> sub_matches bus_demo 1 j 100 11 = false) /\
     sub_at s' 1 m = mkSub 100 11 false /\
     (forall t' j, 0 <= t' -> (t' <> 1 \/ j <> m) ->
                   sub_at s' t' j = sub_at bus_demo t' j) /\
     g_observers s' = g_observers bus_demo /\
     g_queue s' = g_queue bus_demo /\
     g_initialized s' = true /\
     g_rest s' = g_rest bus_demo /\
     wf_bus s').
Proof.
  apply (unsubscribe_first_match 1 100 11 bus_demo).
  - bus_wf.
  - vm_compute. reflexivity.
  - unfold EVENT_MAX_COUNT. lia.
  - lia.
Defined.

Lemma subscribe_then_unsubscribe_witness :
  exists s2,
    EVENT_Unsubscribe 2 500 7 (snd (EVENT_Subscribe 2 500 7 bus_demo))
      = (0, s2) /\
    (forall t', 0 <= t' -> snapshot s2 t' = snapshot bus_demo t') /\
    g_observers s2 = g_observers bus_demo /\
    g_queue s2 = g_queue bus_demo /\
    g_initialized s2 = true /\
    g_rest s2 = g_rest bus_demo.
Proof.
  apply (subscribe_then_unsubscribe 2 500 7 bus_demo).
  - bus_wf.
  - vm_compute. reflexivity.
  - unfold EVENT_MAX_COUNT. lia.
  - lia.
  - vm_compute. reflexivity.
  - vm_compute. reflexivity.
Defined.

(** On a full row the subscriber of slot 2 leaves and a new one takes
    slot 2. *)
Lemma unsubscribe_frees_slot_witness :
  fst (EVENT_Subscribe 1 500 0 (snd (EVENT_Unsubscribe 1 103 3 bus_row_full)))
    = 0 /\
  ((forall j, (j < EVENT_SUBSCRIBER_MAX)%nat ->
      s_used (sub_at bus_row_full 1 j) = true) ->
   exists m, (m < EVENT_SUBSCRIBER_MAX)%nat /\
     sub_at bus_row_full 1 m = mkSub 103 3 true /\
     sub_at (snd (EVENT_Subscribe 1 500 0
                    (snd (EVENT_Unsubscribe 1 103 3 bus_row_full)))) 1 m
       = mkSub 500 0 true /\
     forall j, (j < EVENT_SUBSCRIBER_MAX)%nat -> j <> m ->
       sub_at (snd (EVENT_Subscribe 1 500 0
                      (snd (EVENT_Unsubscribe 1 103 3 bus_row_full)))) 1 j
       = sub_at bus_row_full 1 j).
Proof.
  apply (unsubscribe_frees_slot 1 103 3 500 0 bus_row_full).
  - bus_wf.
  - vm_compute. reflexivity.
  - unfold EVENT_MAX_COUNT. lia.
  - lia.
  - lia.
  - vm_compute. reflexivity.
Defined.

(** Eight subscribers on a bus with one event queued are called, for
    that event, in the order they subscribed. *)
Lemma subscribe_order_witness :
  exists s',
    subscribe_seq 1 eight_subscribers bus_first_event = Some s' /\
    type (deref s' 0) = 1 /\
    targets (snd (dispatch_event quiet_handlers 0 s'))
      = sub_calls bus_first_event 1
        ++ map (fun ip => (SubSlot 1 (fst ip), fst (snd ip), snd (snd ip)))
               (combine (seq 0 (length eight_subscribers)) eight_subscribers)
        ++ map (obs_target bus_first_event) (active_obs bus_first_event).
Proof.
  destruct (subscribe_order 1 eight_subscribers bus_first_event 0)
    as (s' & Hrun & _ & _ & _ & Hq & Hcalls).
  - bus_wf.
  - vm_compute. reflexivity.
  - unfold EVENT_MAX_COUNT. lia.
  - repeat constructor; discriminate.
  - intros i Hi.
    change (sub_at bus_first_event 1 i) with ((subs_zero !!! Z.to_nat 1) !!! i).
    rewrite subs_zero_unused. reflexivity.
  - simpl. unfold EVENT_SUBSCRIBER_MAX. lia.
  - assert (Ht : type (deref s' 0) = 1).
    { unfold deref. rewrite Hq. reflexivity. }
    exists s'. split; [exact Hrun |]. split; [exact Ht |].
    apply Hcalls; [exact Ht | apply quiet_behind_run].
Defined.

(** A fifth observer is refused. *)
Lemma register_observer_first_fit_witness :
  ((forall j, (j < EVENT_OBSERVER_MAX)%nat ->
      o_used (obs_at bus_observers_full j) = true) /\
   EVENT_RegisterObserver 500 0 bus_observers_full = (-1, bus_observers_full))
  \/
  (exists m s',
     EVENT_RegisterObserver 500 0 bus_observers_full = (0, s') /\
     (m < EVENT_OBSERVER_MAX)%nat /\
     o_used (obs_at bus_observers_full m) = false /\
     (forall j, (j < m)%nat -> o_used (obs_at bus_observers_full j) = true) /\
     obs_at s' m = mkObs 500 0 true /\
     (forall j, j <> m -> obs_at s' j = obs_at bus_observers_full j) /\
     g_subscribers s' = g_subscribers bus_observers_full /\
     g_queue s' = g_queue bus_observers_full /\
     g_initialized s' = true /\
     g_rest s' = g_rest bus_observers_full).
Proof.
  apply (register_observer_first_fit 500 0 bus_observers_full).
  - bus_wf.
  - vm_compute. reflexivity.
  - lia.
Defined.

(** The callback 400 is registered with arguments 1 and 2. *)
Lemma unregister_observer_by_callback_witness :
  ((forall j, (j < EVENT_OBSERVER_MAX)%nat ->
      o_used (obs_at bus_observers_full j) = true ->
      o_callback (obs_at bus_observers_full j) <> 400) /\
   EVENT_UnregisterObserver 400 bus_observers_full = (-1, bus_observers_full))
  \/
  (exists m s',
     EVENT_UnregisterObserver 400 bus_observers_full = (0, s') /\
     (m < EVENT_OBSERVER_MAX)%nat /\
     o_used (obs_at bus_observers_full m) = true /\
     o_callback (obs_at bus_observers_full m) = 400 /\
     (forall j, (j < m)%nat ->
        o_used (obs_at bus_observers_full j) = true ->
        o_callback (obs_at bus_observers_full j) <> 400) /\
     obs_at s' m = mkObs 400 (o_arg (obs_at bus_observers_full m)) false /\
     (forall j, j <> m -> obs_at s' j = obs_at bus_observers_full j) /\
     g_subscribers s' = g_subscribers bus_observers_full /\
     g_queue s' = g_queue bus_observers_full /\
     g_initialized s' = true /\
     g_rest s' = g_rest bus_observers_full).
Proof.
  apply (unregister_observer_by_callback 400 bus_observers_full).
  - bus_wf.
  - vm_compute. reflexivity.
  - lia.
Defined.

(** It is the registration with argument 1, in slot 1, that goes. *)
Example unregister_takes_the_first :
  map (fun i => (o_callback (obs_at bus_observers_full i),
                 o_arg (obs_at bus_observers_full i)))
      (active_obs bus_observers_full)
    = [(401, 0); (400, 1); (402, 0); (400, 2)] /\
  map (fun i => (o_callback (obs_at bus_observers_full i),
                 o_arg (obs_at bus_observers_full i)))
      (active_obs (snd (EVENT_UnregisterObserver 400 bus_observers_full)))
    = [(401, 0); (402, 0); (400, 2)].
Proof. split; reflexivity. Qed.

Lemma process_counts_dispatches_witness :
  fst (fst demo_processed) = Z.of_nat (length (snd demo_processed)) /\
  (g_initialized bus_demo_published = true ->
   EVENT_GetCount (snd (fst demo_processed)) = 0) /\
  (g_initialized bus_demo_published = false ->
   snd (fst demo_processed) = bus_demo_published /\ snd demo_processed = []).
Proof.
  apply (process_counts_dispatches quiet_handlers 5 bus_demo_published).
  vm_compute. reflexivity.
Defined.

(** A handler that clears the queue keeps the invariant and adds
    nothing. *)
Lemma clearing_handlers_inv :
  preserves (fun s => queue_inv (g_queue s)) clearing_handlers.
Proof.
  intros cb e a s Hinv. unfold clearing_handlers.
  destruct (cb =? 100); [apply queue_zero_inv | exact Hinv].
Qed.

Lemma clearing_handlers_never_grow : never_grows clearing_handlers.
Proof.
  intros cb e a s Hinv. unfold clearing_handlers.
  destruct (cb =? 100); [simpl; destruct Hinv; lia | lia].
Qed.

Lemma process_terminates_witness :
  exists n s' ds,
    EVENT_Process clearing_handlers 5 bus_demo_published = Some (n, s', ds) /\
    0 <= n <= EVENT_GetCount bus_demo_published.
Proof.
  apply (process_terminates clearing_handlers 5 bus_demo_published).
  - exact clearing_handlers_inv.
  - exact clearing_handlers_never_grow.
  - bus_inv.
  - vm_compute. lia.
Defined.

(** The first subscriber called clears the queue: of the four events
    queued one is dispatched. *)
Example clearing_handler_cuts_the_drain :
  EVENT_GetCount bus_demo_published = 4 /\
  option_map (fun r => fst (fst r))
             (EVENT_Process clearing_handlers 5 bus_demo_published) = Some 1.
Proof. split; vm_compute; reflexivity. Qed.

(** Under [publishing_handlers] the observer at address 100 stays and
    the queue does not shrink. *)
Lemma publishing_keeps_echo :
  preserves (fun x => queue_inv (g_queue x) /\ g_initialized x = true /\
                      (o_used (obs_at x 0) = true /\
                       o_callback (obs_at x 0) = 100)) publishing_handlers /\
  preserves echo_goes_on publishing_handlers /\
  (forall x : Bus unit,
     queue_inv (g_queue x) -> g_initialized x = true ->
     1 <= q_count (g_queue (snd (EVENT_Publish 0 3 0 None 0 x)))).
Proof.
  assert (Hcount : forall x : Bus unit,
            queue_inv (g_queue x) -> g_initialized x = true ->
            1 <= q_count (g_queue (snd (EVENT_Publish 0 3 0 None 0 x))) /\
            q_count (g_queue x)
              <= q_count (g_queue (snd (EVENT_Publish 0 3 0 None 0 x)))).
  { intros x Hinv Hi. set (r := mkPublish 0 3 0 None 0).
    change (EVENT_Publish 0 3 0 None 0 x) with (publish r x).
    destruct (Z.eq_dec (fst (publish r x)) 0) as [H0 | Hne].
    - destruct (publish_ok r x Hinv H0) as (_ & _ & _ & ->). simpl.
      destruct Hinv. lia.
    - rewrite (publish_error r x Hne). simpl.
      destruct (Z_lt_ge_dec (q_count (g_queue x)) EVENT_QUEUE_SIZE) as [Hlt | Hge].
      + elim Hne. apply publish_accepts; simpl;
          [exact Hi | unfold EVENT_MAX_COUNT; lia | left; reflexivity | exact Hlt].
      + unfold EVENT_QUEUE_SIZE in Hge. lia. }
  assert (Hq : preserves (fun x => queue_inv (g_queue x) /\
                 g_initialized x = true /\
                 (o_used (obs_at x 0) = true /\ o_callback (obs_at x 0) = 100))
                 publishing_handlers).
  { intros cb e a x (Hinv & Hi & Ho). unfold publishing_handlers.
    destruct (cb =? 100); [| tauto].
    destruct (publish_frame (mkPublish 0 3 0 None 0) x) as (_ & Hobs & Hin & _).
    split; [apply (publish_inv (mkPublish 0 3 0 None 0)), Hinv |].
    split; [unfold publish in Hin; simpl in Hin; congruence |].
    rewrite (obs_at_ext _ x 0); [exact Ho | exact Hobs]. }
  split; [exact Hq |]. split; [| intros x Hinv Hi; apply Hcount; assumption].
  intros cb e a x (Hinv & Hi & Ho & Hc).
  destruct (Hq cb e a x (conj Hinv (conj Hi Ho))) as (H1 & H2 & H3).
  split; [exact H1 |]. split; [exact H2 |]. split; [exact H3 |].
  unfold publishing_handlers. destruct (cb =? 100); [| exact Hc].
  destruct (Hcount x Hinv Hi). lia.
Qed.

(** One turn of the loop on such a bus leaves such a bus. *)
Lemma echo_step (x : Bus unit) :
  echo_goes_on x ->
  q_count (g_queue x) <> 0 /\
  exists e x1, queue_pop x = (Some e, x1) /\
               echo_goes_on (fst (dispatch_event publishing_handlers e x1)).
Proof.
  intros (Hinv & Hi & Ho & Hc). split; [lia |].
  destruct publishing_keeps_echo as (Hq & Hp & Hpub).
  eexists _, _. split; [apply queue_pop_some; [exact Hinv | lia] |].
  set (e := Z.to_nat (q_head (g_queue x))). set (x1 := with_queue x _).
  rewrite dispatch_event_fst.
  pose proof (dispatch_subscribers_preserves _ publishing_handlers
                EVENT_SUBSCRIBER_MAX 0 e x1 Hq) as Ha.
  destruct Ha as (Hinv2 & Hi2 & Ho2).
  { split; [apply pop_inv; [exact Hinv | lia] |]. split; [exact Hi | exact Ho]. }
  set (x2 := fst (dispatch_subscribers publishing_handlers
                    EVENT_SUBSCRIBER_MAX 0 e x1)) in *.
  change EVENT_OBSERVER_MAX with 4%nat.
  rewrite dispatch_observers_first by apply Ho2.
  apply dispatch_observers_preserves; [exact Hp |].
  destruct Ho2 as [Hu Hcb]. rewrite Hcb. unfold publishing_handlers at 1.
  simpl (100 =? 100).
  destruct (Hq 100 e (o_arg (obs_at x2 0)) x2 (conj Hinv2 (conj Hi2 (conj Hu Hcb))))
    as (H1 & H2 & H3).
  unfold publishing_handlers in H1, H2, H3. simpl (100 =? 100) in H1, H2, H3.
  split; [exact H1 |]. split; [exact H2 |]. split; [exact H3 |].
  apply Hpub; assumption.
Qed.

(** An observer that publishes each time it is called keeps
    [EVENT_Process] in its loop. *)
Lemma process_never_returns_witness :
  EVENT_Process publishing_handlers 1000 bus_echo = None.
Proof.
  apply (process_never_returns publishing_handlers echo_goes_on bus_echo).
  - exact echo_step.
  - unfold echo_goes_on. split; [bus_inv |].
    split; [reflexivity |]. split; [split; reflexivity |].
    vm_compute. discriminate.
  - reflexivity.
Defined.

Lemma never_calls_null_witness :
  (forall rest : unit, reg_ok (bus_start rest)) /\
  reg_ok (snd (fst demo_processed)) /\
  Forall (fun d => Forall (fun c => inv_callback c <> 0) (d_calls d))
         (snd demo_processed).
Proof.
  apply (never_calls_null quiet_handlers 5 OpProcess bus_demo_published
           (fst (fst demo_processed))).
  - intros cb e a s H. exact H.
  - apply reg_ok_check. vm_compute. reflexivity.
  - vm_compute. reflexivity.
Defined.


(** The sensor reading of event_example.c as it is queued: two bytes,
    then thirty zeros. *)
Lemma publish_record_witness :
  exists ev,
    live (g_queue (snd (EVENT_Publish 6 2 1 (Some [1; 104]) 2 bus_demo)))
      = live (g_queue bus_demo) ++ [ev] /\
    type ev = 2 /\ priority ev = 1 /\ timestamp ev = 6 /\
    (0 < 2 -> 2 <= Z.of_nat (length [1; 104]) ->
     data_size ev = 2 /\
     data ev = firstn (Z.to_nat 2) [1; 104]
               ++ repeat 0 (Z.to_nat (EVENT_DATA_SIZE_MAX - 2))) /\
    (2 = 0 ->
     data_size ev = 0 /\ data ev = repeat 0 (Z.to_nat EVENT_DATA_SIZE_MAX)).
Proof.
  apply (publish_record 6 2 1 2 (Some [1; 104]) bus_demo).
  - bus_wf.
  - bus_inv.
  - lia.
  - vm_compute. reflexivity.
Defined.


Lemma queue_step_witness :
  (if q_count (g_queue bus_demo_published) =? EVENT_QUEUE_SIZE
   then queue_push Event_zero bus_demo_published = (-1, bus_demo_published)
   else fst (queue_push Event_zero bus_demo_published) = 0 /\
        live (g_queue (snd (queue_push Event_zero bus_demo_published)))
          = live (g_queue bus_demo_published) ++ [Event_zero] /\
        queue_inv (g_queue (snd (queue_push Event_zero bus_demo_published)))) /\
  (match queue_pop bus_demo_published with
   | (None, s') =>
       s' = bus_demo_published /\ live (g_queue bus_demo_published) = []
   | (Some e, s') =>
       live (g_queue bus_demo_published)
         = deref bus_demo_published e :: live (g_queue s') /\
       q_queue (g_queue s') = q_queue (g_queue bus_demo_published) /\
       queue_inv (g_queue s')
   end).
Proof.
  apply (queue_step Event_zero bus_demo_published).
  - bus_wf.
  - bus_inv.
Defined.

(** The bytes 0x01 0x68 of event_example.c are read as 360. *)
Lemma sensor_temp_big_endian_witness :
  on_sensor_data_temp (make_event 6 2 1 (Some [1; 104]) 2)
    = Some (256 * 1 + 104) /\
  0 <= 256 * 1 + 104 <= 65535 /\
  on_sensor_data_temp (make_event 6 2 1 (Some [1]) 1) = None /\
  on_sensor_data_temp (make_event 6 2 1 None 0) = None /\
  on_sensor_data_temp (make_event 6 2 1 None 2) = None.
Proof.
  apply (sensor_temp_big_endian 6 2 1 1 104 None); lia.
Defined.
